(** * agl_to_nem12: AGL MyUsageData CSV to NEM12 conversion

    A shallow embedding of [agl_to_nem12.py] and the properties of its
    reader, metadata inference and writer.

    Conventions of the embedding.
    - Python [str] is [string]; a character is an [ascii] code.  The
      embedding covers ASCII text; [upper], [lower], the digit and blank
      tests are those of Python on ASCII characters.
    - Python [float] is IEEE binary64, represented by the Standard
      Library's [spec_float] at precision 53 and maximal exponent 1024.
    - [None] is [option]'s [None]; a raised exception that the program
      catches with [except Exception] is the [None] of the [option] monad
      in which the reader and the writer run.
    - The CSV layer is outside the embedding: the reader receives the
      field names and the rows that [csv.DictReader] yields, the writer
      produces the field lists handed to [csv.writer.writerow].  What the
      two file paths do, a file that is missing, cannot be read to its
      end, cannot be opened or fails while it is written, is an argument
      of the conversion.
    - [strftime] is that of CPython 3.11 on Linux, where the C library
      writes the year of [%Y] without leading zeros; from the year 1000 on
      this is the four-digit year of every platform. *)

From Stdlib Require Import ZArith String Ascii List Bool.
From Stdlib Require Import SpecFloat DecimalString.
From stdpp Require Import base option list gmap strings sorting.

Local Open Scope string_scope.
Local Open Scope list_scope.
Local Open Scope Z_scope.

(** ** Configuration constants *)

Definition NEM12_VERSION : string := "NEM12".
Definition FROM_PARTICIPANT : string := "AGL".
Definition TO_PARTICIPANT : string := "Converter".
Definition DEFAULT_UOM : string := "kWh".

(** [QUALITY_MAP]: the AGL quality flag to NEM12 quality flag table. *)
Definition QUALITY_MAP : gmap string string :=
  <["A" := "A"]> (<["F" := "F"]> (<["E" := "E"]> (<["S" := "S"]> (<["N" := "N"]> ∅)))).

Definition DEFAULT_QUALITY : string := "E".

(** The two module globals, set once by the command line layer before the
    conversion starts and only read afterwards. *)
Record config := Config {
  INTERVAL_LENGTH : Z;
  INTERVALS_PER_DAY : Z
}.

(** The values the globals hold when the module is imported. *)
Definition default_config : config := Config 30 48.

(** The values the command line layer installs for [--interval L]. *)
Definition cli_config (L : Z) : config := Config L ((24 * 60) `div` L).

(** ** Characters *)

Definition code (c : ascii) : Z := Z.of_nat (nat_of_ascii c).

Definition is_digit (c : ascii) : bool := (48 <=? code c) && (code c <=? 57).

Definition digit_val (c : ascii) : Z := code c - 48.

(** [str.upper] and [str.lower] on one ASCII letter. *)
Definition upper_char (c : ascii) : ascii :=
  if (97 <=? code c) && (code c <=? 122)
  then ascii_of_nat (nat_of_ascii c - 32) else c.

Definition lower_char (c : ascii) : ascii :=
  if (65 <=? code c) && (code c <=? 90)
  then ascii_of_nat (nat_of_ascii c + 32) else c.

Fixpoint upper (s : string) : string :=
  match s with
  | EmptyString => EmptyString
  | String c s' => String (upper_char c) (upper s')
  end.

Fixpoint lower (s : string) : string :=
  match s with
  | EmptyString => EmptyString
  | String c s' => String (lower_char c) (lower s')
  end.

(** [c in s] for a one-character needle. *)
Fixpoint contains_char (c : ascii) (s : string) : bool :=
  match s with
  | EmptyString => false
  | String a s' => Ascii.eqb a c || contains_char c s'
  end.

(** [s.startswith(c)] for a one-character prefix. *)
Definition startswith_char (c : ascii) (s : string) : bool :=
  match s with
  | EmptyString => false
  | String a _ => Ascii.eqb a c
  end.

(** [s.split(sep)] for a one-character separator: never the empty list. *)
Fixpoint split_char (sep : ascii) (s : string) : list string :=
  match s with
  | EmptyString => [EmptyString]
  | String c s' =>
      if Ascii.eqb c sep then EmptyString :: split_char sep s'
      else match split_char sep s' with
           | piece :: rest => String c piece :: rest
           | [] => [String c EmptyString]
           end
  end.

(** ** Suffix extraction: [get_suffix_from_register] *)

(** The character class [[EBVQKNeqvkn]] of the pattern, as written. *)
Definition suffix_class : list ascii :=
  ["E"; "B"; "V"; "Q"; "K"; "N"; "e"; "q"; "v"; "k"; "n"]%char.

Definition in_suffix_class (c : ascii) : bool :=
  existsb (Ascii.eqb c) suffix_class.

(** The tail [\d*$] of the pattern; [$] also matches just before a final
    line feed. *)
Fixpoint digits_to_end (s : string) : bool :=
  match s with
  | EmptyString => true
  | String c EmptyString => is_digit c || Ascii.eqb c "010"%char
  | String c s' => is_digit c && digits_to_end s'
  end.

(** [bool(re.match(r'^[EBVQKNeqvkn]\d+$', suffix))]. *)
Definition is_standard_suffix (suffix : string) : bool :=
  match suffix with
  | String c (String d rest) =>
      in_suffix_class c && is_digit d && digits_to_end rest
  | _ => false
  end.

Definition get_suffix_from_register (register_code : string)
  : option string * bool :=
  if String.eqb register_code "" then (None, false)
  else if contains_char "#" register_code then
    let suffix := List.last (split_char "#" register_code) "" in
    if String.eqb suffix "" then (None, false)
    else (Some suffix, is_standard_suffix suffix)
  else (None, false).

(** The pattern in the words of the specification: one letter of
    E, B, V, Q, K, N in either case, then one or more digits. *)
Definition spec_suffix_letters : list ascii :=
  ["E"; "B"; "V"; "Q"; "K"; "N"]%char.

Definition spec_is_standard_suffix (suffix : string) : bool :=
  match suffix with
  | String c (String d rest) =>
      existsb (Ascii.eqb (upper_char c)) spec_suffix_letters
      && forallb is_digit (d :: list_ascii_of_string rest)
  | _ => false
  end.

(** ** Stream classification *)

Inductive stream_kind := INTERVAL | GENERATION | CONSUMPTION | REACTIVE.

Definition stream_kind_name (k : stream_kind) : string :=
  match k with
  | INTERVAL => "INTERVAL"
  | GENERATION => "GENERATION"
  | CONSUMPTION => "CONSUMPTION"
  | REACTIVE => "REACTIVE"
  end.

(** The [if]/[elif] chain that sets [mdm_data_stream_id]. *)
Definition mdm_data_stream_id (suffix : string) : stream_kind :=
  let s_upper := upper suffix in
  if startswith_char "B" s_upper then GENERATION
  else if startswith_char "E" s_upper || startswith_char "V" s_upper
  then CONSUMPTION
  else if startswith_char "Q" s_upper || startswith_char "K" s_upper
  then REACTIVE
  else INTERVAL.

(** ** Day quality: [determine_day_quality] *)

Definition present_qualities (interval_qualities : list string)
  : gset string :=
  list_to_set (filter (λ q, q ≠ "") interval_qualities).

Definition determine_day_quality (interval_qualities : list string)
  : string :=
  let present := present_qualities interval_qualities in
  if decide (present = ∅) then DEFAULT_QUALITY
  else if decide ("N" ∈ present) then "N"
  else if decide ("S" ∈ present) then "S"
  else if decide ("E" ∈ present) then "E"
  else if decide ("F" ∈ present) then "F"
  else if decide ("A" ∈ present) then "A"
  else DEFAULT_QUALITY.

(** The order the program tests the codes in. *)
Definition code_priority : list string := ["N"; "S"; "E"; "F"; "A"].

(** The order the specification names: substituted, estimate, actual,
    final, and last the code left over. *)
Definition spec_priority : list string := ["S"; "E"; "A"; "F"; "N"].

(** The first code of [priority] that occurs in [codes], else the default. *)
Definition first_present (priority codes : list string) : string :=
  from_option id DEFAULT_QUALITY
    (find (λ c, bool_decide (c ∈ codes)) priority).

(** ** Decimal rendering of integers *)

Definition dec_of_Z (n : Z) : string :=
  DecimalString.NilZero.string_of_uint (N.to_uint (Z.to_N n)).

Fixpoint zeros (k : nat) : string :=
  match k with
  | O => EmptyString
  | S k' => String "0" (zeros k')
  end.

(** [%0wd] of a non-negative integer. *)
Definition pad_dec (w : nat) (n : Z) : string :=
  let s := dec_of_Z n in
  zeros (w - String.length s) +:+ s.

(** ** Dates and times *)

Record date := Date { d_year : Z; d_month : Z; d_day : Z }.

Record datetime := DateTime {
  dt_date : date;
  hour : Z;
  minute : Z;
  second : Z
}.

Definition is_leap (y : Z) : bool :=
  (y mod 4 =? 0) && (negb (y mod 100 =? 0) || (y mod 400 =? 0)).

Definition days_in_month (y m : Z) : Z :=
  if m =? 2 then (if is_leap y then 29 else 28)
  else if (m =? 4) || (m =? 6) || (m =? 9) || (m =? 11) then 30
  else 31.

(** The range checks of the [date] and [datetime] constructors; a failed
    check is the [ValueError] that [parse_agl_datetime] catches. *)
Definition valid_date (d : date) : bool :=
  (1 <=? d_year d) && (d_year d <=? 9999)
  && (1 <=? d_month d) && (d_month d <=? 12)
  && (1 <=? d_day d) && (d_day d <=? days_in_month (d_year d) (d_month d)).

Definition valid_time (h mi s : Z) : bool :=
  (0 <=? h) && (h <=? 23) && (0 <=? mi) && (mi <=? 59)
  && (0 <=? s) && (s <=? 59).

(** *** [strptime] with the format [%d/%m/%Y %I:%M:%S %p]

    [strptime] compiles the format to a regular expression and takes its
    first match at the start of the text.  A parser below returns the
    matches of its directive in the order the expression tries them. *)

Definition parser (A : Type) : Type := string → list (A * string).

Definition p_bind {A B} (p : parser A) (f : A → parser B) : parser B :=
  λ s, flat_map (λ ar, f (fst ar) (snd ar)) (p s).

Definition p_ret {A} (a : A) : parser A := λ s, [(a, s)].

Notation "'let*' x ':=' p 'in' q" := (p_bind p (λ x, q))
  (at level 10, x binder, p at level 100, q at level 200).

(** Two characters accepted by [ok], read as a two-digit number. *)
Definition two_chars (ok : ascii → ascii → bool) : parser Z :=
  λ s, match s with
       | String a (String b r) =>
           if ok a b then [(10 * digit_val a + digit_val b, r)] else []
       | _ => []
       end.

Definition one_char (ok : ascii → bool) : parser Z :=
  λ s, match s with
       | String a r => if ok a then [(digit_val a, r)] else []
       | _ => []
       end.

Definition p_alt {A} (p q : parser A) : parser A := λ s, p s ++ q s.

Definition in_range (lo hi : Z) (c : ascii) : bool :=
  (lo <=? code c) && (code c <=? hi).

Definition is_char (x : ascii) (c : ascii) : bool := Ascii.eqb c x.

(** The white space of an ASCII text for [\s]: the blank, the characters
    9 to 13 and the separators 28 to 31. *)
Definition is_space (c : ascii) : bool :=
  in_range 9 13 c || in_range 28 32 c.

(** [%d]: [3[0-1]|[1-2]\d|0[1-9]|[1-9]| [1-9]]. *)
Definition p_day : parser Z :=
  p_alt (two_chars (λ a b, is_char "3" a && in_range 48 49 b))
  (p_alt (two_chars (λ a b, in_range 49 50 a && is_digit b))
  (p_alt (two_chars (λ a b, is_char "0" a && in_range 49 57 b))
  (p_alt (one_char (in_range 49 57))
         (λ s, match s with
               | String a (String b r) =>
                   if is_char " " a && in_range 49 57 b
                   then [(digit_val b, r)] else []
               | _ => []
               end)))).

(** [%m] and [%I]: [1[0-2]|0[1-9]|[1-9]]. *)
Definition p_1_to_12 : parser Z :=
  p_alt (two_chars (λ a b, is_char "1" a && in_range 48 50 b))
  (p_alt (two_chars (λ a b, is_char "0" a && in_range 49 57 b))
         (one_char (in_range 49 57))).

(** [%Y]: [\d\d\d\d]. *)
Definition p_year : parser Z :=
  let* hi := two_chars (λ a b, is_digit a && is_digit b) in
  let* lo := two_chars (λ a b, is_digit a && is_digit b) in
  p_ret (100 * hi + lo).

(** [%M]: [[0-5]\d|\d]. *)
Definition p_minute : parser Z :=
  p_alt (two_chars (λ a b, in_range 48 53 a && is_digit b))
        (one_char is_digit).

(** [%S]: [6[0-1]|[0-5]\d|\d]. *)
Definition p_second : parser Z :=
  p_alt (two_chars (λ a b, is_char "6" a && in_range 48 49 b))
  (p_alt (two_chars (λ a b, in_range 48 53 a && is_digit b))
         (one_char is_digit)).

Definition p_lit (c : ascii) : parser unit :=
  λ s, match s with
       | String a r => if Ascii.eqb a c then [(tt, r)] else []
       | _ => []
       end.

(** All the ways to drop a non-empty run of white space, longest first. *)
Fixpoint drop_spaces (s : string) : list string :=
  match s with
  | String a r => if is_space a then drop_spaces r ++ [r] else []
  | EmptyString => []
  end.

(** A blank of the format is [\s+]. *)
Definition p_spaces : parser unit := λ s, map (λ r, (tt, r)) (drop_spaces s).

(** [%p]: [am|pm] with case ignored; [true] is PM. *)
Definition p_ampm : parser bool :=
  λ s, match s with
       | String a (String b r) =>
           if is_char "m" (lower_char b) then
             if is_char "a" (lower_char a) then [(false, r)]
             else if is_char "p" (lower_char a) then [(true, r)]
             else []
           else []
       | _ => []
       end.

Record strptime_fields := Fields {
  f_day : Z; f_month : Z; f_year : Z;
  f_hour12 : Z; f_minute : Z; f_second : Z; f_pm : bool
}.

Definition p_agl_format : parser strptime_fields :=
  let* d := p_day in let* _ := p_lit "/" in
  let* m := p_1_to_12 in let* _ := p_lit "/" in
  let* y := p_year in let* _ := p_spaces in
  let* h := p_1_to_12 in let* _ := p_lit ":" in
  let* mi := p_minute in let* _ := p_lit ":" in
  let* s := p_second in let* _ := p_spaces in
  let* pm := p_ampm in
  p_ret (Fields d m y h mi s pm).

(** The 12-hour clock conversion of [strptime]. *)
Definition hour24 (h12 : Z) (pm : bool) : Z :=
  if pm then (if h12 =? 12 then 12 else h12 + 12)
  else (if h12 =? 12 then 0 else h12).

(** [datetime.strptime(dt_str, '%d/%m/%Y %I:%M:%S %p')]; [None] stands
    for the [ValueError] of a text that does not match, of unconverted
    text after the match and of a date or time out of range. *)
Definition strptime_agl (dt_str : string) : option datetime :=
  match p_agl_format dt_str with
  | (f, rest) :: _ =>
      let d := Date (f_year f) (f_month f) (f_day f) in
      let h := hour24 (f_hour12 f) (f_pm f) in
      if String.eqb rest ""
         && valid_date d && valid_time h (f_minute f) (f_second f)
      then Some (DateTime d h (f_minute f) (f_second f))
      else None
  | [] => None
  end.

Definition parse_agl_datetime (dt_str : option string) : option datetime :=
  match dt_str with
  | None => None
  | Some s => if String.eqb s "" then None else strptime_agl s
  end.

(** [get_interval_index]; its first argument is [None] or a datetime and
    a datetime is always true. *)
Definition get_interval_index (cfg : config) (dt_obj : option datetime)
    (interval_length_minutes : Z) : option Z :=
  match dt_obj with
  | None => None
  | Some dt =>
      if interval_length_minutes <=? 0 then None
      else
        let minutes_past_midnight := hour dt * 60 + minute dt in
        let index := minutes_past_midnight `div` interval_length_minutes in
        if (0 <=? index) && (index <? INTERVALS_PER_DAY cfg)
        then Some index else None
  end.

(** [strftime('%Y%m%d')] and [strftime('%Y%m%d%H%M%S')]: the year in
    decimal, without leading zeros, then two digits for each other field. *)
Definition format_nem12_date (date_obj : date) : string :=
  dec_of_Z (d_year date_obj) +:+ pad_dec 2 (d_month date_obj)
  +:+ pad_dec 2 (d_day date_obj).

Definition format_nem12_datetime (dt_obj : datetime) : string :=
  format_nem12_date (dt_date dt_obj) +:+ pad_dec 2 (hour dt_obj)
  +:+ pad_dec 2 (minute dt_obj) +:+ pad_dec 2 (second dt_obj).

(** ** Floating point values

    A Python [float] is a binary64 number: [pyfloat] is [spec_float] with
    precision 53 and maximal exponent 1024. *)

Definition pyfloat : Type := spec_float.

Definition prec64 : Z := 53.
Definition emax64 : Z := 1024.

(** The literal [0.0]. *)
Definition float_zero : pyfloat := S754_zero false.

(** The binary64 number nearest to [num / den], ties to even, for
    [0 < num] and [0 < den]. *)
Definition round_quotient (neg : bool) (num den : Z) : pyfloat :=
  SFdiv prec64 emax64 (S754_finite neg (Z.to_pos num) 0)
                      (S754_finite false (Z.to_pos den) 0).

(** The value of a run of decimal digits. *)
Definition digits_value (ds : list ascii) : Z :=
  fold_left (λ acc c, 10 * acc + digit_val c) ds 0.

(** The continuation [(["_"] digit)*] of a [digitpart]. *)
Fixpoint digitpart_rest (s : string) : list ascii * string :=
  match s with
  | String c s' =>
      if is_digit c then
        let '(ds, r) := digitpart_rest s' in (c :: ds, r)
      else if Ascii.eqb c "_" then
        match s' with
        | String d s'' =>
            if is_digit d then
              let '(ds, r) := digitpart_rest s'' in (d :: ds, r)
            else ([], s)
        | EmptyString => ([], s)
        end
      else ([], s)
  | EmptyString => ([], s)
  end.

(** [digitpart ::= digit (["_"] digit)*]. *)
Definition digitpart (s : string) : option (list ascii * string) :=
  match s with
  | String c s' =>
      if is_digit c then
        let '(ds, r) := digitpart_rest s' in Some (c :: ds, r)
      else None
  | EmptyString => None
  end.

Definition sign_of (s : string) : bool * string :=
  match s with
  | String "+" r => (false, r)
  | String "-" r => (true, r)
  | _ => (false, s)
  end.

(** [number ::= [digitpart] "." digitpart | digitpart ["."]]: the digits
    before and after the point. *)
Definition number (s : string)
  : option (list ascii * list ascii * string) :=
  match digitpart s with
  | Some (ip, String "." r) =>
      match digitpart r with
      | Some (fp, r') => Some (ip, fp, r')
      | None => Some (ip, [], r)
      end
  | Some (ip, r) => Some (ip, [], r)
  | None =>
      match s with
      | String "." r =>
          match digitpart r with
          | Some (fp, r') => Some ([], fp, r')
          | None => None
          end
      | _ => None
      end
  end.

(** [exponent ::= ("e" | "E") [sign] digitpart], absent when the text
    ends after the number. *)
Definition exponent (s : string) : option Z :=
  match s with
  | EmptyString => Some 0
  | String c r =>
      if is_char "e" (lower_char c) then
        let '(neg, r') := sign_of r in
        match digitpart r' with
        | Some (ds, EmptyString) =>
            Some (if neg then - digits_value ds else digits_value ds)
        | _ => None
        end
      else None
  end.

(** The white space that [float] drops at both ends of its argument:
    the blank, and the tab, line feed, vertical tab, form feed and
    carriage return.  The separators 28 to 31, white space for [strptime],
    are none for [float]. *)
Definition is_float_space (c : ascii) : bool :=
  in_range 9 13 c || is_char " " c.

Fixpoint lstrip (s : string) : string :=
  match s with
  | String c r => if is_float_space c then lstrip r else s
  | EmptyString => s
  end.

Fixpoint rstrip (s : string) : string :=
  match s with
  | String c r =>
      match rstrip r with
      | EmptyString =>
          if is_float_space c then EmptyString else String c EmptyString
      | r' => String c r'
      end
  | EmptyString => EmptyString
  end.

Definition strip (s : string) : string := rstrip (lstrip s).

(** [float(value_str)] on a string; [None] is the [ValueError] of a text
    that is not a [floatvalue]. *)
Definition float_of_string (value_str : string) : option pyfloat :=
  let '(neg, body) := sign_of (strip value_str) in
  let low := lower body in
  if String.eqb low "inf" || String.eqb low "infinity"
  then Some (S754_infinity neg)
  else if String.eqb low "nan" then Some S754_nan
  else
    match number body with
    | Some (ip, fp, r) =>
        match exponent r with
        | Some e =>
            let mant := digits_value (ip ++ fp) in
            let k := e - Z.of_nat (length fp) in
            Some (if mant =? 0 then S754_zero neg
                  else if 0 <=? k then round_quotient neg (mant * 10 ^ k) 1
                  else round_quotient neg mant (10 ^ (- k)))
        | None => None
        end
    | None => None
    end.

(** The integer nearest to [num / den], ties to even, for [0 < den]. *)
Definition round_half_even (num den : Z) : Z :=
  let q := num `div` den in
  let r := num `mod` den in
  match 2 * r ?= den with
  | Lt => q
  | Gt => q + 1
  | Eq => if Z.even q then q else q + 1
  end.

(** The magnitude of a finite float in thousandths, rounded. *)
Definition thousandths (m : positive) (e : Z) : Z :=
  if 0 <=? e then Z.pos m * 2 ^ e * 1000
  else round_half_even (Z.pos m * 1000) (2 ^ (- e)).

Definition sign_text (neg : bool) : string := if neg then "-" else "".

(** [f"{val:.3f}"]. *)
Definition format_3f (val : pyfloat) : string :=
  match val with
  | S754_zero neg => sign_text neg +:+ "0.000"
  | S754_infinity neg => sign_text neg +:+ "inf"
  | S754_nan => "nan"
  | S754_finite neg m e =>
      let t := thousandths m e in
      sign_text neg +:+ dec_of_Z (t `div` 1000) +:+ "." +:+ pad_dec 3 (t `mod` 1000)
  end.

(** ** The bucket structure *)

#[global] Instance date_eq_dec : EqDecision date.
Proof. solve_decision. Defined.

#[global] Instance date_countable : Countable date :=
  inj_countable' (λ d, (d_year d, d_month d, d_day d))
                 (λ t, Date t.1.1 t.1.2 t.2) (λ d, match d with Date _ _ _ => eq_refl end).

(** One day of one stream: the two parallel lists of the inner dict. *)
Record day_data := DayData {
  intervals : list (option pyfloat);
  quality : list string
}.

(** The default factory of the innermost [defaultdict]. *)
Definition new_day_data (cfg : config) : day_data :=
  DayData (replicate (Z.to_nat (INTERVALS_PER_DAY cfg)) None)
          (replicate (Z.to_nat (INTERVALS_PER_DAY cfg)) "").

(** The value stored in [nmi_details[nmi][suffix]]. *)
Record details := Details {
  NMISuffix : string;
  MDMDataStreamIdentifier : stream_kind;
  MeterSerialNumber : string;
  UOM : string;
  IntervalLength : Z;
  NextScheduledReadDate : string
}.

(** [l[i] = v] on a Python list: a negative index counts from the end and
    an index out of range raises [IndexError], here [None]. *)
Definition list_setitem {A} (l : list A) (i : Z) (v : A) : option (list A) :=
  let n := Z.of_nat (length l) in
  let j := if i <? 0 then i + n else i in
  if (0 <=? j) && (j <? n) then Some (<[Z.to_nat j := v]> l) else None.

(** ** Messages

    What the program prints, in order.  Each constructor is one [print]
    call; the text is given beside it. *)
Inductive message :=
| MsgReading (input_filepath : string)
    (* Reading AGL data from: ... *)
| MsgExpecting (intervals_per_day interval_length : Z)
    (* Expecting ... intervals of ... minutes. *)
| ErrMissingHeaders (found : list string)
    (* Error: Input CSV missing one or more expected AGL headers: ... *)
| ErrInputNotFound (input_filepath : string)
    (* Error: Input file not found: ... *)
| ErrUnexpectedReading
    (* An unexpected error occurred reading CSV: ... *)
| InfoSkipped (skipped_rows : Z)
    (* Info: Skipped ... rows due to missing/invalid data during reading. *)
| MsgNoValidRows
    (* No valid data rows processed. *)
| MsgFinishedReading (row_count processed_rows : Z)
    (* Finished reading AGL data. Read ... rows, processed ... *)
| MsgFoundNMIs (count : Z)
    (* Found data for ... NMIs. *)
| MsgWriting (output_filepath : string)
    (* Writing NEM12 data to: ... *)
| WarnSuffix (nmi suffix : string)
    (* Warning: NMI ..., extracted Suffix '...' does not match common
       patterns (E#, B#, V#, etc). Verify if correct. *)
| WarnTruncating (nmi : string)
    (* Warning: NMI ... generated NMIConfiguration string exceeds 255
       chars. Truncating. *)
| ErrInconsistency (nmi suffix date_text : string) (expected found : Z)
    (* Error: Data inconsistency NMI ..., Suffix ..., Date .... Expected
       ... intervals, found .... Skipping day. *)
| MsgSuccess (output_filepath : string)
    (* Successfully converted data to ... *)
| ErrWriting
    (* Error writing NEM12 file: ... *)
| ErrUnexpectedWriting.
    (* An unexpected error occurred during NEM12 writing: ... *)

(** The messages sent to [sys.stderr]; the others go to standard output. *)
Definition to_stderr (m : message) : bool :=
  match m with
  | ErrMissingHeaders _ | ErrInputNotFound _ | ErrUnexpectedReading
  | WarnSuffix _ _ | WarnTruncating _ | ErrInconsistency _ _ _ _ _
  | ErrWriting | ErrUnexpectedWriting => true
  | _ => false
  end.

(** ** Reader *)

(** One row of [csv.DictReader]: the six values that [row.get] returns,
    [None] for a column the row is too short to fill. *)
Record row := Row {
  NMI : option string;
  RegisterCode : option string;
  StartDate : option string;
  ProfileReadValue : option string;
  QualityFlag : option string;
  DeviceNumber : option string
}.

(** Truth value of a [str] or [None]. *)
Definition truthy (field : option string) : bool :=
  match field with
  | Some s => negb (String.eqb s "")
  | None => false
  end.

Definition is_not_None {A} (field : option A) : bool :=
  match field with Some _ => true | None => false end.

(** The [all([...])] guard on the six fields of a row. *)
Definition fields_present (r : row) : bool :=
  forallb id [ truthy (NMI r); truthy (RegisterCode r); truthy (StartDate r);
               is_not_None (ProfileReadValue r); truthy (QualityFlag r);
               truthy (DeviceNumber r) ].

(** [QUALITY_MAP.get(quality_agl, DEFAULT_QUALITY)]. *)
Definition map_quality (quality_agl : string) : string :=
  default DEFAULT_QUALITY (QUALITY_MAP !! quality_agl).

(** The [try]/[except (ValueError, TypeError)] around [float(value_str)]. *)
Definition value_and_quality (value_str quality_agl : string)
  : pyfloat * string :=
  match float_of_string value_str with
  | Some value => (value, map_quality quality_agl)
  | None => (float_zero, "N")
  end.

Record reader_state := ReaderState {
  data : gmap string (gmap string (gmap date day_data));
  nmi_details : gmap string (gmap string details);
  warned_suffixes : gset (string * string);
  row_count : Z;
  processed_rows : Z;
  skipped_rows : Z;
  printed : list message
}.

Definition initial_state : reader_state :=
  ReaderState ∅ ∅ ∅ 0 0 0 [].

(** [skipped_rows += 1; continue], after [row_count += 1]. *)
Definition skip_row (st : reader_state) : reader_state :=
  ReaderState (data st) (nmi_details st) (warned_suffixes st)
    (row_count st + 1) (processed_rows st) (skipped_rows st + 1) (printed st).

(** [data[nmi][suffix][interval_date]], each level created when absent. *)
Definition bucket_of (cfg : config)
    (d : gmap string (gmap string (gmap date day_data)))
    (nmi suffix : string) (interval_date : date) : day_data :=
  default (new_day_data cfg)
    (default ∅ (default ∅ (d !! nmi) !! suffix) !! interval_date).

Definition store_bucket (d : gmap string (gmap string (gmap date day_data)))
    (nmi suffix : string) (interval_date : date) (dd : day_data)
  : gmap string (gmap string (gmap date day_data)) :=
  let of_nmi := default ∅ (d !! nmi) in
  let of_suffix := default ∅ (of_nmi !! suffix) in
  <[nmi := <[suffix := <[interval_date := dd]> of_suffix]> of_nmi]> d.

(** The block under [if suffix not in nmi_details[nmi]]. *)
Definition record_details (cfg : config) (st : reader_state)
    (nmi suffix device_num : string) (is_standard_pattern : bool)
  : gmap string (gmap string details) * gset (string * string) * list message :=
  let of_nmi := default ∅ (nmi_details st !! nmi) in
  match of_nmi !! suffix with
  | Some _ => (<[nmi := of_nmi]> (nmi_details st), warned_suffixes st, [])
  | None =>
      let warn :=
        negb is_standard_pattern
        && bool_decide ((nmi, suffix) ∉ warned_suffixes st) in
      let entry :=
        Details suffix (mdm_data_stream_id suffix) device_num DEFAULT_UOM
                (INTERVAL_LENGTH cfg) "" in
      (<[nmi := <[suffix := entry]> of_nmi]> (nmi_details st),
       if warn then {[ (nmi, suffix) ]} ∪ warned_suffixes st
       else warned_suffixes st,
       if warn then [WarnSuffix nmi suffix] else [])
  end.

(** What one pass of the [for row in reader] loop does to a row. *)
Inductive row_result :=
| Skipped
| Stored (nmi suffix : string) (interval_date : date) (interval_index : Z)
         (value : pyfloat) (quality_nem12 : string)
         (device_num : string) (is_standard_pattern : bool).

(** The checks and conversions of the loop body, up to the bucket write. *)
Definition classify_row (cfg : config) (r : row) : row_result :=
  if negb (fields_present r) then Skipped
  else
    match NMI r, RegisterCode r, ProfileReadValue r,
          QualityFlag r, DeviceNumber r with
    | Some nmi, Some register_code, Some value_str,
      Some quality_agl, Some device_num =>
        match parse_agl_datetime (StartDate r) with
        | None => Skipped
        | Some start_dt =>
            let interval_date := dt_date start_dt in
            match get_interval_index cfg (Some start_dt) (INTERVAL_LENGTH cfg) with
            | None => Skipped
            | Some interval_index =>
                match get_suffix_from_register register_code with
                | (Some suffix, is_standard_pattern) =>
                    if String.eqb suffix "" then Skipped
                    else
                      let '(value, quality_nem12) :=
                        value_and_quality value_str quality_agl in
                      Stored nmi suffix interval_date interval_index
                             value quality_nem12 device_num is_standard_pattern
                | (None, _) => Skipped
                end
            end
        end
    | _, _, _, _, _ => Skipped
    end.

(** The loop body; [None] is an exception escaping it. *)
Definition process_row (cfg : config) (st : reader_state) (r : row)
  : option reader_state :=
  match classify_row cfg r with
  | Skipped => Some (skip_row st)
  | Stored nmi suffix interval_date interval_index value quality_nem12
           device_num is_standard_pattern =>
      let day := bucket_of cfg (data st) nmi suffix interval_date in
      ivs ← list_setitem (intervals day) interval_index (Some value);
      qs ← list_setitem (quality day) interval_index quality_nem12;
      let '(nd, ws, msgs) :=
        record_details cfg st nmi suffix device_num is_standard_pattern in
      Some (ReaderState
              (store_bucket (data st) nmi suffix interval_date (DayData ivs qs))
              nd ws (row_count st + 1) (processed_rows st + 1)
              (skipped_rows st) (printed st ++ msgs))
  end.

Fixpoint read_rows (cfg : config) (st : reader_state) (rows : list row)
  : option reader_state :=
  match rows with
  | [] => Some st
  | r :: rest => st' ← process_row cfg st r; read_rows cfg st' rest
  end.

(** ** Writer *)

(** A row handed to [csv.writer.writerow]: its fields in order, numbers
    already converted with [str]. *)
Definition record : Type := list string.

(** [str] of an integer. *)
Definition str_of_Z (n : Z) : string :=
  if n <? 0 then "-" +:+ dec_of_Z (- n) else dec_of_Z n.

(** The order [sorted] uses on strings: by character code, then length. *)
Definition string_le (s1 s2 : string) : Prop := String.leb s1 s2 = true.

#[global] Instance string_le_dec : RelDecision string_le.
Proof. intros s1 s2; unfold string_le; apply _. Defined.

(** The order [sorted] uses on dates: by year, then month, then day. *)
Definition date_le (d1 d2 : date) : Prop :=
  d_year d1 < d_year d2
  ∨ (d_year d1 = d_year d2
     ∧ (d_month d1 < d_month d2
        ∨ (d_month d1 = d_month d2 ∧ d_day d1 <= d_day d2))).

#[global] Instance date_le_dec : RelDecision date_le.
Proof. intros d1 d2; unfold date_le; apply _. Defined.

(** [sorted(m.keys())] for the two kinds of key. *)
Definition sorted_strings {V} (m : gmap string V) : list string :=
  merge_sort string_le (map fst (map_to_list m)).

Definition sorted_dates {V} (m : gmap date V) : list date :=
  merge_sort date_le (map fst (map_to_list m)).

(** [s[:n]]. *)
Definition take_string (n : nat) (s : string) : string := String.substring 0 n s.

(** One turn of the [for i, val in enumerate(intervals)] loop. *)
Definition render_slot (val : option pyfloat) (q : string) : string * string :=
  let interval_quality := if String.eqb q "" then DEFAULT_QUALITY else q in
  match val with
  | Some v => (format_3f v, interval_quality)
  | None => ("0.000", "S")
  end.

(** The whole loop from position [i] on: [processed_intervals] and
    [final_qualities_for_day].  [qualities[i]] raises [IndexError] when
    [qualities] is the shorter list. *)
Fixpoint render_slots (ivs : list (option pyfloat)) (qualities : list string)
    (i : nat) : option (list string * list string) :=
  match ivs with
  | [] => Some ([], [])
  | val :: rest =>
      q ← qualities !! i;
      '(ps, qs) ← render_slots rest qualities (S i);
      let '(p, fq) := render_slot val q in
      Some (p :: ps, fq :: qs)
  end.

Definition all_None (ivs : list (option pyfloat)) : bool :=
  forallb (λ v, negb (is_not_None v)) ivs.

(** The body of [for interval_date in sorted(...)]: the records written
    and the messages printed for one day. *)
Definition write_day (cfg : config) (nmi suffix : string)
    (interval_date : date) (day : day_data)
  : option (list record * list message) :=
  if all_None (intervals day) then Some ([], [])
  else
    '(processed_intervals, final_qualities_for_day) ←
      render_slots (intervals day) (quality day) 0;
    if negb (Z.of_nat (length processed_intervals) =? INTERVALS_PER_DAY cfg)
    then Some ([], [ErrInconsistency nmi suffix (format_nem12_date interval_date)
                      (INTERVALS_PER_DAY cfg)
                      (Z.of_nat (length processed_intervals))])
    else
      let day_quality_method := determine_day_quality final_qualities_for_day in
      Some ([ ["300"; format_nem12_date interval_date]
              ++ processed_intervals
              ++ [day_quality_method; ""; ""; ""] ], []).

(** Sequencing of loop turns that write records and print messages. *)
Fixpoint for_each {A} (f : A → option (list record * list message))
    (l : list A) : option (list record * list message) :=
  match l with
  | [] => Some ([], [])
  | x :: rest =>
      '(r1, m1) ← f x;
      '(r2, m2) ← for_each f rest;
      Some (r1 ++ r2, m1 ++ m2)
  end.

(** The body of [for suffix in sorted(nmi_details[nmi].keys())]. *)
Definition write_stream (cfg : config) (st : reader_state)
    (nmi nmi_config_string suffix : string)
  : option (list record * list message) :=
  det ← default ∅ (nmi_details st !! nmi) !! suffix;
  let nmi_suffix_date_data := default ∅ (default ∅ (data st !! nmi) !! suffix) in
  '(days, msgs) ←
    for_each (λ interval_date,
                day ← nmi_suffix_date_data !! interval_date;
                write_day cfg nmi suffix interval_date day)
             (sorted_dates nmi_suffix_date_data);
  Some ([ ["200"; nmi; nmi_config_string; ""; NMISuffix det;
           stream_kind_name (MDMDataStreamIdentifier det);
           MeterSerialNumber det; UOM det; str_of_Z (IntervalLength det);
           NextScheduledReadDate det] ] ++ days, msgs).

(** The body of [for nmi in sorted(data.keys())]. *)
Definition write_nmi (cfg : config) (st : reader_state) (nmi : string)
  : option (list record * list message) :=
  let observed_suffixes := sorted_strings (default ∅ (nmi_details st !! nmi)) in
  let joined := String.concat "" observed_suffixes in
  let too_long := (255 <? String.length joined)%nat in
  let nmi_config_string := if too_long then take_string 255 joined else joined in
  '(recs, msgs) ←
    for_each (write_stream cfg st nmi nmi_config_string) observed_suffixes;
  Some (recs, (if too_long then [WarnTruncating nmi] else []) ++ msgs).

(** Everything written between opening the output file and the final
    message; [now] is the value of [datetime.now()]. *)
Definition write_nem12 (cfg : config) (now : datetime) (st : reader_state)
  : option (list record * list message) :=
  '(recs, msgs) ← for_each (write_nmi cfg st) (sorted_strings (data st));
  Some ([ ["100"; NEM12_VERSION; format_nem12_datetime now;
           FROM_PARTICIPANT; TO_PARTICIPANT] ] ++ recs ++ [ ["900"] ], msgs).

(** ** The conversion *)

Record csv_file := CsvFile {
  fieldnames : list string;
  rows : list row
}.

Definition expected_headers : list string :=
  ["NMI"; "RegisterCode"; "StartDate"; "ProfileReadValue"; "QualityFlag";
   "DeviceNumber"].

(** What the input path gives to the reader. *)
Inductive input_source :=
| InputNotFound
    (* [open] raises [FileNotFoundError] *)
| InputUnreadable
    (* [open], or the reading of the header line, raises another
       exception *)
| InputRead (file : csv_file)
    (* the header line and the rows of the file, read to its end *)
| InputCut (file : csv_file)
    (* the header line and the rows read before the decoding or the csv
       layer raises an exception *).

(** What the output path does for the writer. *)
Inductive output_sink :=
| SinkAccepts
    (* the file opens, takes every record and closes *)
| SinkRefuses
    (* [open] raises [OSError]: the path is left as it was *)
| SinkBreaks (printed_before : nat)
    (* the file opens; a write, or the closing of the file, raises
       [OSError] when the writer has printed that many of its messages *).

(** The state of the output path when the process ends: not touched,
    opened and left with a part of the records at most, or holding all
    the records. *)
Inductive output_file :=
| NotWritten
| Partial
| Written (records : list record).

Record outcome := Outcome {
  exit_status : Z;
  messages : list message;
  output : output_file
}.

(** The [with open(output_filepath, 'w', ...)] block and its two
    handlers; [head] holds the messages printed so far. *)
Definition write_output (cfg : config) (now : datetime)
    (output_filepath : string) (sink : output_sink) (st : reader_state)
    (head : list message) : outcome :=
  match sink with
  | SinkRefuses => Outcome 1 (head ++ [ErrWriting]) NotWritten
  | _ =>
      match write_nem12 cfg now st with
      | None =>
          (* an exception of the writer loops: no state of the reader
             raises one *)
          Outcome 1 (head ++ [ErrUnexpectedWriting]) Partial
      | Some (recs, msgs) =>
          match sink with
          | SinkBreaks printed_before =>
              Outcome 1 (head ++ take printed_before msgs ++ [ErrWriting])
                      Partial
          | _ =>
              Outcome 0 (head ++ msgs ++ [MsgSuccess output_filepath])
                      (Written recs)
          end
      end
  end.

(** [convert_agl_to_nem12] followed by the end of the process. *)
Definition convert_agl_to_nem12 (cfg : config) (now : datetime)
    (input_filepath output_filepath : string)
    (input : input_source) (sink : output_sink) : outcome :=
  let start := [MsgReading input_filepath;
                MsgExpecting (INTERVALS_PER_DAY cfg) (INTERVAL_LENGTH cfg)] in
  let from_header (file : csv_file) (to_end : bool) :=
    if negb (forallb (λ h, bool_decide (h ∈ fieldnames file)) expected_headers)
    then Outcome 1 (start ++ [ErrMissingHeaders (fieldnames file)]) NotWritten
    else
      match read_rows cfg initial_state (rows file) with
      | None =>
          (* an exception of the loop body: no row raises one *)
          Outcome 1 (start ++ [ErrUnexpectedReading]) NotWritten
      | Some st =>
          if negb to_end
          then Outcome 1 (start ++ printed st ++ [ErrUnexpectedReading])
                       NotWritten
          else
            let info :=
              if 0 <? skipped_rows st then [InfoSkipped (skipped_rows st)]
              else [] in
            if bool_decide (data st = ∅)
            then Outcome 0 (start ++ printed st ++ info ++ [MsgNoValidRows])
                         NotWritten
            else
              write_output cfg now output_filepath sink st
                (start ++ printed st ++ info
                 ++ [MsgFinishedReading (row_count st) (processed_rows st);
                     MsgFoundNMIs (Z.of_nat (size (data st)));
                     MsgWriting output_filepath])
      end in
  match input with
  | InputNotFound =>
      Outcome 1 (start ++ [ErrInputNotFound input_filepath]) NotWritten
  | InputUnreadable => Outcome 1 (start ++ [ErrUnexpectedReading]) NotWritten
  | InputRead file => from_header file true
  | InputCut file => from_header file false
  end.

(** ** Predicates used in the statements *)

(** A finite float: neither an infinity nor a NaN. *)
Definition is_finite (v : pyfloat) : bool :=
  match v with
  | S754_zero _ | S754_finite _ _ _ => true
  | S754_infinity _ | S754_nan => false
  end.

(** A text of the shape [-]d+.ddd: an optional minus sign, at least one
    digit, a point and exactly three digits. *)
Definition is_three_decimals (s : string) : bool :=
  let body := match s with
              | String c r => if Ascii.eqb c "-" then r else s
              | EmptyString => s
              end in
  match rev (list_ascii_of_string body) with
  | f3 :: f2 :: f1 :: pt :: ip =>
      is_digit f1 && is_digit f2 && is_digit f3 && Ascii.eqb pt "."
      && negb (Nat.eqb (length ip) 0) && forallb is_digit ip
  | _ => false
  end.

(** A text made of digits only, and a text of exactly three digits. *)
Definition all_digits (s : string) : bool :=
  forallb is_digit (list_ascii_of_string s).

Definition three_digits (s : string) : bool :=
  match s with
  | String a (String b (String c EmptyString)) =>
      is_digit a && is_digit b && is_digit c
  | _ => false
  end.

(** The cells of a day as the writer renders them: the text and the code
    of each slot. *)
Definition rendered_slots (day : day_data) : list (string * string) :=
  zip_with render_slot (intervals day) (quality day).

(** The bucket of a (meter, suffix, date) key, when the key is present. *)
Definition lookup_bucket (d : gmap string (gmap string (gmap date day_data)))
    (nmi suffix : string) (interval_date : date) : option day_data :=
  of_nmi ← d !! nmi; of_suffix ← of_nmi !! suffix; of_suffix !! interval_date.

(** The shape every bucket has while the program runs: both lists hold
    one entry per interval of the day, a filled slot carries a quality
    code, and some slot is filled. *)
Record day_ok (cfg : config) (day : day_data) : Prop := DayOk {
  ok_intervals : Z.of_nat (length (intervals day)) = INTERVALS_PER_DAY cfg;
  ok_quality : Z.of_nat (length (quality day)) = INTERVALS_PER_DAY cfg;
  ok_coded : ∀ i v, intervals day !! i = Some (Some v) →
                    ∃ q, quality day !! i = Some q ∧ q ≠ "";
  ok_filled : all_None (intervals day) = false
}.

Definition data_ok (cfg : config)
    (d : gmap string (gmap string (gmap date day_data))) : Prop :=
  ∀ nmi suffix interval_date day,
    lookup_bucket d nmi suffix interval_date = Some day → day_ok cfg day.

(** The rows that the reader skips, by condition: a field other than the
    value is missing or empty, the value is missing, the timestamp does
    not parse, no slot is computed, or no suffix is extracted. *)
Definition skip_condition (cfg : config) (r : row) : bool :=
  negb (truthy (NMI r)) || negb (truthy (RegisterCode r))
  || negb (truthy (StartDate r)) || negb (truthy (QualityFlag r))
  || negb (truthy (DeviceNumber r))
  || negb (is_not_None (ProfileReadValue r))
  || negb (is_not_None (parse_agl_datetime (StartDate r)))
  || negb (is_not_None (get_interval_index cfg (parse_agl_datetime (StartDate r))
                                           (INTERVAL_LENGTH cfg)))
  || negb (is_not_None (fst (get_suffix_from_register
                               (default "" (RegisterCode r))))).

(** The skip rule in the words of the specification, which also counts
    an empty value among the missing fields. *)
Definition spec_skip_condition (cfg : config) (r : row) : bool :=
  skip_condition cfg r || negb (truthy (ProfileReadValue r)).

(** Every stream with a bucket has its entry in [nmi_details]. *)
Definition details_cover (st : reader_state) : Prop :=
  ∀ nmi suffix interval_date day,
    lookup_bucket (data st) nmi suffix interval_date = Some day →
    is_Some (default ∅ (nmi_details st !! nmi) !! suffix).

Definition is_inconsistency (m : message) : bool :=
  match m with ErrInconsistency _ _ _ _ _ => true | _ => false end.

(** The row of the sample scenario, and variants of it. *)
Definition sample_row : row :=
  Row (Some "NMI123456") (Some "E1#E1") (Some "01/06/2024 12:30:00 AM")
      (Some "1.234") (Some "A") (Some "DEV1").

Definition sample_row_with_value (value_str : string) : row :=
  Row (NMI sample_row) (RegisterCode sample_row) (StartDate sample_row)
      (Some value_str) (QualityFlag sample_row) (DeviceNumber sample_row).

(** A value that starts with the unit separator, character 31, which
    [float] does not drop: it is no number. *)
Definition separator_value : string := String "031" "1.5".

Definition sample_row_with_flag (flag : option string) : row :=
  Row (NMI sample_row) (RegisterCode sample_row) (StartDate sample_row)
      (ProfileReadValue sample_row) flag (DeviceNumber sample_row).

Definition sample_date : date := Date 2024 6 1.

Definition sample_file (rs : list row) : input_source :=
  InputRead (CsvFile expected_headers rs).

Definition sample_now : datetime := DateTime (Date 2025 1 2) 3 4 5.

(** The day record that a file with the single row [r] produces for the
    bucket of the sample scenario. *)
Definition sample_day_record (cfg : config) (r : row) : option record :=
  st ← read_rows cfg initial_state [r];
  day ← lookup_bucket (data st) "NMI123456" "E1" sample_date;
  out ← write_day cfg "NMI123456" "E1" sample_date day;
  head (fst out).

(** The entry of a stream in [nmi_details], when there is one. *)
Definition details_of (st : reader_state) (nmi suffix : string)
  : option details :=
  default ∅ (nmi_details st !! nmi) !! suffix.

(** What holds of the warnings while the reader runs: no warning is
    printed twice, only suffix warnings are printed, a stream has its
    warning exactly when it has details and a suffix off the pattern, and
    every pair in [warned_suffixes] has details. *)
Definition warnings_ok (st : reader_state) : Prop :=
  NoDup (printed st)
  ∧ (∀ m, m ∈ printed st → ∃ n s, m = WarnSuffix n s)
  ∧ (∀ n s, WarnSuffix n s ∈ printed st
            ↔ is_Some (details_of st n s) ∧ is_standard_suffix s = false)
  ∧ (∀ n s, (n, s) ∈ warned_suffixes st → is_Some (details_of st n s)).

(** The record type of a record, its first field. *)
Definition record_type (r : record) : string := hd "" r.

(** The day record of a well-formed day. *)
Definition day_record (interval_date : date) (day : day_data) : record :=
  ["300"; format_nem12_date interval_date]
  ++ (rendered_slots day).*1
  ++ [determine_day_quality (rendered_slots day).*2; ""; ""; ""].

(** Every entry of [nmi_details] is filed under its own suffix and holds
    the kind of that suffix, the unit and the interval length of the run. *)
Definition details_ok (cfg : config) (st : reader_state) : Prop :=
  ∀ nmi suffix det,
    details_of st nmi suffix = Some det →
    ∃ device_num,
      det = Details suffix (mdm_data_stream_id suffix) device_num DEFAULT_UOM
                    (INTERVAL_LENGTH cfg) "".

(** The character of a decimal digit, a number below one hundred on two
    digits, and a date and time written the way the input has them:
    DD/MM/YYYY hh:mm:ss AM or PM, with the hour on the 12-hour clock. *)
Definition digit_char (n : Z) : ascii := ascii_of_nat (Z.to_nat (48 + n)).

Definition two_digits (n : Z) : string :=
  String (digit_char (n `div` 10)) (String (digit_char (n `mod` 10)) "").

Definition hour12 (h : Z) : Z := if h `mod` 12 =? 0 then 12 else h `mod` 12.

Definition agl_text (dt : datetime) : string :=
  two_digits (d_day (dt_date dt)) +:+ "/"
  +:+ two_digits (d_month (dt_date dt)) +:+ "/"
  +:+ two_digits (d_year (dt_date dt) `div` 100)
  +:+ two_digits (d_year (dt_date dt) `mod` 100) +:+ " "
  +:+ two_digits (hour12 (hour dt)) +:+ ":"
  +:+ two_digits (minute dt) +:+ ":"
  +:+ two_digits (second dt) +:+ " "
  +:+ (if hour dt <? 12 then "AM" else "PM").

(** The first match of a parser. *)
Definition first_match {A} (p : parser A) (s : string) (v : A) (rest : string)
  : Prop :=
  ∃ others, p s = (v, rest) :: others.

(** The ten digits, and the text of a reading below ten given with three
    decimals by its digits. *)
Definition ten : list Z := [0; 1; 2; 3; 4; 5; 6; 7; 8; 9].

Definition reading_text (a b c d : Z) : string :=
  String (digit_char a)
    (String "." (String (digit_char b) (String (digit_char c)
       (String (digit_char d) "")))).

(** Reading the text and formatting the float gives the text back. *)
Definition reading_roundtrip (a b c d : Z) : bool :=
  match float_of_string (reading_text a b c d) with
  | Some v => is_finite v && String.eqb (format_3f v) (reading_text a b c d)
  | None => false
  end.

(** A year from 1000 on, written in decimal, is the century and the year
    in it on two digits each. *)
Definition year_text_ok (a b c d : Z) : bool :=
  let y := 1000 * a + 100 * b + 10 * c + d in
  (a =? 0)
  || String.eqb (dec_of_Z y)
                (two_digits (y `div` 100) +:+ two_digits (y `mod` 100)).

(** The state the reader builds from the sample row, with one more day of
    the same stream that holds no reading. *)
Definition sample_state_with_empty_day : option reader_state :=
  st ← read_rows default_config initial_state [sample_row];
  Some (ReaderState
          (store_bucket (data st) "NMI123456" "E1" (Date 2024 6 2)
                        (new_day_data default_config))
          (nmi_details st) (warned_suffixes st) (row_count st)
          (processed_rows st) (skipped_rows st) (printed st)).

(** * Properties *)

#[local] Arguments get_interval_index : simpl never.
#[local] Arguments parse_agl_datetime : simpl never.
#[local] Arguments get_suffix_from_register : simpl never.
#[local] Arguments value_and_quality : simpl never.
#[local] Arguments float_of_string : simpl never.
#[local] Arguments format_3f : simpl never.
#[local] Arguments determine_day_quality : simpl never.

(** ** Stream classification *)

(** C7. The stream kind of a suffix is a function of its first character
    alone, in either case: B or b gives GENERATION, E, e, V or v gives
    CONSUMPTION, Q, q, K or k gives REACTIVE, and any other first
    character, like the empty suffix, gives INTERVAL. *)
Theorem stream_kind_by_leading_letter (c : ascii) (rest : string) :
  mdm_data_stream_id (String c rest)
  = match c with
    | "B" | "b" => GENERATION
    | "E" | "e" | "V" | "v" => CONSUMPTION
    | "Q" | "q" | "K" | "k" => REACTIVE
    | _ => INTERVAL
    end%char
  ∧ (∀ rest', mdm_data_stream_id (String c rest')
              = mdm_data_stream_id (String c rest))
  ∧ mdm_data_stream_id "" = INTERVAL.
Proof.
  split_and!; [| done | done].
  destruct c as [[] [] [] [] [] [] [] []]; reflexivity.
Qed.

(** ** Suffix extraction *)

Lemma split_char_nonempty (sep : ascii) (s : string) : split_char sep s ≠ [].
Proof.
  destruct s as [|c s]; simpl; [done |].
  destruct (Ascii.eqb c sep); [done |].
  by destruct (split_char sep s).
Qed.

(** The pieces of a split: the last one holds no separator; a lone piece
    is the whole text, and otherwise the text ends with the separator
    followed by the last piece. *)
Lemma split_char_last (sep : ascii) (s : string) :
  let pieces := split_char sep s in
  contains_char sep (List.last pieces "") = false
  ∧ match pieces with
    | [] => False
    | [p] => s = p ∧ contains_char sep s = false
    | _ => (∃ before, s = before +:+ String sep (List.last pieces ""))
           ∧ contains_char sep s = true
    end.
Proof.
  induction s as [|c s IH]; simpl; [done |].
  destruct IH as [IHlast IHshape].
  destruct (Ascii.eqb_spec c sep) as [-> | Hne].
  - destruct (split_char sep s) as [|p ps]; [done |].
    split; [exact IHlast |]. split; [| done].
    destruct ps as [|p' ps'].
    + destruct IHshape as [-> _]. by exists "".
    + destruct IHshape as [[before ->] _]. by exists (String sep before).
  - destruct (split_char sep s) as [|p ps]; [done |].
    destruct ps as [|p' ps'].
    + destruct IHshape as [-> Hc]. simpl in *.
      destruct (Ascii.eqb_spec c sep); [done |]. simpl.
      rewrite Hc. by repeat split.
    + destruct IHshape as [[before ->] Hc].
      split; [exact IHlast |]. split.
      * by exists (String c before).
      * destruct (Ascii.eqb c sep); [done | exact Hc].
Qed.

(** An extracted suffix is the text after the last [#] of the register
    code: it is not empty, holds no [#], and the code ends with [#] and
    the suffix. *)
Lemma suffix_after_last_hash (register_code suffix : string) (std : bool) :
  get_suffix_from_register register_code = (Some suffix, std) →
  suffix ≠ "" ∧ contains_char "#" suffix = false
  ∧ (∃ before, register_code = before +:+ String "#" suffix)
  ∧ std = is_standard_suffix suffix.
Proof.
  unfold get_suffix_from_register.
  destruct (String.eqb register_code ""); [discriminate |].
  destruct (contains_char "#" register_code) eqn:Hc; [| discriminate].
  destruct (String.eqb_spec (List.last (split_char "#" register_code) "") "")
    as [| Hne]; [discriminate |].
  intros [= <- <-].
  pose proof (split_char_last "#" register_code) as [Hlast Hshape].
  split; [exact Hne |]. split; [exact Hlast |]. split; [| done].
  destruct (split_char "#" register_code) as [|p [|p' ps]]; [done | |].
  - destruct Hshape as [_ Hc']. congruence.
  - by destruct Hshape as [Hb _].
Qed.

(** A register code with a [#] followed by a non-empty tail always
    yields a suffix, whatever the tail looks like. *)
Lemma suffix_accepted (before suffix : string) :
  suffix ≠ "" → contains_char "#" suffix = false →
  get_suffix_from_register (before +:+ String "#" suffix)
  = (Some suffix, is_standard_suffix suffix).
Proof.
  intros Hne Hno.
  assert (Hsplit : ∀ b, List.last (split_char "#" (b +:+ String "#" suffix)) ""
                        = suffix
                        ∧ contains_char "#" (b +:+ String "#" suffix) = true
                        ∧ b +:+ String "#" suffix ≠ "").
  { induction b as [|c b (IH1 & IH2 & IH3)]; simpl.
    - pose proof (split_char_last "#" suffix) as [_ Hshape].
      destruct (split_char "#" suffix) as [|p [|p' ps]]; [done | |].
      + destruct Hshape as [-> _]. done.
      + destruct Hshape as [_ Hc]. congruence.
    - split; [| split; [| done]].
      + destruct (Ascii.eqb c "#").
        * destruct (split_char "#" (b +:+ String "#" suffix)) eqn:Hs; [| done].
          by destruct (split_char_nonempty "#" (b +:+ String "#" suffix)).
        * destruct (split_char "#" (b +:+ String "#" suffix)) as [|p [|p' ps]] eqn:Hs.
          -- by destruct (split_char_nonempty "#" (b +:+ String "#" suffix)).
          -- pose proof (split_char_last "#" (b +:+ String "#" suffix)) as [_ Hshape].
             rewrite Hs in Hshape. destruct Hshape as [_ Hc]. congruence.
          -- exact IH1.
      + rewrite IH2. by destruct (Ascii.eqb c "#"). }
  destruct (Hsplit before) as (Hl & Hc & Hn).
  unfold get_suffix_from_register.
  destruct (String.eqb_spec (before +:+ String "#" suffix) ""); [done |].
  rewrite Hc, Hl.
  by destruct (String.eqb_spec suffix "").
Qed.

(** C6. The register code [E1#b1] yields the suffix [b1], a [B] in lower
    case followed by a digit, and the program does not class it as
    standard, while [E1#B1] and [E1#e1] are standard: the character class
    of the pattern lists the lower-case letters without [b]. *)
Theorem lowercase_b_suffix_not_standard :
  get_suffix_from_register "E1#b1" = (Some "b1", false)
  ∧ spec_is_standard_suffix "b1" = true
  ∧ get_suffix_from_register "E1#B1" = (Some "B1", true)
  ∧ get_suffix_from_register "E1#e1" = (Some "e1", true).
Proof. repeat split. Qed.

(** ** Day quality *)

Lemma elem_of_present_qualities (q : string) (qs : list string) :
  q ∈ present_qualities qs ↔ q ∈ qs ∧ q ≠ "".
Proof.
  unfold present_qualities.
  rewrite elem_of_list_to_set, list_elem_of_filter. tauto.
Qed.

Lemma present_qualities_empty (qs : list string) :
  present_qualities qs = ∅ ↔ ∀ q, q ∈ qs → q = "".
Proof.
  split.
  - intros He q Hq. destruct (decide (q = "")) as [| Hne]; [done |].
    assert (q ∈ present_qualities qs) as Hin
      by (apply elem_of_present_qualities; done).
    rewrite He in Hin. by apply not_elem_of_empty in Hin.
  - intros Hall. apply set_eq. intros q.
    rewrite elem_of_present_qualities. split.
    + intros [Hq Hne]. by specialize (Hall q Hq).
    + intros Hq. by apply not_elem_of_empty in Hq.
Qed.

(** The chain of tests of [determine_day_quality] is a search through
    [code_priority]. *)
Lemma determine_day_quality_first_present (qs : list string) :
  determine_day_quality qs = first_present code_priority qs.
Proof.
  unfold determine_day_quality, first_present, code_priority. simpl.
  repeat case_bool_decide; repeat case_decide; simpl; try done;
    repeat match goal with
    | H : _ ∈ present_qualities _ |- _ =>
        apply elem_of_present_qualities in H as [? ?]
    | H : ¬ (_ ∈ present_qualities _) |- _ =>
        rewrite elem_of_present_qualities in H
    | H : present_qualities _ = ∅ |- _ =>
        rewrite present_qualities_empty in H
    end;
    try tauto;
    try (exfalso;
         match goal with
         | H : ∀ q, q ∈ ?l → q = "", H' : ?c ∈ ?l |- _ =>
             specialize (H c H'); discriminate
         end);
    try (exfalso;
         match goal with
         | H : ¬ (?c ∈ ?l ∧ ?c ≠ "") , H' : ?c ∈ ?l |- _ =>
             apply H; split; [exact H' | discriminate]
         end).
Qed.

(** C2, as stated, fails on a day with the codes N and S: the program
    answers N, and the order of the claim puts S first. *)
Lemma day_quality_claimed_order_fails :
  determine_day_quality ["N"; "S"] ≠ first_present spec_priority ["N"; "S"].
Proof. vm_compute. discriminate. Qed.

(** C2, amended. The day quality is the first of N, S, E, F, A that occurs
    among the codes of the day, and E when none occurs, so when every code
    is absent; it is the same for two days with the same set of codes. *)
Theorem day_quality_by_priority (qs qs' : list string) :
  (∀ q, q ∈ qs ↔ q ∈ qs') →
  determine_day_quality qs' = first_present code_priority qs
  ∧ ((∀ q, q ∈ qs → q = "") → determine_day_quality qs' = DEFAULT_QUALITY).
Proof.
  intros Hsame.
  assert (Heq : first_present code_priority qs' = first_present code_priority qs).
  { unfold first_present, code_priority. simpl.
    by rewrite !(bool_decide_ext _ _ (Hsame _)). }
  rewrite determine_day_quality_first_present, Heq.
  split; [done |].
  intros Hall. unfold first_present, code_priority. simpl.
  repeat case_bool_decide; try done;
    match goal with
    | H : ?c ∈ qs |- _ => specialize (Hall c H); discriminate
    end.
Qed.

Lemma day_quality_by_priority_witness :
  determine_day_quality ["S"; "A"] = first_present code_priority ["A"; "S"; "A"]
  ∧ ((∀ q, q ∈ ["A"; "S"; "A"] → q = "") →
     determine_day_quality ["S"; "A"] = DEFAULT_QUALITY).
Proof.
  apply (day_quality_by_priority ["A"; "S"; "A"] ["S"; "A"]).
  intros q. rewrite !elem_of_cons. tauto.
Defined.

(** ** The bucket structure under the reader *)

Lemma bucket_of_lookup (cfg : config)
    (d : gmap string (gmap string (gmap date day_data)))
    (nmi suffix : string) (interval_date : date) :
  bucket_of cfg d nmi suffix interval_date
  = default (new_day_data cfg) (lookup_bucket d nmi suffix interval_date).
Proof.
  unfold bucket_of, lookup_bucket.
  destruct (d !! nmi) as [of_nmi|]; simpl; [| by rewrite !lookup_empty].
  destruct (of_nmi !! suffix) as [of_suffix|]; simpl; [done |].
  by rewrite lookup_empty.
Qed.

Lemma lookup_bucket_store
    (d : gmap string (gmap string (gmap date day_data)))
    (nmi suffix : string) (interval_date : date) (dd : day_data)
    (nmi' suffix' : string) (interval_date' : date) :
  lookup_bucket (store_bucket d nmi suffix interval_date dd)
                nmi' suffix' interval_date'
  = if decide (nmi = nmi' ∧ suffix = suffix' ∧ interval_date = interval_date')
    then Some dd
    else lookup_bucket d nmi' suffix' interval_date'.
Proof.
  unfold lookup_bucket, store_bucket.
  destruct (decide (nmi = nmi')) as [<- | Hn].
  - rewrite lookup_insert_eq. simpl.
    destruct (decide (suffix = suffix')) as [<- | Hs].
    + rewrite lookup_insert_eq. simpl.
      destruct (decide (interval_date = interval_date')) as [<- | Hd].
      * rewrite lookup_insert_eq. by rewrite decide_True.
      * rewrite lookup_insert_ne by done. rewrite decide_False by tauto.
        destruct (d !! nmi) as [of_nmi|]; simpl; [| by rewrite !lookup_empty].
        destruct (of_nmi !! suffix); simpl; [done | by rewrite lookup_empty].
    + rewrite lookup_insert_ne by done. rewrite decide_False by tauto.
      destruct (d !! nmi) as [of_nmi|]; simpl; [done | by rewrite lookup_empty].
  - rewrite lookup_insert_ne by done. by rewrite decide_False by tauto.
Qed.

Lemma list_setitem_in_range {A} (l : list A) (i : Z) (v : A) :
  0 <= i < Z.of_nat (length l) →
  list_setitem l i v = Some (<[Z.to_nat i := v]> l).
Proof.
  intros [Hlo Hhi]. unfold list_setitem.
  destruct (Z.ltb_spec i 0); [lia |].
  destruct (Z.leb_spec 0 i); [| lia].
  destruct (Z.ltb_spec i (Z.of_nat (length l))); [done | lia].
Qed.

Lemma all_None_false (ivs : list (option pyfloat)) (i : nat) (v : pyfloat) :
  ivs !! i = Some (Some v) → all_None ivs = false.
Proof.
  intros Hi. destruct (all_None ivs) eqn:Hall; [| done].
  unfold all_None in Hall. rewrite forallb_forall in Hall.
  apply list_elem_of_lookup_2, list_elem_of_In in Hi.
  by specialize (Hall _ Hi).
Qed.

Lemma all_None_replicate (n : nat) : all_None (replicate n None) = true.
Proof. induction n; simpl; [done | exact IHn]. Qed.

(** ** Quality mapping *)

(** The table is the identity on its five flags; every other flag gets
    the default. *)
Lemma map_quality_cases (flag : string) :
  map_quality flag
  = if bool_decide (flag ∈ ["A"; "F"; "E"; "S"; "N"]) then flag
    else DEFAULT_QUALITY.
Proof.
  unfold map_quality, QUALITY_MAP.
  rewrite !lookup_insert, lookup_empty.
  case_bool_decide as Hin.
  - rewrite !elem_of_cons, elem_of_nil in Hin.
    destruct Hin as [-> | [-> | [-> | [-> | [-> | []]]]]]; reflexivity.
  - repeat case_decide; subst; simpl; try done;
      exfalso; apply Hin; rewrite !elem_of_cons; tauto.
Qed.

Lemma map_quality_nonempty (flag : string) : map_quality flag ≠ "".
Proof.
  rewrite map_quality_cases. case_bool_decide as Hin; [| done].
  rewrite !elem_of_cons, elem_of_nil in Hin.
  destruct Hin as [-> | [-> | [-> | [-> | [-> | []]]]]]; done.
Qed.

Lemma value_and_quality_nonempty (value_str flag : string) :
  snd (value_and_quality value_str flag) ≠ "".
Proof.
  unfold value_and_quality.
  destruct (float_of_string value_str); simpl;
    [apply map_quality_nonempty | done].
Qed.

(** ** The checks on a row *)

Lemma truthy_Some (field : option string) :
  truthy field = true ↔ ∃ s, field = Some s ∧ s ≠ "".
Proof.
  destruct field as [s|]; simpl.
  - destruct (String.eqb_spec s ""); split; try done.
    + intros (s' & [= <-] & Hne). done.
    + intros _. by exists s.
  - split; [done | by intros (s & ? & _)].
Qed.

(** What a stored row went through. *)
Lemma classify_row_stored (cfg : config) (r : row)
    (nmi suffix : string) (interval_date : date) (interval_index : Z)
    (value : pyfloat) (quality_nem12 device_num : string) (std : bool) :
  classify_row cfg r
  = Stored nmi suffix interval_date interval_index value quality_nem12
           device_num std
  ↔ ∃ register_code value_str quality_agl start_dt,
      fields_present r = true
      ∧ NMI r = Some nmi ∧ RegisterCode r = Some register_code
      ∧ ProfileReadValue r = Some value_str
      ∧ QualityFlag r = Some quality_agl ∧ DeviceNumber r = Some device_num
      ∧ parse_agl_datetime (StartDate r) = Some start_dt
      ∧ interval_date = dt_date start_dt
      ∧ get_interval_index cfg (Some start_dt) (INTERVAL_LENGTH cfg)
        = Some interval_index
      ∧ get_suffix_from_register register_code = (Some suffix, std)
      ∧ value_and_quality value_str quality_agl = (value, quality_nem12).
Proof.
  unfold classify_row. split.
  - destruct (fields_present r); simpl; [| discriminate].
    destruct (NMI r) as [nmi0|]; [| discriminate].
    destruct (RegisterCode r) as [code0|]; [| discriminate].
    destruct (ProfileReadValue r) as [vs|]; [| discriminate].
    destruct (QualityFlag r) as [flag|]; [| discriminate].
    destruct (DeviceNumber r) as [dev|]; [| discriminate].
    destruct (parse_agl_datetime (StartDate r)) as [dt|]; [| discriminate].
    destruct (get_interval_index cfg (Some dt) (INTERVAL_LENGTH cfg))
      as [idx|] eqn:Hidx; [| discriminate].
    destruct (get_suffix_from_register code0) as [[sfx|] st0] eqn:Hsfx;
      [| discriminate].
    destruct (String.eqb sfx ""); [discriminate |].
    destruct (value_and_quality vs flag) as [v q] eqn:Hvq. simpl.
    intros [= <- <- <- <- <- <- <- <-].
    by exists code0, vs, flag, dt.
  - intros (code0 & vs & flag & dt & -> & -> & -> & -> & -> & -> & -> & ->
            & -> & Hsfx & Hvq).
    simpl. rewrite Hsfx.
    apply suffix_after_last_hash in Hsfx as (Hne & _).
    destruct (String.eqb_spec suffix ""); [done |].
    by rewrite Hvq.
Qed.

Lemma get_interval_index_range (cfg : config) (dt : option datetime)
    (len idx : Z) :
  get_interval_index cfg dt len = Some idx →
  0 <= idx < INTERVALS_PER_DAY cfg.
Proof.
  unfold get_interval_index. destruct dt as [dt|]; [| discriminate].
  destruct (len <=? 0); [discriminate |].
  destruct (Z.leb_spec 0 ((hour dt * 60 + minute dt) `div` len)); simpl;
    [| discriminate].
  destruct (Z.ltb_spec ((hour dt * 60 + minute dt) `div` len)
                       (INTERVALS_PER_DAY cfg)); [| discriminate].
  intros [= <-]. lia.
Qed.

(** ** The reader keeps every bucket well formed *)

(** A bucket as the reader finds it, existing or fresh: both lists have
    the length of a day, and every filled slot has a code. *)
Lemma bucket_of_shape (cfg : config)
    (d : gmap string (gmap string (gmap date day_data)))
    (nmi suffix : string) (interval_date : date) :
  data_ok cfg d → 0 <= INTERVALS_PER_DAY cfg →
  let day := bucket_of cfg d nmi suffix interval_date in
  Z.of_nat (length (intervals day)) = INTERVALS_PER_DAY cfg
  ∧ Z.of_nat (length (quality day)) = INTERVALS_PER_DAY cfg
  ∧ ∀ i v, intervals day !! i = Some (Some v) →
           ∃ q, quality day !! i = Some q ∧ q ≠ "".
Proof.
  intros Hok Hpos. simpl. rewrite bucket_of_lookup.
  destruct (lookup_bucket d nmi suffix interval_date) as [day|] eqn:Hl; simpl.
  - destruct (Hok _ _ _ _ Hl) as [H1 H2 H3 _]. auto.
  - rewrite !length_replicate. repeat split; try lia.
    intros i v Hi. apply lookup_replicate in Hi as [[=] _].
Qed.

(** Writing a value and a code into one slot of such a bucket gives a
    well-formed bucket. *)
Lemma write_slot_ok (cfg : config) (day : day_data) (idx : Z)
    (v : pyfloat) (q : string) :
  Z.of_nat (length (intervals day)) = INTERVALS_PER_DAY cfg →
  Z.of_nat (length (quality day)) = INTERVALS_PER_DAY cfg →
  (∀ i v, intervals day !! i = Some (Some v) →
          ∃ q, quality day !! i = Some q ∧ q ≠ "") →
  0 <= idx < INTERVALS_PER_DAY cfg → q ≠ "" →
  day_ok cfg (DayData (<[Z.to_nat idx := Some v]> (intervals day))
                      (<[Z.to_nat idx := q]> (quality day))).
Proof.
  intros Hli Hlq Hcoded Hidx Hq.
  split; simpl.
  - by rewrite length_insert.
  - by rewrite length_insert.
  - intros i v0 Hi.
    destruct (decide (i = Z.to_nat idx)) as [-> | Hne].
    + exists q. split; [| done]. apply list_lookup_insert_eq. lia.
    + rewrite list_lookup_insert_ne in Hi by done.
      rewrite list_lookup_insert_ne by done. eauto.
  - apply (all_None_false _ (Z.to_nat idx) v).
    apply list_lookup_insert_eq. lia.
Qed.

(** The effect of the loop body on a row that passes the checks. *)
Lemma process_row_stored (cfg : config) (st : reader_state) (r : row)
    (nmi suffix : string) (interval_date : date) (idx : Z)
    (v : pyfloat) (q device_num : string) (std : bool) :
  data_ok cfg (data st) →
  classify_row cfg r = Stored nmi suffix interval_date idx v q device_num std →
  ∃ st', process_row cfg st r = Some st'
    ∧ row_count st' = row_count st + 1
    ∧ processed_rows st' = processed_rows st + 1
    ∧ skipped_rows st' = skipped_rows st
    ∧ data_ok cfg (data st')
    ∧ (∃ day, lookup_bucket (data st') nmi suffix interval_date = Some day
              ∧ intervals day !! Z.to_nat idx = Some (Some v)
              ∧ quality day !! Z.to_nat idx = Some q)
    ∧ (∀ nmi' suffix' date',
         ¬ (nmi = nmi' ∧ suffix = suffix' ∧ interval_date = date') →
         lookup_bucket (data st') nmi' suffix' date'
         = lookup_bucket (data st) nmi' suffix' date').
Proof.
  intros Hok Hclass.
  pose proof Hclass as Hparts.
  apply classify_row_stored in Hparts
    as (code0 & vs & flag & dt & _ & _ & _ & _ & _ & _ & _ & _ & Hidx & _ & Hvq).
  apply get_interval_index_range in Hidx.
  assert (Hq : q ≠ "").
  { pose proof (value_and_quality_nonempty vs flag) as Hne.
    by rewrite Hvq in Hne. }
  destruct (bucket_of_shape cfg (data st) nmi suffix interval_date Hok)
    as (Hli & Hlq & Hcoded); [lia |].
  unfold process_row. rewrite Hclass.
  rewrite (list_setitem_in_range (intervals _)) by lia.
  rewrite (list_setitem_in_range (quality _)) by lia. simpl.
  destruct (record_details cfg st nmi suffix device_num std) as [[nd ws] msgs].
  eexists. split; [reflexivity |]. simpl.
  pose proof (write_slot_ok cfg _ idx v q Hli Hlq Hcoded Hidx Hq) as Hday.
  split_and!; try done.
  - intros nmi' suffix' date' day'. rewrite lookup_bucket_store.
    case_decide; [by intros [= <-] | apply Hok].
  - eexists. rewrite lookup_bucket_store, decide_True by done.
    split; [reflexivity |]. simpl.
    split; apply list_lookup_insert_eq; lia.
  - intros nmi' suffix' date' Hne.
    by rewrite lookup_bucket_store, decide_False.
Qed.

Lemma process_row_skipped (cfg : config) (st : reader_state) (r : row) :
  classify_row cfg r = Skipped → process_row cfg st r = Some (skip_row st).
Proof. intros Hc. unfold process_row. by rewrite Hc. Qed.

Lemma data_ok_initial (cfg : config) : data_ok cfg (data initial_state).
Proof.
  intros nmi suffix d day. unfold lookup_bucket. simpl.
  by rewrite lookup_empty.
Qed.

(** One turn of the loop never raises and keeps the buckets well formed. *)
Lemma process_row_ok (cfg : config) (st : reader_state) (r : row) :
  data_ok cfg (data st) →
  ∃ st', process_row cfg st r = Some st' ∧ data_ok cfg (data st').
Proof.
  intros Hok. destruct (classify_row cfg r) eqn:Hc.
  - exists (skip_row st). split; [by apply process_row_skipped | done].
  - destruct (process_row_stored cfg st r _ _ _ _ _ _ _ _ Hok Hc)
      as (st' & Hp & _ & _ & _ & Hok' & _).
    eauto.
Qed.

(** The whole loop never raises and keeps the buckets well formed. *)
Lemma read_rows_ok (cfg : config) (rows : list row) (st : reader_state) :
  data_ok cfg (data st) →
  ∃ st', read_rows cfg st rows = Some st' ∧ data_ok cfg (data st').
Proof.
  revert st. induction rows as [|r rows IH]; intros st Hok; simpl.
  - eauto.
  - destruct (process_row_ok cfg st r Hok) as (st1 & -> & Hok1). simpl.
    apply IH, Hok1.
Qed.

Lemma read_rows_Some_ok (cfg : config) (rows : list row) (st : reader_state) :
  read_rows cfg initial_state rows = Some st → data_ok cfg (data st).
Proof.
  intros Hr.
  destruct (read_rows_ok cfg rows initial_state (data_ok_initial cfg))
    as (st' & Hr' & Hok).
  rewrite Hr in Hr'. by injection Hr' as <-.
Qed.

(** ** Which rows are skipped *)

Lemma classify_row_skipped (cfg : config) (r : row) :
  classify_row cfg r = Skipped ↔ skip_condition cfg r = true.
Proof.
  unfold classify_row, skip_condition, fields_present.
  destruct r as [n c s v f d]; simpl.
  destruct n as [n|], c as [c|], s as [s|], v as [v|], f as [f|], d as [d|];
    simpl; try done;
    try (destruct (String.eqb n ""); simpl; try done);
    try (destruct (String.eqb c ""); simpl; try done);
    try (destruct (String.eqb s ""); simpl; try done);
    try (destruct (String.eqb f ""); simpl; try done);
    try (destruct (String.eqb d ""); simpl; try done);
    rewrite ?orb_true_r; try done.
  destruct (parse_agl_datetime (Some s)) as [dt|]; simpl; [| done].
  destruct (get_interval_index cfg (Some dt) (INTERVAL_LENGTH cfg));
    simpl; [| done].
  destruct (get_suffix_from_register c) as [[sfx|] std] eqn:Hsfx; simpl;
    [| done].
  apply suffix_after_last_hash in Hsfx as (Hne & _).
  destruct (String.eqb_spec sfx ""); [done |].
  by destruct (value_and_quality v f).
Qed.

(** A row that is not skipped, taken apart. *)
Lemma classify_row_checked (cfg : config) (r : row) :
  skip_condition cfg r = false →
  ∃ nmi register_code value_str quality_agl device_num start_dt idx suffix std,
    NMI r = Some nmi ∧ RegisterCode r = Some register_code
    ∧ ProfileReadValue r = Some value_str
    ∧ QualityFlag r = Some quality_agl ∧ quality_agl ≠ ""
    ∧ DeviceNumber r = Some device_num
    ∧ parse_agl_datetime (StartDate r) = Some start_dt
    ∧ get_interval_index cfg (Some start_dt) (INTERVAL_LENGTH cfg) = Some idx
    ∧ get_suffix_from_register register_code = (Some suffix, std)
    ∧ classify_row cfg r
      = Stored nmi suffix (dt_date start_dt) idx
               (fst (value_and_quality value_str quality_agl))
               (snd (value_and_quality value_str quality_agl))
               device_num std.
Proof.
  intros Hskip.
  destruct (classify_row cfg r) as [| nmi sfx d idx v q dev std] eqn:Hc.
  { apply classify_row_skipped in Hc. congruence. }
  pose proof Hc as Hparts.
  apply classify_row_stored in Hparts
    as (code0 & vs & flag & dt & Hf & Hn & Hcode & Hv & Hflag & Hdev & Hdt
        & -> & Hidx & Hsfx & Hvq).
  exists nmi, code0, vs, flag, dev, dt, idx, sfx, std.
  rewrite Hvq. simpl. split_and!; try done.
  intros ->. unfold fields_present in Hf. rewrite forallb_forall in Hf.
  specialize (Hf (truthy (QualityFlag r))).
  rewrite Hflag in Hf. discriminate Hf. simpl. auto 10.
Qed.

(** C3, as stated, fails on a row whose value field is the empty text
    and whose other fields are in order: the row is not skipped. *)
Lemma empty_value_row_not_skipped :
  ¬ (spec_skip_condition default_config (sample_row_with_value "") = true →
     process_row default_config initial_state (sample_row_with_value "")
     = Some (skip_row initial_state)).
Proof.
  intros H. specialize (H eq_refl). vm_compute in H. discriminate.
Qed.

(** C3, amended. A row is skipped, with the skip counter incremented and
    the buckets untouched, exactly when one of the fields other than the
    value is missing or empty, or the value is missing, or the timestamp
    does not parse, or no interval slot in range is computed, or no suffix
    is extracted from the register code. *)
Theorem skipped_rows_rule (cfg : config) (st : reader_state) (r : row) :
  (skip_condition cfg r = true
   ↔ process_row cfg st r = Some (skip_row st))
  ∧ data (skip_row st) = data st
  ∧ skipped_rows (skip_row st) = skipped_rows st + 1
  ∧ processed_rows (skip_row st) = processed_rows st.
Proof.
  split; [| done].
  rewrite <- classify_row_skipped. split.
  - apply process_row_skipped.
  - unfold process_row.
    destruct (classify_row cfg r) as [| nmi sfx d idx v q dev std]; [done |].
    destruct (list_setitem (intervals _) idx (Some v)); simpl; [| done].
    destruct (list_setitem (quality _) idx q); simpl; [| done].
    destruct (record_details cfg st nmi sfx dev std) as [[nd ws] msgs].
    intros [= _ _ _ Hp _]. lia.
Qed.

(** ** What a processed row writes *)

(** A row that passes the checks is written to the slot computed from
    its timestamp, in the bucket of its meter, suffix and date, with the
    value and the code that [value_and_quality] gives. *)
Lemma process_row_checked (cfg : config) (prev : list row)
    (st : reader_state) (r : row) :
  read_rows cfg initial_state prev = Some st →
  skip_condition cfg r = false →
  ∃ nmi register_code value_str quality_agl start_dt idx suffix std st' day,
    NMI r = Some nmi ∧ RegisterCode r = Some register_code
    ∧ ProfileReadValue r = Some value_str
    ∧ QualityFlag r = Some quality_agl ∧ quality_agl ≠ ""
    ∧ parse_agl_datetime (StartDate r) = Some start_dt
    ∧ get_interval_index cfg (Some start_dt) (INTERVAL_LENGTH cfg) = Some idx
    ∧ get_suffix_from_register register_code = (Some suffix, std)
    ∧ process_row cfg st r = Some st'
    ∧ processed_rows st' = processed_rows st + 1
    ∧ skipped_rows st' = skipped_rows st
    ∧ lookup_bucket (data st') nmi suffix (dt_date start_dt) = Some day
    ∧ intervals day !! Z.to_nat idx
      = Some (Some (fst (value_and_quality value_str quality_agl)))
    ∧ quality day !! Z.to_nat idx
      = Some (snd (value_and_quality value_str quality_agl)).
Proof.
  intros Hread Hskip.
  destruct (classify_row_checked cfg r Hskip)
    as (nmi & code0 & vs & flag & dev & dt & idx & sfx & std
        & Hn & Hcode & Hv & Hflag & Hne & Hdev & Hdt & Hidx & Hsfx & Hc).
  destruct (process_row_stored cfg st r _ _ _ _ _ _ _ _
              (read_rows_Some_ok cfg prev st Hread) Hc)
    as (st' & Hp & _ & Hproc & Hskipped & _ & (day & Hl & Hi & Hq) & _).
  exists nmi, code0, vs, flag, dt, idx, sfx, std, st', day.
  by split_and!.
Qed.

(** [float] drops the blanks, tabs and line ends around a number, and
    takes a text that starts or ends with one of the separators 28 to 31
    for no number, whereas the timestamp format takes such a separator for
    a blank. *)
Lemma float_of_string_white_space :
  float_of_string (String "009" " 1.5 " +:+ String "013" (String "010" ""))
  = float_of_string "1.5"
  ∧ float_of_string (String "011" "1.5" +:+ String "012" "")
    = float_of_string "1.5"
  ∧ float_of_string separator_value = None
  ∧ float_of_string ("1.5" +:+ String "028" "") = None
  ∧ parse_agl_datetime
      (Some ("01/06/2024" +:+ String "031" "12:30:00" +:+ String "028" "AM"))
    = parse_agl_datetime (Some "01/06/2024 12:30:00 AM").
Proof. vm_compute. by split_and!. Qed.

(** C4. A row that passes every other check and whose value is not a
    number is kept: its slot receives the value 0.0 and the code N,
    whatever its quality flag. *)
Theorem unparseable_value_stored_as_suspect (cfg : config) (prev : list row)
    (st : reader_state) (r : row) (value_str : string) :
  read_rows cfg initial_state prev = Some st →
  skip_condition cfg r = false →
  ProfileReadValue r = Some value_str →
  float_of_string value_str = None →
  ∃ nmi register_code start_dt idx suffix std st' day,
    NMI r = Some nmi ∧ RegisterCode r = Some register_code
    ∧ parse_agl_datetime (StartDate r) = Some start_dt
    ∧ get_interval_index cfg (Some start_dt) (INTERVAL_LENGTH cfg) = Some idx
    ∧ get_suffix_from_register register_code = (Some suffix, std)
    ∧ process_row cfg st r = Some st'
    ∧ processed_rows st' = processed_rows st + 1
    ∧ skipped_rows st' = skipped_rows st
    ∧ lookup_bucket (data st') nmi suffix (dt_date start_dt) = Some day
    ∧ intervals day !! Z.to_nat idx = Some (Some float_zero)
    ∧ quality day !! Z.to_nat idx = Some "N".
Proof.
  intros Hread Hskip Hv Hfloat.
  destruct (process_row_checked cfg prev st r Hread Hskip)
    as (nmi & code0 & vs & flag & dt & idx & sfx & std & st' & day
        & Hn & Hcode & Hv' & Hflag & Hne & Hdt & Hidx & Hsfx & Hp & Hproc
        & Hskipped & Hl & Hi & Hq).
  rewrite Hv in Hv'. injection Hv' as <-.
  unfold value_and_quality in Hi, Hq. rewrite Hfloat in Hi, Hq.
  exists nmi, code0, dt, idx, sfx, std, st', day.
  by split_and!.
Qed.

Lemma unparseable_value_stored_as_suspect_witness :
  ∃ nmi register_code start_dt idx suffix std st' day,
    NMI (sample_row_with_value separator_value) = Some nmi
    ∧ RegisterCode (sample_row_with_value separator_value) = Some register_code
    ∧ parse_agl_datetime (StartDate (sample_row_with_value separator_value))
      = Some start_dt
    ∧ get_interval_index default_config (Some start_dt)
        (INTERVAL_LENGTH default_config) = Some idx
    ∧ get_suffix_from_register register_code = (Some suffix, std)
    ∧ process_row default_config initial_state (sample_row_with_value separator_value)
      = Some st'
    ∧ processed_rows st' = processed_rows initial_state + 1
    ∧ skipped_rows st' = skipped_rows initial_state
    ∧ lookup_bucket (data st') nmi suffix (dt_date start_dt) = Some day
    ∧ intervals day !! Z.to_nat idx = Some (Some float_zero)
    ∧ quality day !! Z.to_nat idx = Some "N".
Proof.
  apply (unparseable_value_stored_as_suspect default_config []
           initial_state (sample_row_with_value separator_value)
           separator_value);
    reflexivity.
Defined.

(** C5, as stated, fails on a row without quality flag: the row is
    skipped, so no slot of its bucket holds the default code. *)
Lemma missing_flag_row_not_defaulted :
  ¬ ∃ st' day,
      process_row default_config initial_state (sample_row_with_flag None)
      = Some st'
      ∧ lookup_bucket (data st') "NMI123456" "E1" sample_date = Some day
      ∧ quality day !! 1%nat = Some DEFAULT_QUALITY.
Proof.
  intros (st' & day & Hp & Hl & _).
  vm_compute in Hp. injection Hp as <-. vm_compute in Hl. discriminate.
Qed.

(** C5, amended. A row that passes the checks, so one whose quality flag
    is present and not empty, and whose value is a number, is stored with
    that number and with the code the table gives for its flag: the flag
    itself when it is one of A, F, E, S, N, and E for any other flag. *)
Theorem parseable_value_stored_with_mapped_quality (cfg : config)
    (prev : list row) (st : reader_state) (r : row) (value_str : string)
    (value : pyfloat) :
  read_rows cfg initial_state prev = Some st →
  skip_condition cfg r = false →
  ProfileReadValue r = Some value_str →
  float_of_string value_str = Some value →
  ∃ nmi register_code quality_agl start_dt idx suffix std st' day,
    NMI r = Some nmi ∧ RegisterCode r = Some register_code
    ∧ QualityFlag r = Some quality_agl ∧ quality_agl ≠ ""
    ∧ parse_agl_datetime (StartDate r) = Some start_dt
    ∧ get_interval_index cfg (Some start_dt) (INTERVAL_LENGTH cfg) = Some idx
    ∧ get_suffix_from_register register_code = (Some suffix, std)
    ∧ process_row cfg st r = Some st'
    ∧ lookup_bucket (data st') nmi suffix (dt_date start_dt) = Some day
    ∧ intervals day !! Z.to_nat idx = Some (Some value)
    ∧ quality day !! Z.to_nat idx
      = Some (default DEFAULT_QUALITY (QUALITY_MAP !! quality_agl))
    ∧ default DEFAULT_QUALITY (QUALITY_MAP !! quality_agl)
      = if bool_decide (quality_agl ∈ ["A"; "F"; "E"; "S"; "N"])
        then quality_agl else "E".
Proof.
  intros Hread Hskip Hv Hfloat.
  destruct (process_row_checked cfg prev st r Hread Hskip)
    as (nmi & code0 & vs & flag & dt & idx & sfx & std & st' & day
        & Hn & Hcode & Hv' & Hflag & Hne & Hdt & Hidx & Hsfx & Hp & Hproc
        & Hskipped & Hl & Hi & Hq).
  rewrite Hv in Hv'. injection Hv' as <-.
  unfold value_and_quality in Hi, Hq. rewrite Hfloat in Hi, Hq.
  exists nmi, code0, flag, dt, idx, sfx, std, st', day.
  split_and!; try done.
  apply map_quality_cases.
Qed.

Lemma parseable_value_stored_with_mapped_quality_witness :
  ∃ nmi register_code quality_agl start_dt idx suffix std st' day,
    NMI (sample_row_with_flag (Some "X")) = Some nmi
    ∧ RegisterCode (sample_row_with_flag (Some "X")) = Some register_code
    ∧ QualityFlag (sample_row_with_flag (Some "X")) = Some quality_agl
    ∧ quality_agl ≠ ""
    ∧ parse_agl_datetime (StartDate (sample_row_with_flag (Some "X")))
      = Some start_dt
    ∧ get_interval_index default_config (Some start_dt)
        (INTERVAL_LENGTH default_config) = Some idx
    ∧ get_suffix_from_register register_code = (Some suffix, std)
    ∧ process_row default_config initial_state
        (sample_row_with_flag (Some "X")) = Some st'
    ∧ lookup_bucket (data st') nmi suffix (dt_date start_dt) = Some day
    ∧ intervals day !! Z.to_nat idx
      = Some (Some (S754_finite false 5557441940175192 (-52)))
    ∧ quality day !! Z.to_nat idx
      = Some (default DEFAULT_QUALITY (QUALITY_MAP !! quality_agl))
    ∧ default DEFAULT_QUALITY (QUALITY_MAP !! quality_agl)
      = if bool_decide (quality_agl ∈ ["A"; "F"; "E"; "S"; "N"])
        then quality_agl else "E".
Proof.
  apply (parseable_value_stored_with_mapped_quality default_config []
           initial_state (sample_row_with_flag (Some "X")) "1.234");
    reflexivity.
Defined.

(** ** No valid row *)

(** Skipped rows leave the buckets and the printed messages as they
    were, and each adds one to the two counters. *)
Lemma read_rows_all_skipped (cfg : config) (rows : list row)
    (st : reader_state) :
  Forall (λ r, skip_condition cfg r = true) rows →
  ∃ st', read_rows cfg st rows = Some st'
    ∧ data st' = data st ∧ printed st' = printed st
    ∧ skipped_rows st' = skipped_rows st + Z.of_nat (length rows)
    ∧ processed_rows st' = processed_rows st.
Proof.
  revert st. induction rows as [|r rows IH]; intros st Hall; simpl.
  - exists st. split_and!; try done. lia.
  - apply Forall_cons in Hall as [Hr Hall].
    apply classify_row_skipped in Hr.
    rewrite (process_row_skipped cfg st r Hr). simpl.
    destruct (IH (skip_row st) Hall) as (st' & -> & Hd & Hp & Hs & Hpr).
    exists st'. simpl in *. split_and!; try done. lia.
Qed.

(** C9. On an input read to its end, whose header has the six columns
    and whose rows are all skipped, none included, the run ends with exit
    status 0, its last message is the one about no valid data rows, and no
    output file is written, whatever the output path would do. *)
Theorem no_valid_rows_is_success (cfg : config) (now : datetime)
    (input_filepath output_filepath : string) (file : csv_file)
    (sink : output_sink) :
  (∀ h, h ∈ expected_headers → h ∈ fieldnames file) →
  Forall (λ r, skip_condition cfg r = true) (rows file) →
  convert_agl_to_nem12 cfg now input_filepath output_filepath
    (InputRead file) sink
  = Outcome 0
      ([MsgReading input_filepath;
        MsgExpecting (INTERVALS_PER_DAY cfg) (INTERVAL_LENGTH cfg)]
       ++ (if 0 <? Z.of_nat (length (rows file))
           then [InfoSkipped (Z.of_nat (length (rows file)))] else [])
       ++ [MsgNoValidRows])
      NotWritten.
Proof.
  intros Hhead Hall. unfold convert_agl_to_nem12.
  assert (Hh : forallb (λ h, bool_decide (h ∈ fieldnames file))
                 expected_headers = true).
  { apply forallb_forall. intros h Hin.
    apply bool_decide_eq_true_2, Hhead. by apply list_elem_of_In. }
  rewrite Hh. simpl.
  destruct (read_rows_all_skipped cfg (rows file) initial_state Hall)
    as (st & -> & Hd & Hp & Hs & _).
  simpl in *. rewrite Hd, Hp, Hs.
  by rewrite bool_decide_eq_true_2.
Qed.

Lemma no_valid_rows_is_success_witness :
  convert_agl_to_nem12 default_config sample_now "in.csv" "out.csv"
    (InputRead (CsvFile expected_headers [sample_row_with_flag None]))
    SinkRefuses
  = Outcome 0 [MsgReading "in.csv"; MsgExpecting 48 30; InfoSkipped 1;
               MsgNoValidRows] NotWritten.
Proof.
  apply (no_valid_rows_is_success default_config sample_now "in.csv" "out.csv"
           (CsvFile expected_headers [sample_row_with_flag None]) SinkRefuses).
  - intros h Hh. exact Hh.
  - repeat constructor.
Defined.

(** ** The shape of a formatted value *)

Lemma list_ascii_of_append (s1 s2 : string) :
  list_ascii_of_string (s1 +:+ s2)
  = list_ascii_of_string s1 ++ list_ascii_of_string s2.
Proof. induction s1 as [|c s1 IH]; simpl; [done | by rewrite IH]. Qed.

Lemma string_of_uint_digits (d : Decimal.uint) :
  all_digits (DecimalString.NilEmpty.string_of_uint d) = true.
Proof. induction d; simpl; done. Qed.

(** The decimal text of an integer is a non-empty run of digits. *)
Lemma dec_of_Z_digits (n : Z) :
  dec_of_Z n ≠ "" ∧ all_digits (dec_of_Z n) = true.
Proof.
  unfold dec_of_Z, DecimalString.NilZero.string_of_uint.
  destruct (N.to_uint (Z.to_N n)) as [ | d | d | d | d | d | d | d | d | d | d ];
    (split; [done |]);
    try reflexivity;
    apply (string_of_uint_digits (_ d)) || idtac.
  all: first [ exact (string_of_uint_digits (Decimal.D0 d))
             | exact (string_of_uint_digits (Decimal.D1 d))
             | exact (string_of_uint_digits (Decimal.D2 d))
             | exact (string_of_uint_digits (Decimal.D3 d))
             | exact (string_of_uint_digits (Decimal.D4 d))
             | exact (string_of_uint_digits (Decimal.D5 d))
             | exact (string_of_uint_digits (Decimal.D6 d))
             | exact (string_of_uint_digits (Decimal.D7 d))
             | exact (string_of_uint_digits (Decimal.D8 d))
             | exact (string_of_uint_digits (Decimal.D9 d)) ].
Qed.

Lemma pad_dec_3_all :
  forallb (λ k, three_digits (pad_dec 3 (Z.of_nat k))) (seq 0 1000) = true.
Proof. vm_compute. reflexivity. Qed.

(** Below one thousand, [%03d] gives exactly three digits. *)
Lemma pad_dec_3_digits (k : Z) :
  0 <= k < 1000 → three_digits (pad_dec 3 k) = true.
Proof.
  intros Hk. pose proof pad_dec_3_all as Hall.
  rewrite forallb_forall in Hall.
  specialize (Hall (Z.to_nat k)). rewrite Z2Nat.id in Hall by lia.
  apply Hall, in_seq. lia.
Qed.

Lemma three_decimals_shape (ip fp : string) :
  ip ≠ "" → all_digits ip = true → three_digits fp = true →
  is_three_decimals (ip +:+ "." +:+ fp) = true
  ∧ is_three_decimals ("-" +:+ ip +:+ "." +:+ fp) = true.
Proof.
  intros Hne Hip Hfp.
  destruct fp as [|a [|b [|c [|]]]]; try discriminate. simpl in Hfp.
  apply andb_true_iff in Hfp as [Hab Hc]. apply andb_true_iff in Hab as [Ha Hb].
  assert (Hbody : rev (list_ascii_of_string
                         (ip +:+ "." +:+ String a (String b (String c ""))))
                  = c :: b :: a :: "."%char :: rev (list_ascii_of_string ip)).
  { rewrite list_ascii_of_append. simpl.
    rewrite rev_app_distr. reflexivity. }
  assert (Hgoal : match rev (list_ascii_of_string
                          (ip +:+ "." +:+ String a (String b (String c ""))))
                  with
                  | f3 :: f2 :: f1 :: pt :: ip0 =>
                      is_digit f1 && is_digit f2 && is_digit f3
                      && Ascii.eqb pt "."
                      && negb (Nat.eqb (length ip0) 0) && forallb is_digit ip0
                  | _ => false
                  end = true).
  { rewrite Hbody, Ha, Hb, Hc. simpl.
    rewrite length_rev.
    destruct ip as [|i0 ip']; [done |]. simpl.
    unfold all_digits in Hip.
    rewrite forallb_forall in Hip. apply forallb_forall.
    intros x Hx. apply Hip. by apply in_rev. }
  split.
  - unfold is_three_decimals.
    destruct ip as [|i0 ip']; [done |].
    change (String i0 ip' +:+ "." +:+ String a (String b (String c "")))
      with (String i0 (ip' +:+ "." +:+ String a (String b (String c "")))) in *.
    cbn [String.append].
    destruct (Ascii.eqb_spec i0 "-") as [-> | _]; [| exact Hgoal].
    unfold all_digits in Hip. simpl in Hip. discriminate.
  - unfold is_three_decimals. simpl. exact Hgoal.
Qed.

(** A finite value is formatted as an optional sign, digits, a point and
    three digits. *)
Lemma format_3f_finite (v : pyfloat) :
  is_finite v = true → is_three_decimals (format_3f v) = true.
Proof.
  destruct v as [neg | neg | | neg m e]; simpl; try discriminate; intros _.
  - by destruct neg.
  - unfold format_3f.
    set (t := thousandths m e).
    destruct (dec_of_Z_digits (t `div` 1000)) as [Hne Hdig].
    assert (Hfp : three_digits (pad_dec 3 (t `mod` 1000)) = true).
    { apply pad_dec_3_digits, Z.mod_pos_bound. lia. }
    destruct (three_decimals_shape _ _ Hne Hdig Hfp) as [Hpos Hneg].
    destruct neg; simpl; [exact Hneg | exact Hpos].
Qed.

(** ** The writer on one day *)

(** With a code for every slot, the rendering loop runs to its end and
    renders the slots one by one. *)
Lemma render_slots_zip (ivs : list (option pyfloat)) (qualities : list string)
    (i : nat) :
  (length ivs + i ≤ length qualities)%nat →
  render_slots ivs qualities i
  = Some ((zip_with render_slot ivs (drop i qualities)).*1,
          (zip_with render_slot ivs (drop i qualities)).*2).
Proof.
  revert i. induction ivs as [|val rest IH]; intros i Hlen; simpl in *.
  - done.
  - destruct (lookup_lt_is_Some_2 qualities i) as [q Hq]; [lia |].
    rewrite Hq. simpl. rewrite (IH (S i)) by lia. simpl.
    rewrite (drop_S qualities q i Hq). simpl.
    by destruct (render_slot val q).
Qed.

Lemma rendered_slots_length (cfg : config) (day : day_data) :
  day_ok cfg day →
  Z.of_nat (length (rendered_slots day)) = INTERVALS_PER_DAY cfg.
Proof.
  intros [Hi Hq _ _]. unfold rendered_slots.
  rewrite length_zip_with_l_eq by lia. exact Hi.
Qed.

(** A well-formed day gives one day record and no message. *)
Lemma write_day_ok (cfg : config) (nmi suffix : string) (interval_date : date)
    (day : day_data) :
  day_ok cfg day →
  write_day cfg nmi suffix interval_date day
  = Some ([ ["300"; format_nem12_date interval_date]
            ++ (rendered_slots day).*1
            ++ [determine_day_quality (rendered_slots day).*2; ""; ""; ""] ],
          []).
Proof.
  intros Hok. pose proof (rendered_slots_length cfg day Hok) as Hlen.
  destruct Hok as [Hi Hq _ Hfilled].
  unfold write_day. rewrite Hfilled.
  rewrite render_slots_zip by lia. rewrite drop_0. simpl.
  fold (rendered_slots day). rewrite length_fmap, Hlen, Z.eqb_refl.
  reflexivity.
Qed.

(** A day without any reading gives no record. *)
Lemma write_day_empty (cfg : config) (nmi suffix : string)
    (interval_date : date) (day : day_data) :
  all_None (intervals day) = true →
  write_day cfg nmi suffix interval_date day = Some ([], []).
Proof. intros H. unfold write_day. by rewrite H. Qed.

(** The rendering of one slot of a well-formed day. *)
Lemma rendered_slot_filled (cfg : config) (day : day_data) (i : nat)
    (v : pyfloat) :
  day_ok cfg day → intervals day !! i = Some (Some v) →
  ∃ q, quality day !! i = Some q ∧ q ≠ ""
       ∧ rendered_slots day !! i = Some (format_3f v, q).
Proof.
  intros [_ _ Hcoded _] Hi.
  destruct (Hcoded i v Hi) as (q & Hq & Hne).
  exists q. split_and!; try done.
  unfold rendered_slots. rewrite lookup_zip_with, Hi, Hq. simpl.
  unfold render_slot. by destruct (String.eqb_spec q "").
Qed.

Lemma rendered_slot_unfilled (cfg : config) (day : day_data) (i : nat) :
  day_ok cfg day → intervals day !! i = Some None →
  rendered_slots day !! i = Some ("0.000", "S").
Proof.
  intros [Hli Hlq _ _] Hi.
  destruct (lookup_lt_is_Some_2 (quality day) i) as [q Hq].
  { apply lookup_lt_Some in Hi. lia. }
  unfold rendered_slots. by rewrite lookup_zip_with, Hi, Hq.
Qed.

(** ** Sorted keys *)

Lemma elem_of_sorted_strings {V} (m : gmap string V) (k : string) :
  k ∈ sorted_strings m ↔ is_Some (m !! k).
Proof.
  unfold sorted_strings. rewrite merge_sort_Permutation.
  change (map fst (map_to_list m)) with ((map_to_list m).*1).
  rewrite list_elem_of_fmap. split.
  - intros ([k' v] & -> & Hin). apply elem_of_map_to_list in Hin. eauto.
  - intros [v Hv]. exists (k, v). split; [done |].
    by apply elem_of_map_to_list.
Qed.

Lemma elem_of_sorted_dates {V} (m : gmap date V) (k : date) :
  k ∈ sorted_dates m ↔ is_Some (m !! k).
Proof.
  unfold sorted_dates. rewrite merge_sort_Permutation.
  change (map fst (map_to_list m)) with ((map_to_list m).*1).
  rewrite list_elem_of_fmap. split.
  - intros ([k' v] & -> & Hin). apply elem_of_map_to_list in Hin. eauto.
  - intros [v Hv]. exists (k, v). split; [done |].
    by apply elem_of_map_to_list.
Qed.

Lemma NoDup_sorted_dates {V} (m : gmap date V) : NoDup (sorted_dates m).
Proof.
  unfold sorted_dates. rewrite merge_sort_Permutation.
  apply NoDup_fst_map_to_list.
Qed.

Lemma NoDup_sorted_strings {V} (m : gmap string V) : NoDup (sorted_strings m).
Proof.
  unfold sorted_strings. rewrite merge_sort_Permutation.
  apply NoDup_fst_map_to_list.
Qed.

Lemma lookup_bucket_Some
    (d : gmap string (gmap string (gmap date day_data)))
    (nmi suffix : string) (interval_date : date) (day : day_data) :
  lookup_bucket d nmi suffix interval_date = Some day ↔
  ∃ of_nmi of_suffix,
    d !! nmi = Some of_nmi ∧ of_nmi !! suffix = Some of_suffix
    ∧ of_suffix !! interval_date = Some day.
Proof.
  unfold lookup_bucket. split.
  - destruct (d !! nmi) as [of_nmi|]; simpl; [| done].
    destruct (of_nmi !! suffix) as [of_suffix|] eqn:Hs; simpl; [| done].
    intros Hd. by exists of_nmi, of_suffix.
  - intros (of_nmi & of_suffix & -> & Hs & Hd). simpl. by rewrite Hs.
Qed.

(** ** The sample scenario *)

(** C8, as stated, fails on the day quality: the record of the scenario
    does not end its cells with the code A. *)
Lemma sample_day_quality_not_A :
  ¬ ∃ rec, sample_day_record (cli_config 30) sample_row = Some rec
           ∧ rec !! 50%nat = Some "A".
Proof.
  intros (rec & Hrec & Hq). vm_compute in Hrec. injection Hrec as <-.
  vm_compute in Hq. discriminate.
Qed.

(** C8, amended. With interval length 30, the single row of the scenario
    is read into slot 1 of the day 2024-06-01 of suffix E1, with the float
    of 1.234 and the code A, and every other slot of the day stays
    unfilled; the file written has one day record, which starts with 300,
    20240601, 0.000, 1.234, goes on with 0.000 for the 46 slots left, and
    has S as its day quality, the 47 unfilled slots carrying that code. *)
Theorem sample_scenario :
  (st ← read_rows (cli_config 30) initial_state [sample_row];
   day ← lookup_bucket (data st) "NMI123456" "E1" (Date 2024 6 1);
   Some (intervals day, quality day))
  = Some (<[1%nat := float_of_string "1.234"]> (replicate 48 None),
          <[1%nat := "A"]> (replicate 48 ""))
  ∧ format_3f <$> float_of_string "1.234" = Some "1.234"
  ∧ output (convert_agl_to_nem12 (cli_config 30) sample_now "in.csv" "out.csv"
              (sample_file [sample_row]) SinkAccepts)
    = Written
        [ ["100"; "NEM12"; "20250102030405"; "AGL"; "Converter"];
          ["200"; "NMI123456"; "E1"; ""; "E1"; "CONSUMPTION"; "DEV1"; "kWh";
           "30"; ""];
          ["300"; "20240601"; "0.000"; "1.234"] ++ replicate 46 "0.000"
          ++ ["S"; ""; ""; ""];
          ["900"] ].
Proof. vm_compute. repeat split. Qed.

(** ** Stream details follow the buckets *)

Lemma record_details_covers (cfg : config) (st : reader_state)
    (nmi suffix device_num : string) (std : bool)
    (nd : gmap string (gmap string details)) (ws : gset (string * string))
    (msgs : list message) :
  record_details cfg st nmi suffix device_num std = (nd, ws, msgs) →
  is_Some (default ∅ (nd !! nmi) !! suffix)
  ∧ ∀ nmi' suffix',
      is_Some (default ∅ (nmi_details st !! nmi') !! suffix') →
      is_Some (default ∅ (nd !! nmi') !! suffix').
Proof.
  unfold record_details.
  destruct (default ∅ (nmi_details st !! nmi) !! suffix) as [det|] eqn:Hdet.
  - intros [= <- <- <-]. split.
    + rewrite lookup_insert_eq. simpl. by rewrite Hdet.
    + intros nmi' suffix'. destruct (decide (nmi = nmi')) as [<- | Hne].
      * by rewrite lookup_insert_eq.
      * by rewrite lookup_insert_ne.
  - intros [= <- <- <-]. split.
    + rewrite lookup_insert_eq. simpl. by rewrite lookup_insert_eq.
    + intros nmi' suffix'. destruct (decide (nmi = nmi')) as [<- | Hne].
      * rewrite lookup_insert_eq. simpl.
        destruct (decide (suffix = suffix')) as [<- | Hs].
        -- by rewrite lookup_insert_eq.
        -- by rewrite lookup_insert_ne.
      * by rewrite lookup_insert_ne.
Qed.

Lemma process_row_cover (cfg : config) (st st' : reader_state) (r : row) :
  details_cover st → process_row cfg st r = Some st' → details_cover st'.
Proof.
  intros Hcov. unfold process_row.
  destruct (classify_row cfg r) as [| nmi sfx d idx v q dev std].
  { by intros [= <-]. }
  destruct (list_setitem (intervals _) idx (Some v)) as [ivs|]; simpl; [| done].
  destruct (list_setitem (quality _) idx q) as [qs|]; simpl; [| done].
  destruct (record_details cfg st nmi sfx dev std) as [[nd ws] msgs] eqn:Hrd.
  apply record_details_covers in Hrd as [Hnew Hold].
  intros [= <-]. intros nmi' suffix' date' day'. simpl.
  rewrite lookup_bucket_store. case_decide as Hk.
  - destruct Hk as (<- & <- & _). by intros _.
  - intros Hl. by apply Hold, (Hcov _ _ _ _ Hl).
Qed.

Lemma read_rows_cover (cfg : config) (rows : list row) (st st' : reader_state) :
  details_cover st → read_rows cfg st rows = Some st' → details_cover st'.
Proof.
  revert st. induction rows as [|r rows IH]; intros st Hcov; simpl.
  - by intros [= <-].
  - destruct (process_row cfg st r) as [st1|] eqn:Hp; simpl; [| done].
    apply IH. by apply (process_row_cover cfg st st1 r).
Qed.

Lemma details_cover_initial : details_cover initial_state.
Proof.
  intros nmi suffix d day. unfold lookup_bucket. simpl.
  by rewrite lookup_empty.
Qed.

(** ** The writer never meets an inconsistent day *)

Lemma default_lookup_bucket
    (d : gmap string (gmap string (gmap date day_data)))
    (nmi suffix : string) (interval_date : date) :
  default ∅ (default ∅ (d !! nmi) !! suffix) !! interval_date
  = lookup_bucket d nmi suffix interval_date.
Proof.
  unfold lookup_bucket.
  destruct (d !! nmi) as [of_nmi|]; simpl; [| by rewrite !lookup_empty].
  destruct (of_nmi !! suffix); simpl; [done | by rewrite lookup_empty].
Qed.

(** A loop whose turns all succeed without an inconsistency message
    succeeds without one, and its records include those of every turn. *)
Lemma for_each_total {A} (f : A → option (list record * list message))
    (l : list A) :
  (∀ x, x ∈ l → ∃ r m, f x = Some (r, m)
                        ∧ Forall (λ msg, is_inconsistency msg = false) m) →
  ∃ r m, for_each f l = Some (r, m)
         ∧ Forall (λ msg, is_inconsistency msg = false) m
         ∧ ∀ x r0 m0 rec, x ∈ l → f x = Some (r0, m0) → rec ∈ r0 → rec ∈ r.
Proof.
  induction l as [|x l IH]; intros Hall; simpl.
  - exists [], []. split_and!; [done | done |].
    intros x r0 m0 rec Hx. by apply elem_of_nil in Hx.
  - destruct (Hall x) as (r1 & m1 & Hfx & Hm1); [by left |].
    destruct IH as (r2 & m2 & Hrest & Hm2 & Hin).
    { intros y Hy. apply Hall. by right. }
    rewrite Hfx, Hrest. simpl. exists (r1 ++ r2), (m1 ++ m2).
    split_and!; [done | by apply Forall_app |].
    intros y r0 m0 rec Hy Hfy Hrec. apply elem_of_app.
    apply elem_of_cons in Hy as [-> | Hy].
    + left. rewrite Hfx in Hfy. by injection Hfy as <- <-.
    + right. by apply (Hin y r0 m0).
Qed.

Lemma write_stream_total (cfg : config) (st : reader_state)
    (nmi nmi_config_string suffix : string) :
  data_ok cfg (data st) →
  is_Some (default ∅ (nmi_details st !! nmi) !! suffix) →
  ∃ r m, write_stream cfg st nmi nmi_config_string suffix = Some (r, m)
         ∧ Forall (λ msg, is_inconsistency msg = false) m
         ∧ ∀ interval_date day rec,
             lookup_bucket (data st) nmi suffix interval_date = Some day →
             write_day cfg nmi suffix interval_date day = Some ([rec], []) →
             rec ∈ r.
Proof.
  intros Hok [det Hdet]. unfold write_stream. rewrite Hdet. simpl.
  set (m := default ∅ (default ∅ (data st !! nmi) !! suffix)).
  set (f := λ interval_date : date,
              day ← m !! interval_date;
              write_day cfg nmi suffix interval_date day).
  assert (Hm : ∀ d, m !! d = lookup_bucket (data st) nmi suffix d)
    by (intros d; apply default_lookup_bucket).
  destruct (for_each_total f (sorted_dates m)) as (r & msgs & -> & Hmsgs & Hin).
  { intros d Hd. apply elem_of_sorted_dates in Hd as [day Hday].
    unfold f. rewrite Hday. simpl.
    rewrite Hm in Hday.
    rewrite (write_day_ok cfg nmi suffix d day (Hok _ _ _ _ Hday)).
    eexists _, _. split; [reflexivity | constructor]. }
  simpl. eexists _, _. split_and!; [reflexivity | done |].
  intros d day rec Hl Hw. right.
  apply (Hin d [rec] [] rec); [| | by left].
  - apply elem_of_sorted_dates. rewrite Hm, Hl. eauto.
  - unfold f. rewrite Hm, Hl. exact Hw.
Qed.

Lemma write_nmi_total (cfg : config) (st : reader_state) (nmi : string) :
  data_ok cfg (data st) →
  ∃ r m, write_nmi cfg st nmi = Some (r, m)
         ∧ Forall (λ msg, is_inconsistency msg = false) m
         ∧ ∀ suffix interval_date day rec,
             is_Some (default ∅ (nmi_details st !! nmi) !! suffix) →
             lookup_bucket (data st) nmi suffix interval_date = Some day →
             write_day cfg nmi suffix interval_date day = Some ([rec], []) →
             rec ∈ r.
Proof.
  intros Hok. unfold write_nmi.
  set (of_nmi := default ∅ (nmi_details st !! nmi)).
  set (cs := if (255 <? String.length (String.concat "" (sorted_strings of_nmi)))%nat
             then take_string 255 (String.concat "" (sorted_strings of_nmi))
             else String.concat "" (sorted_strings of_nmi)).
  destruct (for_each_total (write_stream cfg st nmi cs) (sorted_strings of_nmi))
    as (r & msgs & -> & Hmsgs & Hin).
  { intros sfx Hsfx. apply elem_of_sorted_strings in Hsfx.
    destruct (write_stream_total cfg st nmi cs sfx Hok Hsfx)
      as (r & m & Hw & Hm & _).
    eauto. }
  simpl. eexists _, _. split_and!; [reflexivity | |].
  - apply Forall_app. split; [| done].
    destruct (255 <? _)%nat; repeat constructor.
  - intros sfx d day rec Hsfx Hl Hw.
    destruct (write_stream_total cfg st nmi cs sfx Hok Hsfx)
      as (r0 & m0 & Hws & _ & Hrec).
    apply (Hin sfx r0 m0 rec); [by apply elem_of_sorted_strings | done |].
    by apply (Hrec d day).
Qed.

Lemma write_nem12_total (cfg : config) (now : datetime) (st : reader_state) :
  data_ok cfg (data st) → details_cover st →
  ∃ r m, write_nem12 cfg now st = Some (r, m)
         ∧ Forall (λ msg, is_inconsistency msg = false) m
         ∧ ∀ nmi suffix interval_date day rec,
             lookup_bucket (data st) nmi suffix interval_date = Some day →
             write_day cfg nmi suffix interval_date day = Some ([rec], []) →
             rec ∈ r.
Proof.
  intros Hok Hcov. unfold write_nem12.
  destruct (for_each_total (write_nmi cfg st) (sorted_strings (data st)))
    as (r & msgs & -> & Hmsgs & Hin).
  { intros nmi _. destruct (write_nmi_total cfg st nmi Hok)
      as (r & m & Hw & Hm & _). eauto. }
  simpl. eexists _, _. split_and!; [reflexivity | done |].
  intros nmi sfx d day rec Hl Hw.
  destruct (write_nmi_total cfg st nmi Hok) as (r0 & m0 & Hwn & _ & Hrec).
  right. apply elem_of_app. left.
  apply (Hin nmi r0 m0 rec).
  - apply elem_of_sorted_strings.
    apply lookup_bucket_Some in Hl as (of_nmi & _ & -> & _). eauto.
  - done.
  - apply (Hrec sfx d day); [by apply (Hcov _ _ _ _ Hl) | done | done].
Qed.

(** C10. Whatever the rows and the configuration, the reader ends without
    an exception; in every bucket it has built, both lists have the length
    of a day and the writer renders one record of that many cells, plus
    the six other fields; the writer ends without an exception, prints no
    inconsistency message, and the record of every bucket is among those
    it writes. *)
Theorem day_length_kept (cfg : config) (rows : list row) (now : datetime) :
  ∃ st recs msgs,
    read_rows cfg initial_state rows = Some st
    ∧ write_nem12 cfg now st = Some (recs, msgs)
    ∧ Forall (λ msg, is_inconsistency msg = false) msgs
    ∧ ∀ nmi suffix interval_date day,
        lookup_bucket (data st) nmi suffix interval_date = Some day →
        Z.of_nat (length (intervals day)) = INTERVALS_PER_DAY cfg
        ∧ Z.of_nat (length (quality day)) = INTERVALS_PER_DAY cfg
        ∧ all_None (intervals day) = false
        ∧ ∃ rec,
            write_day cfg nmi suffix interval_date day = Some ([rec], [])
            ∧ Z.of_nat (length rec) = INTERVALS_PER_DAY cfg + 6
            ∧ rec ∈ recs.
Proof.
  destruct (read_rows_ok cfg rows initial_state (data_ok_initial cfg))
    as (st & Hread & Hok).
  pose proof (read_rows_cover cfg rows _ st details_cover_initial Hread) as Hcov.
  destruct (write_nem12_total cfg now st Hok Hcov) as (recs & msgs & Hw & Hm & Hin).
  exists st, recs, msgs. split_and!; try done.
  intros nmi sfx d day Hl.
  pose proof (Hok _ _ _ _ Hl) as Hday.
  pose proof (write_day_ok cfg nmi sfx d day Hday) as Hwd.
  pose proof (rendered_slots_length cfg day Hday) as Hlen.
  destruct Hday as [Hi Hq _ Hf].
  split_and!; try done.
  eexists. split; [exact Hwd |]. split.
  - simpl. rewrite length_app, length_fmap. simpl. lia.
  - by apply (Hin nmi sfx d day).
Qed.

(** * Further properties of the conversion *)

(** ** Timestamps and slots *)

(** A parsed timestamp is a date of the calendar and a time of the day. *)
Lemma parse_agl_datetime_valid (dt_str : option string) (dt : datetime) :
  parse_agl_datetime dt_str = Some dt →
  valid_date (dt_date dt) = true
  ∧ valid_time (hour dt) (minute dt) (second dt) = true.
Proof.
  unfold parse_agl_datetime. destruct dt_str as [s|]; [| discriminate].
  destruct (String.eqb s ""); [discriminate |].
  unfold strptime_agl.
  destruct (p_agl_format s) as [|[f rest] others]; [discriminate |].
  destruct (String.eqb rest ""); simpl; [| discriminate].
  destruct (valid_date _) eqn:Hd; simpl; [| discriminate].
  destruct (valid_time _ _ _) eqn:Ht; [| discriminate].
  intros [= <-]. simpl. by split.
Qed.

(** With the interval lengths that the command line accepts, every
    timestamp that parses gets a slot, the one whose span of minutes
    holds the minute of the day of the timestamp; and the slots of a day
    cover its 1440 minutes. *)
Theorem cli_slot_always_found (L : Z) (dt_str : string) (dt : datetime) :
  L ∈ [5; 15; 30] →
  parse_agl_datetime (Some dt_str) = Some dt →
  ∃ idx,
    get_interval_index (cli_config L) (Some dt) (INTERVAL_LENGTH (cli_config L))
    = Some idx
    ∧ 0 <= idx < INTERVALS_PER_DAY (cli_config L)
    ∧ idx * L <= hour dt * 60 + minute dt < (idx + 1) * L
    ∧ INTERVALS_PER_DAY (cli_config L) * L = 1440.
Proof.
  intros HL Hparse.
  apply parse_agl_datetime_valid in Hparse as [_ Ht].
  unfold valid_time in Ht.
  repeat (apply andb_true_iff in Ht as [Ht ?]).
  assert (Hm : 0 <= hour dt * 60 + minute dt < 1440) by lia.
  set (m := hour dt * 60 + minute dt) in *.
  exists (m `div` L).
  unfold get_interval_index. simpl. fold m.
  rewrite !elem_of_cons, elem_of_nil in HL.
  destruct HL as [-> | [-> | [-> | []]]]; simpl.
  - change ((24 * 60) `div` 5) with 288.
    pose proof (Z.div_mod m 5 ltac:(lia)).
    pose proof (Z.mod_pos_bound m 5 ltac:(lia)).
    destruct (Z.leb_spec 0 (m `div` 5)); [| lia].
    destruct (Z.ltb_spec (m `div` 5) 288); [| lia].
    simpl. split_and!; try done; lia.
  - change ((24 * 60) `div` 15) with 96.
    pose proof (Z.div_mod m 15 ltac:(lia)).
    pose proof (Z.mod_pos_bound m 15 ltac:(lia)).
    destruct (Z.leb_spec 0 (m `div` 15)); [| lia].
    destruct (Z.ltb_spec (m `div` 15) 96); [| lia].
    simpl. split_and!; try done; lia.
  - change ((24 * 60) `div` 30) with 48.
    pose proof (Z.div_mod m 30 ltac:(lia)).
    pose proof (Z.mod_pos_bound m 30 ltac:(lia)).
    destruct (Z.leb_spec 0 (m `div` 30)); [| lia].
    destruct (Z.ltb_spec (m `div` 30) 48); [| lia].
    simpl. split_and!; try done; lia.
Qed.

Lemma cli_slot_always_found_witness :
  ∃ idx,
    get_interval_index (cli_config 15)
      (Some (DateTime (Date 2024 6 1) 23 59 59))
      (INTERVAL_LENGTH (cli_config 15)) = Some idx
    ∧ 0 <= idx < INTERVALS_PER_DAY (cli_config 15)
    ∧ idx * 15 <= 23 * 60 + 59 < (idx + 1) * 15
    ∧ INTERVALS_PER_DAY (cli_config 15) * 15 = 1440.
Proof.
  apply (cli_slot_always_found 15 "01/06/2024 11:59:59 PM"
           (DateTime (Date 2024 6 1) 23 59 59)).
  - rewrite !elem_of_cons. tauto.
  - reflexivity.
Defined.

(** ** Suffix extraction, in full *)

(** After a [#] that is the last one, the split ends with what follows. *)
Lemma last_split_hash (before suffix : string) :
  contains_char "#" suffix = false →
  List.last (split_char "#" (before +:+ String "#" suffix)) "" = suffix
  ∧ contains_char "#" (before +:+ String "#" suffix) = true.
Proof.
  intros Hno. induction before as [|c b [IH1 IH2]]; simpl.
  - pose proof (split_char_last "#" suffix) as [_ Hshape].
    destruct (split_char "#" suffix) as [|p [|p' ps]]; [done | |].
    + by destruct Hshape as [-> _].
    + destruct Hshape as [_ Hc]. congruence.
  - split; [| rewrite IH2; by destruct (Ascii.eqb c "#")].
    pose proof (split_char_last "#" (b +:+ String "#" suffix)) as [_ Hshape].
    destruct (Ascii.eqb c "#");
      destruct (split_char "#" (b +:+ String "#" suffix)) as [|p [|p' ps]];
      try done.
    destruct Hshape as [_ Hc]. congruence.
Qed.

(** A register code yields the suffix [s] exactly when it ends with [#]
    followed by [s], and [s] is not empty and holds no [#]; the flag is then
    the match of the pattern on [s].  It yields nothing exactly when it
    holds no [#] or ends with one. *)
Theorem suffix_extraction_rule (register_code : string) :
  (∀ suffix std,
     get_suffix_from_register register_code = (Some suffix, std)
     ↔ suffix ≠ "" ∧ contains_char "#" suffix = false
       ∧ (∃ before, register_code = before +:+ String "#" suffix)
       ∧ std = is_standard_suffix suffix)
  ∧ (get_suffix_from_register register_code = (None, false)
     ↔ contains_char "#" register_code = false
       ∨ ∃ before, register_code = before +:+ "#").
Proof.
  split.
  - intros suffix std. split; [apply suffix_after_last_hash |].
    intros (Hne & Hno & [before ->] & ->). by apply suffix_accepted.
  - split.
    + unfold get_suffix_from_register.
      destruct (String.eqb_spec register_code "") as [-> | Hne]; [by left |].
      destruct (contains_char "#" register_code) eqn:Hc; [| by left].
      destruct (String.eqb_spec (List.last (split_char "#" register_code) "") "")
        as [Hl | _]; [| discriminate].
      intros _. right.
      pose proof (split_char_last "#" register_code) as [_ Hshape].
      destruct (split_char "#" register_code) as [|p [|p' ps]]; [done | |].
      * destruct Hshape as [_ Hc']. congruence.
      * destruct Hshape as [[before Hb] _]. exists before.
        by rewrite Hl in Hb.
    + unfold get_suffix_from_register.
      intros [Hc | [before ->]].
      * rewrite Hc. by destruct (String.eqb register_code "").
      * destruct (last_split_hash before "" eq_refl) as [Hl Hc].
        rewrite Hc, Hl. by destruct (String.eqb (before +:+ "#") "").
Qed.

(** ** One row, one slot *)

(** A stored row sets its slot to its value and code, whatever the slot
    held before, and leaves every other slot of the day and every other
    bucket as they were. *)
Theorem stored_row_overwrites_one_slot (cfg : config) (prev : list row)
    (st st' : reader_state) (r : row)
    (nmi suffix : string) (interval_date : date) (idx : Z)
    (v : pyfloat) (q device_num : string) (std : bool) :
  read_rows cfg initial_state prev = Some st →
  classify_row cfg r = Stored nmi suffix interval_date idx v q device_num std →
  process_row cfg st r = Some st' →
  ∃ day',
    lookup_bucket (data st') nmi suffix interval_date = Some day'
    ∧ intervals day' !! Z.to_nat idx = Some (Some v)
    ∧ quality day' !! Z.to_nat idx = Some q
    ∧ (∀ j, j ≠ Z.to_nat idx →
         intervals day' !! j
         = intervals (bucket_of cfg (data st) nmi suffix interval_date) !! j
         ∧ quality day' !! j
           = quality (bucket_of cfg (data st) nmi suffix interval_date) !! j)
    ∧ (∀ nmi' suffix' date',
         ¬ (nmi = nmi' ∧ suffix = suffix' ∧ interval_date = date') →
         lookup_bucket (data st') nmi' suffix' date'
         = lookup_bucket (data st) nmi' suffix' date').
Proof.
  intros Hread Hclass Hp.
  pose proof (read_rows_Some_ok cfg prev st Hread) as Hok.
  pose proof Hclass as Hparts.
  apply classify_row_stored in Hparts
    as (code0 & vs & flag & dt & _ & _ & _ & _ & _ & _ & _ & _ & Hidx & _ & _).
  apply get_interval_index_range in Hidx.
  destruct (bucket_of_shape cfg (data st) nmi suffix interval_date Hok)
    as (Hli & Hlq & _); [lia |].
  unfold process_row in Hp. rewrite Hclass in Hp.
  rewrite (list_setitem_in_range (intervals _)) in Hp by lia.
  rewrite (list_setitem_in_range (quality _)) in Hp by lia. simpl in Hp.
  destruct (record_details cfg st nmi suffix device_num std) as [[nd ws] msgs].
  injection Hp as <-. simpl.
  eexists. rewrite lookup_bucket_store, decide_True by done.
  split; [reflexivity |]. simpl. split_and!.
  - apply list_lookup_insert_eq. lia.
  - apply list_lookup_insert_eq. lia.
  - intros j Hj. by rewrite !list_lookup_insert_ne.
  - intros nmi' suffix' date' Hne. by rewrite lookup_bucket_store, decide_False.
Qed.

Lemma stored_row_overwrites_one_slot_witness :
  ∃ st st' day',
    read_rows default_config initial_state [sample_row_with_value "n/a"]
    = Some st
    ∧ process_row default_config st sample_row = Some st'
    ∧ lookup_bucket (data st') "NMI123456" "E1" sample_date = Some day'
    ∧ intervals day' !! Z.to_nat 1 = Some (float_of_string "1.234")
    ∧ quality day' !! Z.to_nat 1 = Some "A".
Proof.
  destruct (read_rows default_config initial_state
              [sample_row_with_value "n/a"]) as [st|] eqn:Hr;
    [| vm_compute in Hr; discriminate].
  destruct (process_row default_config st sample_row) as [st'|] eqn:Hp.
  - destruct (stored_row_overwrites_one_slot default_config
                [sample_row_with_value "n/a"] st st' sample_row
                "NMI123456" "E1" sample_date 1
                (S754_finite false 5557441940175192 (-52)) "A" "DEV1" true
                Hr eq_refl Hp)
      as (day' & H1 & H2 & H3 & _).
    exists st, st', day'. by split_and!.
  - exfalso. vm_compute in Hr. injection Hr as <-. vm_compute in Hp.
    discriminate.
Defined.

(** ** Stream details *)

Lemma record_details_kept (cfg : config) (st : reader_state)
    (nmi suffix device_num : string) (std : bool)
    (nd : gmap string (gmap string details)) (ws : gset (string * string))
    (msgs : list message) (nmi' suffix' : string) (det : details) :
  record_details cfg st nmi suffix device_num std = (nd, ws, msgs) →
  details_of st nmi' suffix' = Some det →
  default ∅ (nd !! nmi') !! suffix' = Some det.
Proof.
  unfold record_details, details_of.
  destruct (default ∅ (nmi_details st !! nmi) !! suffix) as [d0|] eqn:Hd.
  - intros [= <- <- <-] Hdet.
    destruct (decide (nmi = nmi')) as [<- | Hne].
    + by rewrite lookup_insert_eq.
    + by rewrite lookup_insert_ne.
  - intros [= <- <- <-] Hdet.
    destruct (decide (nmi = nmi')) as [<- | Hne].
    + rewrite lookup_insert_eq. simpl.
      destruct (decide (suffix = suffix')) as [<- | Hs]; [congruence |].
      by rewrite lookup_insert_ne.
    + by rewrite lookup_insert_ne.
Qed.

Lemma process_row_details_kept (cfg : config) (st st' : reader_state) (r : row)
    (nmi suffix : string) (det : details) :
  process_row cfg st r = Some st' →
  details_of st nmi suffix = Some det → details_of st' nmi suffix = Some det.
Proof.
  unfold process_row.
  destruct (classify_row cfg r) as [| n s d idx v q dev std].
  { by intros [= <-]. }
  destruct (list_setitem (intervals _) idx (Some v)) as [ivs|]; simpl; [| done].
  destruct (list_setitem (quality _) idx q) as [qs|]; simpl; [| done].
  destruct (record_details cfg st n s dev std) as [[nd ws] msgs] eqn:Hrd.
  intros [= <-] Hdet. unfold details_of. simpl.
  by apply (record_details_kept cfg st n s dev std nd ws msgs).
Qed.

Lemma read_rows_details_kept (cfg : config) (rows : list row)
    (st st' : reader_state) (nmi suffix : string) (det : details) :
  read_rows cfg st rows = Some st' →
  details_of st nmi suffix = Some det → details_of st' nmi suffix = Some det.
Proof.
  revert st. induction rows as [|r rows IH]; intros st; simpl.
  - by intros [= <-].
  - destruct (process_row cfg st r) as [st1|] eqn:Hp; simpl; [| done].
    intros Hrest Hdet. apply (IH st1 Hrest).
    by apply (process_row_details_kept cfg st st1 r).
Qed.

(** The details of a stream are those of the first row stored for it:
    the suffix, the kind read off its first letter, the device number of
    that row, kWh and the interval length; no later row changes them,
    whatever device number it carries. *)
Theorem details_first_seen_wins (cfg : config) (st st1 st' : reader_state)
    (r : row) (rest : list row)
    (nmi suffix : string) (interval_date : date) (idx : Z)
    (v : pyfloat) (q device_num : string) (std : bool) :
  classify_row cfg r = Stored nmi suffix interval_date idx v q device_num std →
  details_of st nmi suffix = None →
  process_row cfg st r = Some st1 →
  read_rows cfg st1 rest = Some st' →
  details_of st' nmi suffix
  = Some (Details suffix (mdm_data_stream_id suffix) device_num DEFAULT_UOM
                  (INTERVAL_LENGTH cfg) "").
Proof.
  intros Hclass Hnone Hp Hrest.
  apply (read_rows_details_kept cfg rest st1 st' _ _ _ Hrest).
  unfold process_row in Hp. rewrite Hclass in Hp.
  destruct (list_setitem (intervals _) idx (Some v)) as [ivs|]; simpl in Hp;
    [| done].
  destruct (list_setitem (quality _) idx q) as [qs|]; simpl in Hp; [| done].
  unfold record_details in Hp. unfold details_of in Hnone.
  rewrite Hnone in Hp. injection Hp as <-.
  unfold details_of. simpl.
  rewrite lookup_insert_eq. simpl. by rewrite lookup_insert_eq.
Qed.

Lemma details_first_seen_wins_witness :
  ∃ st1 st',
    process_row default_config initial_state sample_row = Some st1
    ∧ read_rows default_config st1
        [Row (Some "NMI123456") (Some "X#E1") (Some "02/06/2024 01:00:00 PM")
             (Some "2") (Some "A") (Some "OTHER")] = Some st'
    ∧ details_of st' "NMI123456" "E1"
      = Some (Details "E1" CONSUMPTION "DEV1" "kWh" 30 "").
Proof.
  destruct (process_row default_config initial_state sample_row)
    as [st1|] eqn:Hp; [| vm_compute in Hp; discriminate].
  destruct (read_rows default_config st1
              [Row (Some "NMI123456") (Some "X#E1")
                   (Some "02/06/2024 01:00:00 PM")
                   (Some "2") (Some "A") (Some "OTHER")])
    as [st'|] eqn:Hr.
  - exists st1, st'. split; [reflexivity |]. split; [exact Hr |].
    apply (details_first_seen_wins default_config initial_state st1 st'
             sample_row _ "NMI123456" "E1" sample_date 1
             (S754_finite false 5557441940175192 (-52)) "A" "DEV1" true
             eq_refl eq_refl Hp Hr).
  - exfalso. vm_compute in Hp. injection Hp as <-. vm_compute in Hr.
    discriminate.
Defined.

(** ** Row counters *)

Lemma process_row_counters (cfg : config) (st st' : reader_state) (r : row) :
  process_row cfg st r = Some st' →
  row_count st' = row_count st + 1
  ∧ (if skip_condition cfg r
     then skipped_rows st' = skipped_rows st + 1
          ∧ processed_rows st' = processed_rows st
     else skipped_rows st' = skipped_rows st
          ∧ processed_rows st' = processed_rows st + 1).
Proof.
  unfold process_row.
  destruct (classify_row cfg r) as [| n s d idx v q dev std] eqn:Hc.
  - apply classify_row_skipped in Hc. rewrite Hc. by intros [= <-].
  - assert (Hs : skip_condition cfg r = false).
    { destruct (skip_condition cfg r) eqn:Hs; [| done].
      apply classify_row_skipped in Hs. congruence. }
    rewrite Hs.
    destruct (list_setitem (intervals _) idx (Some v)); simpl; [| done].
    destruct (list_setitem (quality _) idx q); simpl; [| done].
    destruct (record_details cfg st n s dev std) as [[nd ws] msgs].
    by intros [= <-].
Qed.

Lemma read_rows_counters (cfg : config) (rows : list row)
    (st st' : reader_state) :
  read_rows cfg st rows = Some st' →
  row_count st' = row_count st + Z.of_nat (length rows)
  ∧ skipped_rows st'
    = skipped_rows st + Z.of_nat (length (filter (λ r, skip_condition cfg r = true) rows))
  ∧ processed_rows st'
    = processed_rows st
      + Z.of_nat (length (filter (λ r, skip_condition cfg r = false) rows)).
Proof.
  revert st. induction rows as [|r rows IH]; intros st; simpl.
  - intros [= <-]. lia.
  - destruct (process_row cfg st r) as [st1|] eqn:Hp; simpl; [| done].
    intros Hrest. destruct (IH st1 Hrest) as (H1 & H2 & H3).
    destruct (process_row_counters cfg st st1 r Hp) as [Hc Hsp].
    rewrite !filter_cons.
    destruct (skip_condition cfg r) eqn:Hs; destruct Hsp as [Hs1 Hs2];
      repeat case_decide; try done; simpl; lia.
Qed.

(** The end-of-run figures: the rows read are all the rows of the file,
    each of them counted once, as skipped when it meets a skip condition
    and as processed otherwise. *)
Theorem row_counters_partition (cfg : config) (rows : list row) :
  ∃ st, read_rows cfg initial_state rows = Some st
    ∧ row_count st = Z.of_nat (length rows)
    ∧ skipped_rows st
      = Z.of_nat (length (filter (λ r, skip_condition cfg r = true) rows))
    ∧ processed_rows st
      = Z.of_nat (length (filter (λ r, skip_condition cfg r = false) rows))
    ∧ row_count st = processed_rows st + skipped_rows st.
Proof.
  destruct (read_rows_ok cfg rows initial_state (data_ok_initial cfg))
    as (st & Hread & _).
  destruct (read_rows_counters cfg rows initial_state st Hread) as (H1 & H2 & H3).
  simpl in *. exists st. split_and!; try done.
  rewrite H1, H2, H3.
  clear. induction rows as [|r rows IH]; [done |].
  rewrite !filter_cons. destruct (skip_condition cfg r);
    repeat case_decide; try done; simpl in *; lia.
Qed.

(** ** Warnings *)

Lemma details_of_touch (m : gmap string (gmap string details))
    (n n' s' : string) :
  default ∅ (<[n := default ∅ (m !! n)]> m !! n') !! s'
  = default ∅ (m !! n') !! s'.
Proof.
  destruct (decide (n = n')) as [<- | Hne].
  - by rewrite lookup_insert_eq.
  - by rewrite lookup_insert_ne.
Qed.

Lemma details_of_insert (m : gmap string (gmap string details))
    (n s n' s' : string) (entry : details) :
  default ∅ (<[n := <[s := entry]> (default ∅ (m !! n))]> m !! n') !! s'
  = if decide (n = n' ∧ s = s') then Some entry
    else default ∅ (m !! n') !! s'.
Proof.
  destruct (decide (n = n')) as [<- | Hne].
  - rewrite lookup_insert_eq. simpl.
    destruct (decide (s = s')) as [<- | Hs].
    + rewrite lookup_insert_eq. by rewrite decide_True.
    + rewrite lookup_insert_ne by done. by rewrite decide_False by tauto.
  - rewrite lookup_insert_ne by done. by rewrite decide_False by tauto.
Qed.

Lemma process_row_warnings (cfg : config) (st st' : reader_state) (r : row) :
  warnings_ok st → process_row cfg st r = Some st' → warnings_ok st'.
Proof.
  intros (Hnd & Honly & Hiff & Hset). unfold process_row.
  destruct (classify_row cfg r) as [| n s d idx v q dev std] eqn:Hclass.
  { by intros [= <-]. }
  apply classify_row_stored in Hclass
    as (code0 & vs & flag & dt & _ & _ & _ & _ & _ & _ & _ & _ & _ & Hsfx & _).
  apply suffix_after_last_hash in Hsfx as (_ & _ & _ & Hstd).
  destruct (list_setitem (intervals _) idx (Some v)) as [ivs|]; simpl; [| done].
  destruct (list_setitem (quality _) idx q) as [qs|]; simpl; [| done].
  unfold record_details.
  destruct (default ∅ (nmi_details st !! n) !! s) as [det0|] eqn:Hd.
  - intros [= <-]. unfold warnings_ok, details_of. simpl.
    rewrite app_nil_r. split_and!; try done.
    + intros n' s'. rewrite details_of_touch. apply Hiff.
    + intros n' s'. rewrite details_of_touch. apply Hset.
  - assert (Hnotin : (n, s) ∉ warned_suffixes st).
    { intros Hin. apply Hset in Hin as [x Hx].
      unfold details_of in Hx. congruence. }
    rewrite (bool_decide_eq_true_2 _ Hnotin), andb_true_r.
    assert (Hnew : WarnSuffix n s ∉ printed st).
    { intros Hin. apply Hiff in Hin as [[x Hx] _].
      unfold details_of in Hx. congruence. }
    intros [= <-]. unfold warnings_ok, details_of. simpl.
    destruct std; simpl.
    + rewrite app_nil_r. split_and!; try done.
      * intros n' s'. rewrite details_of_insert. case_decide as Hk.
        -- destruct Hk as [<- <-]. split.
           ++ intros Hin. by destruct Hnew.
           ++ intros [_ Hf]. congruence.
        -- apply Hiff.
      * intros n' s' Hin. rewrite details_of_insert.
        case_decide; [eauto | by apply Hset].
    + split_and!.
      * apply NoDup_app. split_and!; [done | | apply NoDup_singleton].
        intros m Hm Hm'. apply list_elem_of_singleton in Hm' as ->. done.
      * intros m Hm. apply elem_of_app in Hm as [Hm | Hm]; [by apply Honly |].
        apply list_elem_of_singleton in Hm as ->. eauto.
      * intros n' s'. rewrite details_of_insert, elem_of_app, list_elem_of_singleton.
        case_decide as Hk.
        -- destruct Hk as [<- <-]. split; [| by intros; right].
           intros _. split; [eauto | done].
        -- rewrite Hiff. split; [| by left].
           intros [H | [= <- <-]]; [done | tauto].
      * intros n' s' Hin. rewrite details_of_insert.
        case_decide; [eauto |].
        apply elem_of_union in Hin as [Hin | Hin]; [| by apply Hset].
        apply elem_of_singleton in Hin as [= <- <-]. tauto.
Qed.

Lemma read_rows_warnings (cfg : config) (rows : list row)
    (st st' : reader_state) :
  warnings_ok st → read_rows cfg st rows = Some st' → warnings_ok st'.
Proof.
  revert st. induction rows as [|r rows IH]; intros st Hw; simpl.
  - by intros [= <-].
  - destruct (process_row cfg st r) as [st1|] eqn:Hp; simpl; [| done].
    apply IH. by apply (process_row_warnings cfg st st1 r).
Qed.

(** While reading, the program prints suffix warnings only, and never the
    same one twice: a meter and suffix pair is warned about exactly when
    it has been given details and its suffix is off the pattern. *)
Theorem suffix_warned_once (cfg : config) (rows : list row) :
  ∃ st, read_rows cfg initial_state rows = Some st
    ∧ NoDup (printed st)
    ∧ (∀ m, m ∈ printed st → ∃ n s, m = WarnSuffix n s)
    ∧ (∀ n s, WarnSuffix n s ∈ printed st
              ↔ is_Some (details_of st n s) ∧ is_standard_suffix s = false).
Proof.
  destruct (read_rows_ok cfg rows initial_state (data_ok_initial cfg))
    as (st & Hread & _).
  exists st. split; [done |].
  assert (Hinit : warnings_ok initial_state).
  { unfold warnings_ok, details_of. simpl. split_and!.
    - constructor.
    - intros m Hm. by apply elem_of_nil in Hm.
    - intros n s. rewrite elem_of_nil, lookup_empty. simpl.
      rewrite lookup_empty. split; [done |]. by intros [[x Hx] _].
    - intros n s Hin. by apply not_elem_of_empty in Hin. }
  destruct (read_rows_warnings cfg rows _ st Hinit Hread) as (H1 & H2 & H3 & _).
  by split_and!.
Qed.

(** ** The outcome of a run *)

Lemma process_row_data_empty (cfg : config) (st st' : reader_state) (r : row) :
  process_row cfg st r = Some st' →
  (data st' = ∅ ↔ data st = ∅ ∧ skip_condition cfg r = true).
Proof.
  unfold process_row.
  destruct (classify_row cfg r) as [| n s d idx v q dev std] eqn:Hc.
  - apply classify_row_skipped in Hc. intros [= <-]. simpl. tauto.
  - assert (Hs : skip_condition cfg r = false).
    { destruct (skip_condition cfg r) eqn:Hs; [| done].
      apply classify_row_skipped in Hs. congruence. }
    destruct (list_setitem (intervals _) idx (Some v)); simpl; [| done].
    destruct (list_setitem (quality _) idx q); simpl; [| done].
    destruct (record_details cfg st n s dev std) as [[nd ws] msgs].
    intros [= <-]. simpl. unfold store_bucket. split.
    + intros He. exfalso. exact (insert_non_empty _ _ _ He).
    + intros [_ Hf]. congruence.
Qed.

Lemma read_rows_data_empty (cfg : config) (rows : list row)
    (st st' : reader_state) :
  read_rows cfg st rows = Some st' →
  (data st' = ∅
   ↔ data st = ∅ ∧ Forall (λ r, skip_condition cfg r = true) rows).
Proof.
  revert st. induction rows as [|r rows IH]; intros st; simpl.
  - intros [= <-]. split; [by intros; split | tauto].
  - destruct (process_row cfg st r) as [st1|] eqn:Hp; simpl; [| done].
    intros Hrest. rewrite (IH st1 Hrest), (process_row_data_empty cfg st st1 r Hp).
    rewrite Forall_cons. tauto.
Qed.

Lemma headers_present (names : list string) :
  forallb (λ h, bool_decide (h ∈ names)) expected_headers = true
  ↔ ∀ h, h ∈ expected_headers → h ∈ names.
Proof.
  rewrite forallb_forall. split.
  - intros H h Hh. apply list_elem_of_In in Hh.
    specialize (H h Hh). by apply bool_decide_eq_true in H.
  - intros H h Hh. apply bool_decide_eq_true_2, H. by apply list_elem_of_In.
Qed.

(** The run ends with status 0 exactly when the input is read to its
    end, its header has the six columns and, in case some row passes the
    checks, the output path takes every record; it ends with status 1
    otherwise.  The output file holds all the records exactly when some
    row passes the checks and the output path takes every record.  It is
    opened and left with a part of the records at most exactly when some
    row passes the checks and a write fails after the opening, and the
    status is then 1. *)
Theorem conversion_outcome (cfg : config) (now : datetime)
    (input_filepath output_filepath : string)
    (input : input_source) (sink : output_sink) :
  let o :=
    convert_agl_to_nem12 cfg now input_filepath output_filepath input sink in
  (exit_status o = 0
   ↔ ∃ file, input = InputRead file
             ∧ (∀ h, h ∈ expected_headers → h ∈ fieldnames file)
             ∧ (Exists (λ r, skip_condition cfg r = false) (rows file) →
                sink = SinkAccepts))
  ∧ (exit_status o = 0 ∨ exit_status o = 1)
  ∧ ((∃ recs, output o = Written recs)
     ↔ ∃ file, input = InputRead file
               ∧ (∀ h, h ∈ expected_headers → h ∈ fieldnames file)
               ∧ Exists (λ r, skip_condition cfg r = false) (rows file)
               ∧ sink = SinkAccepts)
  ∧ (output o = Partial
     ↔ ∃ file printed_before,
         input = InputRead file
         ∧ (∀ h, h ∈ expected_headers → h ∈ fieldnames file)
         ∧ Exists (λ r, skip_condition cfg r = false) (rows file)
         ∧ sink = SinkBreaks printed_before)
  ∧ (output o = Partial → exit_status o = 1).
Proof.
  unfold convert_agl_to_nem12.
  assert (Hbad : ∀ msgs,
    let o := Outcome 1 msgs NotWritten in
    (∀ file, input = InputRead file →
       (∀ h, h ∈ expected_headers → h ∈ fieldnames file) → False) →
    (exit_status o = 0
     ↔ ∃ file, input = InputRead file
               ∧ (∀ h, h ∈ expected_headers → h ∈ fieldnames file)
               ∧ (Exists (λ r, skip_condition cfg r = false) (rows file) →
                  sink = SinkAccepts))
    ∧ (exit_status o = 0 ∨ exit_status o = 1)
    ∧ ((∃ recs, output o = Written recs)
       ↔ ∃ file, input = InputRead file
                 ∧ (∀ h, h ∈ expected_headers → h ∈ fieldnames file)
                 ∧ Exists (λ r, skip_condition cfg r = false) (rows file)
                 ∧ sink = SinkAccepts)
    ∧ (output o = Partial
       ↔ ∃ file printed_before,
           input = InputRead file
           ∧ (∀ h, h ∈ expected_headers → h ∈ fieldnames file)
           ∧ Exists (λ r, skip_condition cfg r = false) (rows file)
           ∧ sink = SinkBreaks printed_before)
    ∧ (output o = Partial → exit_status o = 1)).
  { intros msgs o Hno. subst o. simpl. split_and!; [| by right | | | done].
    - split; [done |]. intros (f & Hf & Hh & _). by destruct (Hno f).
    - split; [by intros [recs [=]] |]. intros (f & Hf & Hh & _).
      by destruct (Hno f).
    - split; [done |]. intros (f & k & Hf & Hh & _). by destruct (Hno f). }
  destruct input as [| | file | file]; cbn zeta.
  1, 2: by apply Hbad.
  2: { destruct (negb (forallb _ expected_headers)); [by apply Hbad |].
       destruct (read_rows cfg initial_state (rows file)); by apply Hbad. }
  clear Hbad.
  destruct (forallb (λ h, bool_decide (h ∈ fieldnames file)) expected_headers)
    eqn:Hh; cbn [negb].
  2: { simpl. assert (Hno : ¬ ∀ h, h ∈ expected_headers → h ∈ fieldnames file).
       { intros H. apply headers_present in H. congruence. }
       split_and!; [| by right | | | done].
       - split; [done |]. by intros (f & [= <-] & H & _).
       - split; [by intros [recs [=]] |]. by intros (f & [= <-] & H & _).
       - split; [done |]. by intros (f & k & [= <-] & H & _). }
  pose proof (proj1 (headers_present (fieldnames file)) Hh) as Hhead.
  destruct (read_rows_ok cfg (rows file) initial_state (data_ok_initial cfg))
    as (st & Hread & Hok).
  pose proof (read_rows_cover cfg _ _ st details_cover_initial Hread) as Hcov.
  pose proof (read_rows_data_empty cfg _ _ st Hread) as Hempty.
  rewrite Hread. cbn [negb].
  assert (Hstored : data st ≠ ∅
                    ↔ Exists (λ r, skip_condition cfg r = false) (rows file)).
  { split.
    - intros Hd.
      destruct (decide (Exists (λ r, skip_condition cfg r = false) (rows file)))
        as [Hex | Hnex]; [done |].
      exfalso. apply Hd, Hempty. split; [done |].
      apply Forall_forall. intros r Hr.
      destruct (skip_condition cfg r) eqn:Hs; [done |].
      exfalso. apply Hnex, Exists_exists. eauto.
    - intros Hex Hd. apply Hempty in Hd as [_ Hall].
      apply Exists_exists in Hex as (r & Hr & Hs).
      rewrite Forall_forall in Hall. specialize (Hall r Hr). congruence. }
  case_bool_decide as Hd; simpl.
  - assert (Hnone : ¬ Exists (λ r, skip_condition cfg r = false) (rows file)).
    { intros Hex. by apply Hstored in Hex. }
    split_and!; [| by left | | | done].
    + split; [| done]. intros _. exists file. by split_and!.
    + split; [by intros [recs [=]] |]. by intros (f & [= <-] & _ & Hex & _).
    + split; [done |]. by intros (f & k & [= <-] & _ & Hex & _).
  - apply Hstored in Hd.
    destruct (write_nem12_total cfg now st Hok Hcov) as (recs & msgs & Hw & _).
    unfold write_output.
    destruct sink as [| | k]; rewrite ?Hw; simpl.
    + split_and!; [| by left | | | done].
      * split; [| done]. intros _. exists file. by split_and!.
      * split; [| eauto]. intros _. exists file. by split_and!.
      * split; [done |]. by intros (f & k & _ & _ & _ & [=]).
    + split_and!; [| by right | | | done].
      * split; [done |]. intros (f & [= <-] & _ & Hs). by specialize (Hs Hd).
      * split; [by intros [r [=]] |]. by intros (f & _ & _ & _ & [=]).
      * split; [done |]. by intros (f & k & _ & _ & _ & [=]).
    + split_and!; [| by right | | | done].
      * split; [done |]. intros (f & [= <-] & _ & Hs). by specialize (Hs Hd).
      * split; [by intros [r [=]] |]. by intros (f & _ & _ & _ & [=]).
      * split; [| done]. intros _. exists file, k. by split_and!.
Qed.

(** ** The quality of a day with gaps *)

Lemma final_quality_N (cfg : config) (day : day_data) :
  day_ok cfg day →
  "N" ∈ (rendered_slots day).*2
  ↔ ∃ j v, intervals day !! j = Some (Some v) ∧ quality day !! j = Some "N".
Proof.
  intros Hok. rewrite list_elem_of_fmap. split.
  - intros ([p q] & Hq & Hin). simpl in Hq. subst q.
    apply list_elem_of_lookup in Hin as [j Hj].
    unfold rendered_slots in Hj.
    apply lookup_zip_with_Some in Hj as (val & q0 & Hr & Hi & Hq0).
    exists j. unfold render_slot in Hr.
    destruct val as [v|]; [| by injection Hr].
    exists v. split; [done |].
    destruct (String.eqb_spec q0 "") as [Hq | Hq]; [discriminate Hr |].
    congruence.
  - intros (j & v & Hi & Hq).
    destruct (rendered_slot_filled cfg day j v Hok Hi) as (q & Hq' & _ & Hr).
    rewrite Hq in Hq'. injection Hq' as <-.
    exists (format_3f v, "N"). split; [done |].
    by apply list_elem_of_lookup_2 in Hr.
Qed.

(** A day with at least one unfilled slot never gets the day quality A,
    E or F: it gets N when one of its filled slots has the code N, and S
    otherwise. *)
Theorem partial_day_quality (cfg : config) (prev : list row)
    (st : reader_state) (nmi suffix : string) (interval_date : date)
    (day : day_data) (i : nat) :
  read_rows cfg initial_state prev = Some st →
  lookup_bucket (data st) nmi suffix interval_date = Some day →
  intervals day !! i = Some None →
  (determine_day_quality (rendered_slots day).*2 = "N"
   ∨ determine_day_quality (rendered_slots day).*2 = "S")
  ∧ (determine_day_quality (rendered_slots day).*2 = "N"
     ↔ ∃ j v, intervals day !! j = Some (Some v)
              ∧ quality day !! j = Some "N").
Proof.
  intros Hread Hl Hi.
  pose proof (read_rows_Some_ok cfg prev st Hread _ _ _ _ Hl) as Hok.
  assert (HS : "S" ∈ (rendered_slots day).*2).
  { apply list_elem_of_fmap. exists ("0.000", "S"). split; [done |].
    eapply list_elem_of_lookup_2. by apply (rendered_slot_unfilled cfg). }
  rewrite determine_day_quality_first_present.
  unfold first_present, code_priority. simpl.
  rewrite <- (final_quality_N cfg day Hok).
  rewrite (bool_decide_eq_true_2 _ HS).
  case_bool_decide as HN; simpl.
  - split; [by left |]. split; [by intros _ | done].
  - split; [by right |]. split; [discriminate | by intros H].
Qed.

Lemma partial_day_quality_witness :
  ∃ st day,
    read_rows default_config initial_state [sample_row] = Some st
    ∧ lookup_bucket (data st) "NMI123456" "E1" sample_date = Some day
    ∧ (determine_day_quality (rendered_slots day).*2 = "N"
       ∨ determine_day_quality (rendered_slots day).*2 = "S")
    ∧ (determine_day_quality (rendered_slots day).*2 = "N"
       ↔ ∃ j v, intervals day !! j = Some (Some v)
                ∧ quality day !! j = Some "N").
Proof.
  destruct (read_rows default_config initial_state [sample_row])
    as [st|] eqn:Hr; [| vm_compute in Hr; discriminate].
  destruct (lookup_bucket (data st) "NMI123456" "E1" sample_date)
    as [day|] eqn:Hl.
  - exists st, day. split; [reflexivity |]. split; [exact Hl |].
    apply (partial_day_quality default_config [sample_row] st
             "NMI123456" "E1" sample_date day 0 Hr Hl).
    vm_compute in Hr. injection Hr as <-. vm_compute in Hl.
    injection Hl as <-. reflexivity.
  - exfalso. vm_compute in Hr. injection Hr as <-. vm_compute in Hl.
    discriminate.
Defined.

(** ** The layout of the file written *)

Lemma for_each_Forall {A} (f : A → option (list record * list message))
    (l : list A) (P : record → Prop) (Q : message → Prop)
    (r : list record) (m : list message) :
  for_each f l = Some (r, m) →
  (∀ x r0 m0, x ∈ l → f x = Some (r0, m0) → Forall P r0 ∧ Forall Q m0) →
  Forall P r ∧ Forall Q m.
Proof.
  revert r m. induction l as [|x l IH]; intros r m; simpl.
  - intros [= <- <-] _. by split.
  - destruct (f x) as [[r1 m1]|] eqn:Hx; simpl; [| done].
    destruct (for_each f l) as [[r2 m2]|] eqn:Hl; simpl; [| done].
    intros [= <- <-] Hf.
    destruct (Hf x r1 m1 ltac:(by left) Hx) as [HP HQ].
    destruct (IH r2 m2 eq_refl) as [HP2 HQ2].
    { intros y r0 m0 Hy. apply Hf. by right. }
    split; by apply Forall_app.
Qed.

Lemma write_day_records (cfg : config) (nmi suffix : string)
    (interval_date : date) (day : day_data)
    (r : list record) (m : list message) :
  write_day cfg nmi suffix interval_date day = Some (r, m) →
  Forall (λ rec, record_type rec = "300") r
  ∧ Forall (λ msg, is_inconsistency msg = true) m.
Proof.
  unfold write_day. destruct (all_None (intervals day)).
  { intros [= <- <-]. by split. }
  destruct (render_slots (intervals day) (quality day) 0) as [[ps fs]|];
    simpl; [| done].
  destruct (negb _).
  - intros [= <- <-]. split; by repeat constructor.
  - intros [= <- <-]. split; by repeat constructor.
Qed.

Lemma write_stream_records (cfg : config) (st : reader_state)
    (nmi nmi_config_string suffix : string)
    (r : list record) (m : list message) :
  write_stream cfg st nmi nmi_config_string suffix = Some (r, m) →
  ∃ det days,
    details_of st nmi suffix = Some det
    ∧ r = ["200"; nmi; nmi_config_string; ""; NMISuffix det;
           stream_kind_name (MDMDataStreamIdentifier det);
           MeterSerialNumber det; UOM det; str_of_Z (IntervalLength det);
           NextScheduledReadDate det] :: days
    ∧ Forall (λ rec, record_type rec = "300") days
    ∧ Forall (λ msg, is_inconsistency msg = true) m.
Proof.
  unfold write_stream, details_of.
  destruct (default ∅ (nmi_details st !! nmi) !! suffix) as [det|]; simpl;
    [| done].
  destruct (for_each _ _) as [[days msgs]|] eqn:Hdays; simpl; [| done].
  intros [= <- <-]. exists det, days. split_and!; try done.
  - eapply (for_each_Forall _ _ _ (λ msg, is_inconsistency msg = true));
      [exact Hdays |].
    intros d r0 m0 _. simpl.
    destruct (_ !! d) as [day|]; simpl; [| done].
    apply write_day_records.
  - eapply (for_each_Forall _ _ (λ rec, record_type rec = "300"));
      [exact Hdays |].
    intros d r0 m0 _. simpl.
    destruct (_ !! d) as [day|]; simpl; [| done].
    apply write_day_records.
Qed.

(** Truncation keeps at most the asked number of characters, and all of a
    text that is not longer. *)
Lemma take_string_length (n : nat) (s : string) :
  (String.length (take_string n s) ≤ n)%nat
  ∧ ((String.length s ≤ n)%nat → take_string n s = s).
Proof.
  unfold take_string. revert n. induction s as [|c s IH]; intros n.
  - destruct n; simpl; split; auto with lia.
  - destruct n as [|n]; simpl.
    + split; [lia |]. intros H. lia.
    + destruct (IH n) as [H1 H2]. split; [lia |].
      intros H. rewrite H2 by lia. done.
Qed.

Lemma process_row_details_ok (cfg : config) (st st' : reader_state) (r : row) :
  details_ok cfg st → process_row cfg st r = Some st' → details_ok cfg st'.
Proof.
  intros Hok. unfold process_row.
  destruct (classify_row cfg r) as [| n s d idx v q dev std].
  { by intros [= <-]. }
  destruct (list_setitem (intervals _) idx (Some v)) as [ivs|]; simpl; [| done].
  destruct (list_setitem (quality _) idx q) as [qs|]; simpl; [| done].
  unfold record_details.
  destruct (default ∅ (nmi_details st !! n) !! s) as [det0|] eqn:Hd.
  - intros [= <-] n' s' det. unfold details_of. simpl.
    rewrite details_of_touch. apply Hok.
  - intros [= <-] n' s' det. unfold details_of. simpl.
    rewrite details_of_insert. case_decide as Hk.
    + destruct Hk as [<- <-]. intros [= <-]. by exists dev.
    + apply Hok.
Qed.

Lemma read_rows_details_ok (cfg : config) (rows : list row)
    (st st' : reader_state) :
  details_ok cfg st → read_rows cfg st rows = Some st' → details_ok cfg st'.
Proof.
  revert st. induction rows as [|r rows IH]; intros st Hok; simpl.
  - by intros [= <-].
  - destruct (process_row cfg st r) as [st1|] eqn:Hp; simpl; [| done].
    apply IH. by apply (process_row_details_ok cfg st st1 r).
Qed.

Lemma details_ok_initial (cfg : config) : details_ok cfg initial_state.
Proof.
  intros n s det. unfold details_of. simpl. by rewrite lookup_empty.
Qed.

(** The file written starts with the file header, ends with the trailer,
    and holds stream headers and day records only in between; the writer
    prints nothing but truncation warnings and inconsistency errors. *)
Theorem file_layout (cfg : config) (now : datetime) (st : reader_state)
    (recs : list record) (msgs : list message) :
  write_nem12 cfg now st = Some (recs, msgs) →
  ∃ body,
    recs = ["100"; NEM12_VERSION; format_nem12_datetime now;
            FROM_PARTICIPANT; TO_PARTICIPANT] :: body ++ [ ["900"] ]
    ∧ Forall (λ rec, record_type rec = "200" ∨ record_type rec = "300") body
    ∧ Forall (λ msg, is_inconsistency msg = true
                     ∨ ∃ nmi, msg = WarnTruncating nmi) msgs.
Proof.
  unfold write_nem12.
  destruct (for_each (write_nmi cfg st) (sorted_strings (data st)))
    as [[body m]|] eqn:Hbody; simpl; [| done].
  intros [= <- <-]. exists body. split; [done |].
  eapply (for_each_Forall (write_nmi cfg st)); [exact Hbody |].
  intros nmi r0 m0 _. unfold write_nmi.
  destruct (for_each (write_stream cfg st nmi _) _) as [[r1 m1]|] eqn:Hs;
    simpl; [| done].
  intros [= <- <-].
  eapply (for_each_Forall _ _
            (λ rec, record_type rec = "200" ∨ record_type rec = "300")
            (λ msg, is_inconsistency msg = true ∨ ∃ n, msg = WarnTruncating n))
    in Hs as [HP HQ].
  - split; [done |]. apply Forall_app. split; [| done].
    destruct (255 <? _)%nat; [| constructor].
    constructor; [right; eauto | constructor].
  - intros sfx r2 m2 _ Hw.
    apply write_stream_records in Hw as (det & days & _ & -> & Hd & Hm).
    split.
    + constructor; [by left |].
      eapply Forall_impl; [exact Hd |]. by right.
    + eapply Forall_impl; [exact Hm |]. by left.
Qed.

Lemma file_layout_witness :
  ∃ st recs msgs body,
    read_rows default_config initial_state [sample_row] = Some st
    ∧ write_nem12 default_config sample_now st = Some (recs, msgs)
    ∧ recs = ["100"; NEM12_VERSION; format_nem12_datetime sample_now;
              FROM_PARTICIPANT; TO_PARTICIPANT] :: body ++ [ ["900"] ]
    ∧ Forall (λ rec, record_type rec = "200" ∨ record_type rec = "300") body.
Proof.
  destruct (read_rows default_config initial_state [sample_row])
    as [st|] eqn:Hr; [| vm_compute in Hr; discriminate].
  destruct (write_nem12 default_config sample_now st) as [[recs msgs]|] eqn:Hw.
  - destruct (file_layout default_config sample_now st recs msgs Hw)
      as (body & H1 & H2 & _).
    exists st, recs, msgs, body. by split_and!.
  - exfalso. vm_compute in Hr. injection Hr as <-. vm_compute in Hw.
    discriminate.
Defined.

(** For a meter of a run, every record that the writer emits is a day
    record or the header of one of the streams of the meter: the header
    carries the meter, the suffixes of the meter joined in sorted order
    and cut to 255 characters at most, the suffix, the kind read off the
    suffix, the device number, kWh and the interval length.  The
    truncation warning is printed exactly when the joined suffixes are
    longer than 255 characters. *)
Theorem meter_records_layout (cfg : config) (rows : list row)
    (st : reader_state) (nmi : string)
    (r : list record) (m : list message) :
  read_rows cfg initial_state rows = Some st →
  write_nmi cfg st nmi = Some (r, m) →
  let joined :=
    String.concat "" (sorted_strings (default ∅ (nmi_details st !! nmi))) in
  Forall (λ rec,
            record_type rec = "300"
            ∨ ∃ suffix device_num,
                is_Some (details_of st nmi suffix)
                ∧ rec = ["200"; nmi; take_string 255 joined; ""; suffix;
                         stream_kind_name (mdm_data_stream_id suffix);
                         device_num; "kWh"; str_of_Z (INTERVAL_LENGTH cfg); ""]) r
  ∧ (String.length (take_string 255 joined) ≤ 255)%nat
  ∧ (WarnTruncating nmi ∈ m ↔ (255 < String.length joined)%nat).
Proof.
  intros Hread. pose proof (read_rows_details_ok cfg rows _ st
                              (details_ok_initial cfg) Hread) as Hdet.
  unfold write_nmi. simpl.
  set (joined := String.concat ""
                   (sorted_strings (default ∅ (nmi_details st !! nmi)))).
  assert (Hcs : (if (255 <? String.length joined)%nat
                 then take_string 255 joined else joined)
                = take_string 255 joined).
  { destruct (Nat.ltb_spec 255 (String.length joined)); [done |].
    symmetry. by apply take_string_length. }
  rewrite Hcs.
  destruct (for_each (write_stream cfg st nmi _) _) as [[r1 m1]|] eqn:Hs;
    simpl; [| done].
  intros [= <- <-].
  eapply (for_each_Forall _ _
            (λ rec, record_type rec = "300"
                    ∨ ∃ suffix device_num,
                        is_Some (details_of st nmi suffix)
                        ∧ rec = ["200"; nmi; take_string 255 joined; ""; suffix;
                                 stream_kind_name (mdm_data_stream_id suffix);
                                 device_num; "kWh";
                                 str_of_Z (INTERVAL_LENGTH cfg); ""])
            (λ msg, is_inconsistency msg = true))
    in Hs as [HP HQ].
  - split; [done |]. split; [apply take_string_length |].
    rewrite elem_of_app. split.
    + intros [Hin | Hin].
      * destruct (Nat.ltb_spec 255 (String.length joined)); [done |].
        by apply elem_of_nil in Hin.
      * rewrite Forall_forall in HQ. by specialize (HQ _ Hin).
    + intros Hlong. left.
      destruct (Nat.ltb_spec 255 (String.length joined)); [by left | lia].
  - intros sfx r2 m2 _ Hw.
    apply write_stream_records in Hw as (det & days & Hd & -> & Hdays & Hm).
    split; [| done].
    constructor.
    + right. destruct (Hdet nmi sfx det Hd) as [dev ->].
      exists sfx, dev. split; [by rewrite Hd |]. done.
    + eapply Forall_impl; [exact Hdays |]. by left.
Qed.

Lemma meter_records_layout_witness :
  ∃ st r m,
    read_rows default_config initial_state [sample_row] = Some st
    ∧ write_nmi default_config st "NMI123456" = Some (r, m)
    ∧ ¬ WarnTruncating "NMI123456" ∈ m.
Proof.
  destruct (read_rows default_config initial_state [sample_row])
    as [st|] eqn:Hr; [| vm_compute in Hr; discriminate].
  destruct (write_nmi default_config st "NMI123456") as [[r m]|] eqn:Hw.
  - exists st, r, m. split; [reflexivity |]. split; [exact Hw |].
    destruct (meter_records_layout default_config [sample_row] st
                "NMI123456" r m Hr Hw) as (_ & _ & Hwarn).
    intros Hin. apply Hwarn in Hin.
    vm_compute in Hr. injection Hr as <-. vm_compute in Hin.
    repeat (apply le_S_n in Hin). inversion Hin.
  - exfalso. vm_compute in Hr. injection Hr as <-. vm_compute in Hw.
    discriminate.
Defined.

(** ** The order of the records *)

#[local] Instance string_le_total : Total string_le.
Proof. intros s1 s2. apply String.leb_total. Qed.

#[local] Instance date_le_total : Total date_le.
Proof. intros d1 d2. unfold date_le. lia. Qed.

Lemma for_each_Forall2 {A} (f : A → option (list record * list message))
    (l : list A) (R : A → record → Prop)
    (r : list record) (m : list message) :
  for_each f l = Some (r, m) →
  (∀ x, x ∈ l → ∃ rec, f x = Some ([rec], []) ∧ R x rec) →
  Forall2 R l r ∧ m = [].
Proof.
  revert r m. induction l as [|x l IH]; intros r m; simpl.
  - intros [= <- <-] _. by split.
  - intros Heq Hf.
    destruct (Hf x ltac:(by left)) as (rec & Hx & HR).
    rewrite Hx in Heq. simpl in Heq.
    destruct (for_each f l) as [[r2 m2]|] eqn:Hl; simpl in Heq; [| done].
    injection Heq as <- <-.
    destruct (IH r2 m2 eq_refl) as [H2 ->].
    { intros y Hy. apply Hf. by right. }
    split; [by constructor | done].
Qed.

(** The day records of a stream follow its header one per date of the
    stream, each rendered from the bucket of its date, in ascending order
    of the dates and without repeating a date; nothing is printed. *)
Theorem stream_days_in_date_order (cfg : config) (rows : list row)
    (st : reader_state) (nmi nmi_config_string suffix : string)
    (recs : list record) (msgs : list message) :
  read_rows cfg initial_state rows = Some st →
  write_stream cfg st nmi nmi_config_string suffix = Some (recs, msgs) →
  let dates := sorted_dates (default ∅ (default ∅ (data st !! nmi) !! suffix)) in
  Forall2 (λ d rec, ∃ day, lookup_bucket (data st) nmi suffix d = Some day
                           ∧ rec = day_record d day) dates (tail recs)
  ∧ (∀ d, d ∈ dates ↔ is_Some (lookup_bucket (data st) nmi suffix d))
  ∧ Sorted date_le dates ∧ NoDup dates ∧ msgs = [].
Proof.
  intros Hread Hw.
  pose proof (read_rows_Some_ok cfg rows st Hread) as Hok.
  unfold write_stream in Hw.
  destruct (default ∅ (nmi_details st !! nmi) !! suffix) as [det|];
    simpl in Hw; [| done].
  set (m := default ∅ (default ∅ (data st !! nmi) !! suffix)) in *.
  assert (Hm : ∀ d, m !! d = lookup_bucket (data st) nmi suffix d)
    by (intros d; apply default_lookup_bucket).
  destruct (for_each _ (sorted_dates m)) as [[days ms]|] eqn:Hdays;
    simpl in Hw; [| done].
  injection Hw as <- <-. simpl.
  apply (for_each_Forall2 _ _
           (λ d rec, ∃ day, lookup_bucket (data st) nmi suffix d = Some day
                            ∧ rec = day_record d day)) in Hdays as [HF ->].
  - split_and!; try done.
    + intros d. rewrite <- Hm. apply elem_of_sorted_dates.
    + apply Sorted_merge_sort. apply _.
    + apply NoDup_sorted_dates.
  - intros d Hd. apply elem_of_sorted_dates in Hd as [day Hday].
    rewrite Hday. simpl. rewrite Hm in Hday.
    rewrite (write_day_ok cfg nmi suffix d day (Hok _ _ _ _ Hday)).
    eexists. split; [reflexivity |]. by exists day.
Qed.

Lemma stream_days_in_date_order_witness :
  ∃ st recs msgs,
    read_rows default_config initial_state [sample_row] = Some st
    ∧ write_stream default_config st "NMI123456" "E1" "E1" = Some (recs, msgs)
    ∧ Sorted date_le
        (sorted_dates (default ∅ (default ∅ (data st !! "NMI123456") !! "E1")))
    ∧ msgs = [].
Proof.
  destruct (read_rows default_config initial_state [sample_row])
    as [st|] eqn:Hr; [| vm_compute in Hr; discriminate].
  destruct (write_stream default_config st "NMI123456" "E1" "E1")
    as [[recs msgs]|] eqn:Hw.
  - destruct (stream_days_in_date_order default_config [sample_row] st
                "NMI123456" "E1" "E1" recs msgs Hr Hw)
      as (_ & _ & H3 & _ & H5).
    exists st, recs, msgs. by split_and!.
  - exfalso. vm_compute in Hr. injection Hr as <-. vm_compute in Hw.
    discriminate.
Defined.

Lemma for_each_filter {A B} (f : A → option (list record * list message))
    (l : list A) (P : record → Prop) `{∀ rec, Decision (P rec)}
    (h : record → B) (g : A → list B)
    (r : list record) (m : list message) :
  for_each f l = Some (r, m) →
  (∀ x r0 m0, x ∈ l → f x = Some (r0, m0) → h <$> filter P r0 = g x) →
  h <$> filter P r = flat_map g l.
Proof.
  revert r m. induction l as [|x l IH]; intros r m; simpl.
  - by intros [= <- <-] _.
  - destruct (f x) as [[r1 m1]|] eqn:Hx; simpl; [| done].
    destruct (for_each f l) as [[r2 m2]|] eqn:Hl; simpl; [| done].
    intros [= <- <-] Hf.
    rewrite filter_app, fmap_app.
    rewrite (Hf x r1 m1 ltac:(by left) Hx).
    rewrite (IH r2 m2 eq_refl); [done |].
    intros y r0 m0 Hy. apply Hf. by right.
Qed.

Lemma fmap_as_flat_map {A B} (g : A → B) (l : list A) :
  g <$> l = flat_map (λ x, [g x]) l.
Proof.
  induction l as [|x l IH]; [done |].
  rewrite fmap_cons. simpl. by rewrite IH.
Qed.

Lemma filter_header_days (header : record) (days : list record) :
  record_type header = "200" →
  Forall (λ rec, record_type rec = "300") days →
  filter (λ rec, record_type rec = "200") (header :: days) = [header].
Proof.
  intros Hh Hd. rewrite filter_cons, decide_True by done. f_equal.
  induction Hd as [|d days Hd _ IH]; [done |].
  rewrite filter_cons, decide_False; [done |]. rewrite Hd. discriminate.
Qed.

(** The stream headers of the file come one per stream that has details,
    meter by meter in ascending order of the meters that have data, and
    for each meter in ascending order of its suffixes. *)
Theorem stream_headers_in_order (cfg : config) (rows : list row)
    (now : datetime) (st : reader_state)
    (recs : list record) (msgs : list message) :
  read_rows cfg initial_state rows = Some st →
  write_nem12 cfg now st = Some (recs, msgs) →
  (λ rec, (rec !! 1%nat, rec !! 4%nat))
    <$> filter (λ rec, record_type rec = "200") recs
  = flat_map (λ nmi, (λ suffix, (Some nmi, Some suffix))
                       <$> sorted_strings (default ∅ (nmi_details st !! nmi)))
             (sorted_strings (data st))
  ∧ Sorted string_le (sorted_strings (data st))
  ∧ NoDup (sorted_strings (data st))
  ∧ ∀ nmi, Sorted string_le (sorted_strings (default ∅ (nmi_details st !! nmi)))
           ∧ NoDup (sorted_strings (default ∅ (nmi_details st !! nmi))).
Proof.
  intros Hread Hw.
  pose proof (read_rows_details_ok cfg rows _ st
                (details_ok_initial cfg) Hread) as Hdet.
  split_and!.
  2: { apply Sorted_merge_sort. apply _. }
  2: { apply NoDup_sorted_strings. }
  2: { intros nmi. split; [apply Sorted_merge_sort; apply _ |].
       apply NoDup_sorted_strings. }
  unfold write_nem12 in Hw.
  destruct (for_each (write_nmi cfg st) (sorted_strings (data st)))
    as [[body m]|] eqn:Hbody; simpl in Hw; [| done].
  injection Hw as <- <-.
  rewrite filter_cons, decide_False by (simpl; discriminate).
  rewrite filter_app.
  rewrite (filter_cons _ ["900"]), decide_False by (simpl; discriminate).
  rewrite filter_nil, app_nil_r.
  eapply for_each_filter; [exact Hbody |].
  intros nmi r0 m0 _. unfold write_nmi.
  destruct (for_each (write_stream cfg st nmi _) _) as [[r1 m1]|] eqn:Hs;
    simpl; [| done].
  intros [= <- <-].
  rewrite (fmap_as_flat_map (λ suffix : string, (Some nmi, Some suffix))).
  eapply for_each_filter; [exact Hs |].
  intros sfx r2 m2 _ Hstream.
  apply write_stream_records in Hstream as (det & days & Hd & -> & Hdays & _).
  rewrite filter_header_days by done.
  destruct (Hdet nmi sfx det Hd) as [dev ->]. reflexivity.
Qed.

Lemma stream_headers_in_order_witness :
  ∃ st recs msgs,
    read_rows default_config initial_state [sample_row] = Some st
    ∧ write_nem12 default_config sample_now st = Some (recs, msgs)
    ∧ (λ rec, (rec !! 1%nat, rec !! 4%nat))
        <$> filter (λ rec, record_type rec = "200") recs
      = flat_map (λ nmi, (λ suffix, (Some nmi, Some suffix))
                           <$> sorted_strings (default ∅ (nmi_details st !! nmi)))
                 (sorted_strings (data st)).
Proof.
  destruct (read_rows default_config initial_state [sample_row])
    as [st|] eqn:Hr; [| vm_compute in Hr; discriminate].
  destruct (write_nem12 default_config sample_now st) as [[recs msgs]|] eqn:Hw.
  - destruct (stream_headers_in_order default_config [sample_row] sample_now
                st recs msgs Hr Hw) as (H1 & _).
    exists st, recs, msgs. by split_and!.
  - exfalso. vm_compute in Hr. injection Hr as <-. vm_compute in Hw.
    discriminate.
Defined.

(** ** Timestamps in the two-digit format *)

Lemma first_match_bind {A B} (p : parser A) (f : A → parser B)
    (s : string) (v : A) (r : string) (w : B) (r' : string) :
  first_match p s v r → first_match (f v) r w r' →
  first_match (p_bind p f) s w r'.
Proof.
  intros [o1 H1] [o2 H2]. unfold first_match, p_bind. rewrite H1. simpl.
  rewrite H2. simpl. eauto.
Qed.

Lemma first_match_ret {A} (v : A) (s : string) : first_match (p_ret v) s v s.
Proof. by exists []. Qed.

Lemma first_match_lit (c : ascii) (r : string) :
  first_match (p_lit c) (String c r) tt r.
Proof. unfold first_match, p_lit. rewrite Ascii.eqb_refl. by exists []. Qed.

(** The numbers from [lo] to [hi], one by one. *)
Lemma range_cases (lo hi d : Z) :
  lo <= d <= hi →
  In d (map (λ i, lo + Z.of_nat i) (seq 0 (Z.to_nat (hi - lo + 1)))).
Proof.
  intros H. apply in_map_iff. exists (Z.to_nat (d - lo)). split; [lia |].
  apply in_seq. lia.
Qed.

Ltac by_cases H :=
  apply range_cases in H; vm_compute in H;
  repeat (destruct H as [<- | H]); [.. | destruct H].

Lemma first_match_day (d : Z) (r : string) :
  1 <= d <= 31 → first_match p_day (two_digits d +:+ r) d r.
Proof. intros H. by_cases H; eexists; reflexivity. Qed.

Lemma first_match_1_to_12 (n : Z) (r : string) :
  1 <= n <= 12 → first_match p_1_to_12 (two_digits n +:+ r) n r.
Proof. intros H. by_cases H; eexists; reflexivity. Qed.

Lemma first_match_two_digits (n : Z) (r : string) :
  0 <= n <= 99 →
  first_match (two_chars (λ a b, is_digit a && is_digit b))
              (two_digits n +:+ r) n r.
Proof. intros H. by_cases H; eexists; reflexivity. Qed.

Lemma first_match_minute (n : Z) (r : string) :
  0 <= n <= 59 → first_match p_minute (two_digits n +:+ r) n r.
Proof. intros H. by_cases H; eexists; reflexivity. Qed.

Lemma first_match_second (n : Z) (r : string) :
  0 <= n <= 59 → first_match p_second (two_digits n +:+ r) n r.
Proof. intros H. by_cases H; eexists; reflexivity. Qed.

Lemma first_match_year (y : Z) (r : string) :
  0 <= y <= 9999 →
  first_match p_year
    (two_digits (y `div` 100) +:+ two_digits (y `mod` 100) +:+ r) y r.
Proof.
  intros H. unfold p_year.
  eapply first_match_bind.
  { apply first_match_two_digits.
    pose proof (Z.div_mod y 100 ltac:(lia)).
    pose proof (Z.mod_pos_bound y 100 ltac:(lia)). lia. }
  eapply first_match_bind.
  { apply first_match_two_digits.
    pose proof (Z.mod_pos_bound y 100 ltac:(lia)). lia. }
  replace y with (100 * (y `div` 100) + y `mod` 100) at 3
    by (symmetry; apply Z.div_mod; lia).
  apply first_match_ret.
Qed.

(** One blank before a text that does not start with a blank. *)
Lemma first_match_blank (c : ascii) (r : string) :
  is_space c = false → first_match p_spaces (String " " (String c r)) tt (String c r).
Proof.
  intros Hc. unfold first_match, p_spaces. simpl. rewrite Hc. simpl.
  by exists [].
Qed.

Lemma digit_char_not_space (q : Z) :
  0 <= q <= 9 → is_space (digit_char q) = false.
Proof. intros H. by_cases H; reflexivity. Qed.

Lemma two_digits_first (n : Z) (r : string) :
  0 <= n <= 99 →
  ∃ c r', two_digits n +:+ r = String c r' ∧ is_space c = false.
Proof.
  intros H. exists (digit_char (n `div` 10)). eexists. split; [reflexivity |].
  apply digit_char_not_space.
  pose proof (Z.div_mod n 10 ltac:(lia)).
  pose proof (Z.mod_pos_bound n 10 ltac:(lia)). lia.
Qed.

Lemma hour12_range (h : Z) : 0 <= h <= 23 → 1 <= hour12 h <= 12.
Proof.
  intros H. unfold hour12. pose proof (Z.mod_pos_bound h 12 ltac:(lia)).
  destruct (Z.eqb_spec (h `mod` 12) 0); lia.
Qed.

Lemma hour24_hour12 (h : Z) :
  0 <= h <= 23 → hour24 (hour12 h) (negb (h <? 12)) = h.
Proof. intros H. by_cases H; reflexivity. Qed.

(** A date and time of the calendar, written as DD/MM/YYYY hh:mm:ss and
    AM or PM with two digits for each field, parses to itself. *)
Theorem agl_timestamp_roundtrip (dt : datetime) :
  valid_date (dt_date dt) = true →
  valid_time (hour dt) (minute dt) (second dt) = true →
  parse_agl_datetime (Some (agl_text dt)) = Some dt.
Proof.
  intros Hd Ht.
  destruct dt as [[y m d] h mi s]. simpl in *.
  unfold valid_date in Hd. simpl in Hd.
  repeat (apply andb_true_iff in Hd as [Hd ?]).
  unfold valid_time in Ht.
  repeat (apply andb_true_iff in Ht as [Ht ?]).
  assert (Hdim : days_in_month y m <= 31).
  { unfold days_in_month. repeat (destruct (_ =? _)); try destruct (is_leap y); simpl; lia. }
  pose proof (hour12_range h ltac:(lia)) as Hh12.
  assert (Hfirst : first_match p_agl_format
                     (agl_text (DateTime (Date y m d) h mi s))
                     (Fields d m y (hour12 h) mi s (negb (h <? 12))) "").
  { unfold p_agl_format, agl_text. simpl dt_date. simpl d_day. simpl d_month.
    simpl d_year. simpl hour. simpl minute. simpl second.
    destruct (h <? 12); simpl negb.
    all: eapply first_match_bind; [apply first_match_day; lia |].
    all: eapply first_match_bind; [apply first_match_lit |].
    all: eapply first_match_bind; [apply first_match_1_to_12; lia |].
    all: eapply first_match_bind; [apply first_match_lit |].
    all: eapply first_match_bind; [apply first_match_year; lia |].
    all: match goal with
         | |- first_match _ (" " +:+ two_digits ?n +:+ ?r) _ _ =>
             destruct (two_digits_first n r) as (c & r' & Hc & Hsp); [lia |];
             eapply first_match_bind;
             [ change (" " +:+ two_digits n +:+ r)
                 with (String " " (two_digits n +:+ r));
               rewrite Hc; by apply first_match_blank
             | rewrite <- Hc ]
         end.
    all: eapply first_match_bind; [apply first_match_1_to_12; lia |].
    all: eapply first_match_bind; [apply first_match_lit |].
    all: eapply first_match_bind; [apply first_match_minute; lia |].
    all: eapply first_match_bind; [apply first_match_lit |].
    all: eapply first_match_bind; [apply first_match_second; lia |].
    all: eapply first_match_bind; [by apply first_match_blank |].
    all: eapply first_match_bind; [by exists [] |].
    all: apply first_match_ret. }
  destruct Hfirst as [others Hfirst].
  unfold parse_agl_datetime.
  assert (Hne : String.eqb (agl_text (DateTime (Date y m d) h mi s)) "" = false)
    by reflexivity.
  rewrite Hne. unfold strptime_agl. rewrite Hfirst. simpl.
  rewrite hour24_hour12 by lia.
  unfold valid_date, valid_time. simpl.
  repeat match goal with
         | H : (_ <=? _) = true |- _ => rewrite H
         end.
  reflexivity.
Qed.

Lemma agl_timestamp_roundtrip_witness :
  parse_agl_datetime (Some (agl_text (DateTime (Date 2024 2 29) 23 5 9)))
  = Some (DateTime (Date 2024 2 29) 23 5 9).
Proof. apply agl_timestamp_roundtrip; reflexivity. Defined.

(** ** Readings with three decimals *)

Lemma in_ten (q : Z) : 0 <= q <= 9 → In q ten.
Proof. intros H. by_cases H; simpl; tauto. Qed.

Lemma reading_roundtrip_all :
  forallb (λ a, forallb (λ b, forallb (λ c, forallb (λ d,
    reading_roundtrip a b c d) ten) ten) ten) ten = true.
Proof. vm_compute. reflexivity. Qed.

(** A reading from 0.000 to 9.999 given with three decimals is read as a
    finite float that the writer formats back to the same text. *)
Theorem small_reading_roundtrip (a b c d : Z) :
  0 <= a <= 9 → 0 <= b <= 9 → 0 <= c <= 9 → 0 <= d <= 9 →
  ∃ v, float_of_string (reading_text a b c d) = Some v
       ∧ is_finite v = true
       ∧ format_3f v = reading_text a b c d.
Proof.
  intros Ha Hb Hc Hd.
  pose proof reading_roundtrip_all as Hall.
  rewrite forallb_forall in Hall. specialize (Hall a (in_ten a Ha)).
  rewrite forallb_forall in Hall. specialize (Hall b (in_ten b Hb)).
  rewrite forallb_forall in Hall. specialize (Hall c (in_ten c Hc)).
  rewrite forallb_forall in Hall. specialize (Hall d (in_ten d Hd)).
  unfold reading_roundtrip in Hall.
  destruct (float_of_string (reading_text a b c d)) as [v|]; [| discriminate].
  apply andb_true_iff in Hall as [Hfin Heq].
  exists v. split_and!; try done. by apply String.eqb_eq.
Qed.

Lemma small_reading_roundtrip_witness :
  ∃ v, float_of_string (reading_text 1 2 3 4) = Some v
       ∧ is_finite v = true
       ∧ format_3f v = reading_text 1 2 3 4.
Proof. apply (small_reading_roundtrip 1 2 3 4); lia. Defined.

(** ** The date field *)

Lemma pad_dec_2_digits (n : Z) : 0 <= n <= 99 → pad_dec 2 n = two_digits n.
Proof. intros H. by_cases H; reflexivity. Qed.

Lemma year_text_all :
  forallb (λ a, forallb (λ b, forallb (λ c, forallb (λ d,
    year_text_ok a b c d) ten) ten) ten) ten = true.
Proof. vm_compute. reflexivity. Qed.

Lemma dec_of_Z_4_digits (y : Z) :
  1000 <= y <= 9999 →
  dec_of_Z y = two_digits (y `div` 100) +:+ two_digits (y `mod` 100).
Proof.
  intros Hy.
  pose proof (Z.div_mod y 1000 ltac:(lia)).
  pose proof (Z.mod_pos_bound y 1000 ltac:(lia)).
  pose proof (Z.div_mod (y `mod` 1000) 100 ltac:(lia)).
  pose proof (Z.mod_pos_bound (y `mod` 1000) 100 ltac:(lia)).
  pose proof (Z.div_mod ((y `mod` 1000) `mod` 100) 10 ltac:(lia)).
  pose proof (Z.mod_pos_bound ((y `mod` 1000) `mod` 100) 10 ltac:(lia)).
  set (a := y `div` 1000) in *. set (r1 := y `mod` 1000) in *.
  set (b := r1 `div` 100) in *. set (r2 := r1 `mod` 100) in *.
  set (c := r2 `div` 10) in *. set (d := r2 `mod` 10) in *.
  pose proof year_text_all as Hall.
  rewrite forallb_forall in Hall. specialize (Hall a (in_ten a ltac:(lia))).
  rewrite forallb_forall in Hall. specialize (Hall b (in_ten b ltac:(lia))).
  rewrite forallb_forall in Hall. specialize (Hall c (in_ten c ltac:(lia))).
  rewrite forallb_forall in Hall. specialize (Hall d (in_ten d ltac:(lia))).
  unfold year_text_ok in Hall.
  apply orb_true_iff in Hall as [Ha | Hall]; [lia |].
  apply String.eqb_eq in Hall.
  replace (1000 * a + 100 * b + 10 * c + d) with y in Hall by lia.
  exact Hall.
Qed.

Lemma digit_val_digit_char (q : Z) : 0 <= q <= 9 → digit_val (digit_char q) = q.
Proof. intros H. by_cases H; reflexivity. Qed.

Lemma digit_char_is_digit (q : Z) : 0 <= q <= 9 → is_digit (digit_char q) = true.
Proof. intros H. by_cases H; reflexivity. Qed.

Lemma two_digits_inj (n n' : Z) :
  0 <= n <= 99 → 0 <= n' <= 99 → two_digits n = two_digits n' → n = n'.
Proof.
  intros Hn Hn' Heq. unfold two_digits in Heq. injection Heq as Hq Hr.
  pose proof (Z.div_mod n 10 ltac:(lia)).
  pose proof (Z.mod_pos_bound n 10 ltac:(lia)).
  pose proof (Z.div_mod n' 10 ltac:(lia)).
  pose proof (Z.mod_pos_bound n' 10 ltac:(lia)).
  apply (f_equal digit_val) in Hq, Hr.
  rewrite !digit_val_digit_char in Hq, Hr by lia. lia.
Qed.

(** The date field of a day record, for a date of the calendar from the
    year 1000 on, is the year on four digits, the month and the day on two:
    eight digits; and two such dates with the same field are the same
    date. *)
Theorem date_field_format (d1 d2 : date) :
  valid_date d1 = true → valid_date d2 = true →
  1000 <= d_year d1 → 1000 <= d_year d2 →
  format_nem12_date d1
  = two_digits (d_year d1 `div` 100) +:+ two_digits (d_year d1 `mod` 100)
    +:+ two_digits (d_month d1) +:+ two_digits (d_day d1)
  ∧ String.length (format_nem12_date d1) = 8%nat
  ∧ all_digits (format_nem12_date d1) = true
  ∧ (format_nem12_date d1 = format_nem12_date d2 → d1 = d2).
Proof.
  intros Hv1 Hv2 Hfour1 Hfour2.
  assert (Hb : ∀ d, valid_date d = true →
                 1 <= d_year d <= 9999 ∧ 1 <= d_month d <= 12
                 ∧ 1 <= d_day d <= 31).
  { intros d Hv. unfold valid_date in Hv.
    repeat (apply andb_true_iff in Hv as [Hv ?]).
    assert (days_in_month (d_year d) (d_month d) <= 31).
    { unfold days_in_month.
      repeat (destruct (_ =? _)); try destruct (is_leap _); simpl; lia. }
    lia. }
  assert (Hshape : ∀ d, valid_date d = true → 1000 <= d_year d →
            format_nem12_date d
            = two_digits (d_year d `div` 100) +:+ two_digits (d_year d `mod` 100)
              +:+ two_digits (d_month d) +:+ two_digits (d_day d)).
  { intros d Hv Hfour. destruct (Hb d Hv) as (Hy & Hm & Hd).
    unfold format_nem12_date.
    rewrite dec_of_Z_4_digits, !pad_dec_2_digits by lia. reflexivity. }
  assert (Hq : ∀ n, 0 <= n <= 99 → 0 <= n `div` 10 <= 9 ∧ 0 <= n `mod` 10 <= 9).
  { intros n Hn. pose proof (Z.div_mod n 10 ltac:(lia)).
    pose proof (Z.mod_pos_bound n 10 ltac:(lia)). lia. }
  assert (Hc : ∀ y, 1 <= y <= 9999 →
                 0 <= y `div` 100 <= 99 ∧ 0 <= y `mod` 100 <= 99).
  { intros y Hy. pose proof (Z.div_mod y 100 ltac:(lia)).
    pose proof (Z.mod_pos_bound y 100 ltac:(lia)). lia. }
  destruct (Hb d1 Hv1) as (Hy1 & Hm1 & Hd1).
  destruct (Hb d2 Hv2) as (Hy2 & Hm2 & Hd2).
  destruct (Hc _ Hy1) as [Hc1 Hr1]. destruct (Hc _ Hy2) as [Hc2 Hr2].
  rewrite (Hshape d1 Hv1 Hfour1). split_and!.
  - reflexivity.
  - reflexivity.
  - unfold all_digits, two_digits. simpl.
    rewrite !digit_char_is_digit; [done | ..]; by apply Hq; lia.
  - rewrite (Hshape d2 Hv2 Hfour2). unfold two_digits. simpl.
    intros [= E1 E2 E3 E4 E5 E6 E7 E8].
    assert (Hcen : d_year d1 `div` 100 = d_year d2 `div` 100).
    { apply two_digits_inj; [lia | lia |]. unfold two_digits. congruence. }
    assert (Hyr : d_year d1 `mod` 100 = d_year d2 `mod` 100).
    { apply two_digits_inj; [lia | lia |]. unfold two_digits. congruence. }
    assert (Hmo : d_month d1 = d_month d2).
    { apply two_digits_inj; [lia | lia |]. unfold two_digits. congruence. }
    assert (Hda : d_day d1 = d_day d2).
    { apply two_digits_inj; [lia | lia |]. unfold two_digits. congruence. }
    pose proof (Z.div_mod (d_year d1) 100 ltac:(lia)).
    pose proof (Z.div_mod (d_year d2) 100 ltac:(lia)).
    destruct d1, d2. simpl in *. f_equal; lia.
Qed.

Lemma date_field_format_witness :
  format_nem12_date sample_date
  = two_digits (2024 `div` 100) +:+ two_digits (2024 `mod` 100)
    +:+ two_digits 6 +:+ two_digits 1
  ∧ String.length (format_nem12_date sample_date) = 8%nat
  ∧ all_digits (format_nem12_date sample_date) = true
  ∧ (format_nem12_date sample_date = format_nem12_date (Date 2024 6 2) →
     sample_date = Date 2024 6 2).
Proof.
  apply (date_field_format sample_date (Date 2024 6 2));
    first [reflexivity | vm_compute; discriminate].
Defined.

(** ** The day records of the file *)

(** A day whose two lists have the length of a day gives no record when
    no slot is filled, and otherwise the one record of its cells; it
    prints nothing. *)
Lemma write_day_shaped (cfg : config) (nmi suffix : string)
    (interval_date : date) (day : day_data) :
  Z.of_nat (length (intervals day)) = INTERVALS_PER_DAY cfg →
  Z.of_nat (length (quality day)) = INTERVALS_PER_DAY cfg →
  write_day cfg nmi suffix interval_date day
  = Some (if all_None (intervals day) then []
          else [ ["300"; format_nem12_date interval_date]
                 ++ (rendered_slots day).*1
                 ++ [determine_day_quality (rendered_slots day).*2;
                     ""; ""; ""] ],
          []).
Proof.
  intros Hi Hq. unfold write_day.
  destruct (all_None (intervals day)); [done |].
  rewrite render_slots_zip by lia. rewrite drop_0. simpl.
  fold (rendered_slots day).
  assert (Hlen : Z.of_nat (length (rendered_slots day)) = INTERVALS_PER_DAY cfg).
  { unfold rendered_slots. rewrite length_zip_with_l_eq by lia. exact Hi. }
  rewrite length_fmap, Hlen, Z.eqb_refl. reflexivity.
Qed.

(** A loop whose turns all end, each with the records that [g] keeps of
    it under the filter, ends with the records of all the turns in order. *)
Lemma for_each_filter_total {A} (f : A → option (list record * list message))
    (l : list A) (P : record → Prop) `{∀ rec, Decision (P rec)}
    (g : A → list record) :
  (∀ x, x ∈ l → ∃ r m, f x = Some (r, m) ∧ filter P r = g x) →
  ∃ r m, for_each f l = Some (r, m) ∧ filter P r = flat_map g l.
Proof.
  induction l as [|x l IH]; intros Hf; simpl.
  - by exists [], [].
  - destruct (Hf x ltac:(by left)) as (r1 & m1 & Hx & Hg).
    destruct IH as (r2 & m2 & Hl & Hg2).
    { intros y Hy. apply Hf. by right. }
    rewrite Hx, Hl. simpl. exists (r1 ++ r2), (m1 ++ m2).
    split; [done |]. by rewrite filter_app, Hg, Hg2.
Qed.

Lemma filter_days_after_header (header : record) (days : list record) :
  record_type header = "200" →
  Forall (λ rec, record_type rec = "300") days →
  filter (λ rec, record_type rec = "300") (header :: days) = days.
Proof.
  intros Hh Hd. rewrite filter_cons, decide_False by (rewrite Hh; discriminate).
  induction Hd as [|d days Hd _ IH]; [done |].
  by rewrite filter_cons, decide_True, IH.
Qed.

(** The day records that one stream gets from a state whose buckets have
    the shape of a day. *)
Lemma write_stream_days (cfg : config) (st : reader_state)
    (nmi nmi_config_string suffix : string) :
  (∀ d day, lookup_bucket (data st) nmi suffix d = Some day →
     Z.of_nat (length (intervals day)) = INTERVALS_PER_DAY cfg
     ∧ Z.of_nat (length (quality day)) = INTERVALS_PER_DAY cfg) →
  is_Some (details_of st nmi suffix) →
  ∃ r m,
    write_stream cfg st nmi nmi_config_string suffix = Some (r, m)
    ∧ filter (λ rec, record_type rec = "300") r
      = flat_map
          (λ d, match lookup_bucket (data st) nmi suffix d with
                | Some day =>
                    if all_None (intervals day) then []
                    else [ ["300"; format_nem12_date d]
                           ++ (rendered_slots day).*1
                           ++ [determine_day_quality (rendered_slots day).*2;
                               ""; ""; ""] ]
                | None => []
                end)
          (sorted_dates (default ∅ (default ∅ (data st !! nmi) !! suffix))).
Proof.
  intros Hshape [det Hdet]. unfold write_stream.
  unfold details_of in Hdet. rewrite Hdet. simpl.
  set (m := default ∅ (default ∅ (data st !! nmi) !! suffix)).
  assert (Hm : ∀ d, m !! d = lookup_bucket (data st) nmi suffix d)
    by (intros d; apply default_lookup_bucket).
  set (g := λ d, match lookup_bucket (data st) nmi suffix d with
                 | Some day =>
                     if all_None (intervals day) then []
                     else [ ["300"; format_nem12_date d]
                            ++ (rendered_slots day).*1
                            ++ [determine_day_quality (rendered_slots day).*2;
                                ""; ""; ""] ]
                 | None => []
                 end).
  destruct (for_each_filter_total
              (λ interval_date, day ← m !! interval_date;
                                write_day cfg nmi suffix interval_date day)
              (sorted_dates m) (λ rec, record_type rec = "300") g)
    as (days & msgs & Hdays & Hfil).
  { intros d Hd. apply elem_of_sorted_dates in Hd as [day Hday].
    rewrite Hday. simpl. rewrite Hm in Hday.
    destruct (Hshape d day Hday) as [Hi Hq].
    rewrite (write_day_shaped cfg nmi suffix d day Hi Hq).
    eexists _, _. split; [reflexivity |].
    unfold g. rewrite Hday. destruct (all_None (intervals day)); [done |].
    by rewrite filter_cons, decide_True. }
  rewrite Hdays. simpl. eexists _, _. split; [reflexivity |].
  rewrite filter_cons, decide_False by (simpl; discriminate). exact Hfil.
Qed.

(** C1, as stated, fails on a reading whose value is too large for a
    float: the slot is filled, and it is rendered as [inf], not as a
    number with three decimals. *)
Lemma infinite_value_not_three_decimals :
  ¬ (∀ rec slot,
       sample_day_record default_config (sample_row_with_value "1e999")
       = Some rec →
       rec !! 3%nat = Some slot → is_three_decimals slot = true).
Proof.
  destruct (sample_day_record default_config (sample_row_with_value "1e999"))
    as [rec|] eqn:E; vm_compute in E; [| discriminate].
  injection E as <-. intros H.
  specialize (H _ "inf" eq_refl eq_refl). discriminate H.
Qed.

(** C1, amended.  In a state whose buckets all have the two lists of the
    length of a day, as every state the reader builds has, the writer ends
    and the day records of the file it writes are, in the order of the
    meters, of the suffixes of each meter and of the dates of each stream:
    none for a day with no filled slot, and exactly one for a day with a
    filled slot, each key being visited once.  The record holds one cell
    for each of the N slots: a filled slot is rendered with [.3f] and
    carries its recorded code, the default E standing in for an empty
    code, and when its value is finite the text has exactly three
    decimals; an unfilled slot is rendered as [0.000] with the code S,
    which is not the default E.  In a state built by the reader every
    bucket has a filled slot with a code that is not empty, and its
    stream has details, so that it gets its record. *)
Theorem day_record_rule (cfg : config) (now : datetime) (st : reader_state) :
  (∀ nmi suffix d day,
     lookup_bucket (data st) nmi suffix d = Some day →
     Z.of_nat (length (intervals day)) = INTERVALS_PER_DAY cfg
     ∧ Z.of_nat (length (quality day)) = INTERVALS_PER_DAY cfg) →
  (∃ recs msgs,
     write_nem12 cfg now st = Some (recs, msgs)
     ∧ filter (λ rec, record_type rec = "300") recs
       = flat_map (λ nmi,
           flat_map (λ suffix,
             flat_map (λ d,
               match lookup_bucket (data st) nmi suffix d with
               | Some day =>
                   if all_None (intervals day) then []
                   else [ ["300"; format_nem12_date d]
                          ++ (rendered_slots day).*1
                          ++ [determine_day_quality (rendered_slots day).*2;
                              ""; ""; ""] ]
               | None => []
               end)
               (sorted_dates (default ∅ (default ∅ (data st !! nmi) !! suffix))))
             (sorted_strings (default ∅ (nmi_details st !! nmi))))
           (sorted_strings (data st)))
  ∧ NoDup (sorted_strings (data st))
  ∧ (∀ nmi, nmi ∈ sorted_strings (data st) ↔ is_Some (data st !! nmi))
  ∧ (∀ nmi,
       NoDup (sorted_strings (default ∅ (nmi_details st !! nmi)))
       ∧ ∀ suffix,
           suffix ∈ sorted_strings (default ∅ (nmi_details st !! nmi))
           ↔ is_Some (details_of st nmi suffix))
  ∧ (∀ nmi suffix,
       NoDup (sorted_dates (default ∅ (default ∅ (data st !! nmi) !! suffix)))
       ∧ ∀ d,
           d ∈ sorted_dates (default ∅ (default ∅ (data st !! nmi) !! suffix))
           ↔ is_Some (lookup_bucket (data st) nmi suffix d))
  ∧ (∀ nmi suffix d day,
       lookup_bucket (data st) nmi suffix d = Some day →
       Z.of_nat (length (rendered_slots day)) = INTERVALS_PER_DAY cfg
       ∧ (∀ i v q,
            intervals day !! i = Some (Some v) → quality day !! i = Some q →
            rendered_slots day !! i
            = Some (format_3f v, if String.eqb q "" then DEFAULT_QUALITY else q)
            ∧ (is_finite v = true → is_three_decimals (format_3f v) = true))
       ∧ (∀ i, intervals day !! i = Some None →
            rendered_slots day !! i = Some ("0.000", "S")))
  ∧ "S" ≠ DEFAULT_QUALITY
  ∧ (∀ rows,
       read_rows cfg initial_state rows = Some st →
       ∀ nmi suffix d day,
         lookup_bucket (data st) nmi suffix d = Some day →
         all_None (intervals day) = false
         ∧ is_Some (details_of st nmi suffix)
         ∧ ∀ i v, intervals day !! i = Some (Some v) →
                  ∃ q, quality day !! i = Some q ∧ q ≠ "").
Proof.
  intros Hshape. split_and!.
  - unfold write_nem12.
    destruct (for_each_filter_total (write_nmi cfg st) (sorted_strings (data st))
                (λ rec, record_type rec = "300")
                (λ nmi,
                   flat_map (λ suffix,
                     flat_map (λ d,
                       match lookup_bucket (data st) nmi suffix d with
                       | Some day =>
                           if all_None (intervals day) then []
                           else [ ["300"; format_nem12_date d]
                                  ++ (rendered_slots day).*1
                                  ++ [determine_day_quality
                                        (rendered_slots day).*2; ""; ""; ""] ]
                       | None => []
                       end)
                       (sorted_dates
                          (default ∅ (default ∅ (data st !! nmi) !! suffix))))
                     (sorted_strings (default ∅ (nmi_details st !! nmi)))))
      as (body & msgs & Hbody & Hfil).
    { intros nmi _. unfold write_nmi.
      set (of_nmi := default ∅ (nmi_details st !! nmi)).
      set (cs := if (255 <? String.length
                              (String.concat "" (sorted_strings of_nmi)))%nat
                 then take_string 255 (String.concat "" (sorted_strings of_nmi))
                 else String.concat "" (sorted_strings of_nmi)).
      destruct (for_each_filter_total (write_stream cfg st nmi cs)
                  (sorted_strings of_nmi)
                  (λ rec, record_type rec = "300")
                  (λ suffix,
                     flat_map (λ d,
                       match lookup_bucket (data st) nmi suffix d with
                       | Some day =>
                           if all_None (intervals day) then []
                           else [ ["300"; format_nem12_date d]
                                  ++ (rendered_slots day).*1
                                  ++ [determine_day_quality
                                        (rendered_slots day).*2; ""; ""; ""] ]
                       | None => []
                       end)
                       (sorted_dates
                          (default ∅ (default ∅ (data st !! nmi) !! suffix)))))
        as (r & m & Hr & Hf).
      { intros suffix Hs. apply elem_of_sorted_strings in Hs.
        apply (write_stream_days cfg st nmi cs suffix); [| exact Hs].
        intros d day. apply Hshape. }
      rewrite Hr. simpl. eauto. }
    rewrite Hbody. simpl. eexists _, _. split; [reflexivity |].
    rewrite filter_cons, decide_False by (simpl; discriminate).
    rewrite filter_app.
    rewrite (filter_cons _ ["900"]), decide_False by (simpl; discriminate).
    rewrite filter_nil, app_nil_r. exact Hfil.
  - apply NoDup_sorted_strings.
  - intros nmi. apply elem_of_sorted_strings.
  - intros nmi. split; [apply NoDup_sorted_strings |].
    intros suffix. apply elem_of_sorted_strings.
  - intros nmi suffix. split; [apply NoDup_sorted_dates |].
    intros d. rewrite <- default_lookup_bucket. apply elem_of_sorted_dates.
  - intros nmi suffix d day Hl. destruct (Hshape _ _ _ _ Hl) as [Hi Hq].
    split_and!.
    + unfold rendered_slots. rewrite length_zip_with_l_eq by lia. exact Hi.
    + intros i v q Hv Hc. split; [| apply format_3f_finite].
      unfold rendered_slots. by rewrite lookup_zip_with, Hv, Hc.
    + intros i Hv.
      destruct (lookup_lt_is_Some_2 (quality day) i) as [q Hc].
      { apply lookup_lt_Some in Hv. lia. }
      unfold rendered_slots. by rewrite lookup_zip_with, Hv, Hc.
  - done.
  - intros rows Hread nmi suffix d day Hl.
    pose proof (read_rows_Some_ok cfg rows st Hread _ _ _ _ Hl) as Hok.
    pose proof (read_rows_cover cfg rows _ st details_cover_initial Hread
                  _ _ _ _ Hl) as Hcov.
    destruct Hok as [_ _ Hcoded Hfilled]. by split_and!.
Qed.

Lemma day_record_rule_witness :
  ∃ st recs msgs,
    sample_state_with_empty_day = Some st
    ∧ lookup_bucket (data st) "NMI123456" "E1" (Date 2024 6 2)
      = Some (new_day_data default_config)
    ∧ write_nem12 default_config sample_now st = Some (recs, msgs)
    ∧ filter (λ rec, record_type rec = "300") recs
      = [ ["300"; "20240601"; "0.000"; "1.234"] ++ replicate 46 "0.000"
          ++ ["S"; ""; ""; ""] ].
Proof.
  unfold sample_state_with_empty_day.
  destruct (read_rows default_config initial_state [sample_row])
    as [st1|] eqn:Hr; [| vm_compute in Hr; discriminate].
  simpl.
  set (st := ReaderState _ _ _ _ _ _ _).
  destruct (day_record_rule default_config sample_now st)
    as ((recs & msgs & Hw & Hfil) & _).
  { intros nmi suffix d day. subst st. simpl.
    rewrite lookup_bucket_store. case_decide as Hk.
    - intros [= <-]. by split.
    - intros Hl.
      by destruct (read_rows_Some_ok default_config [sample_row] st1 Hr
                     _ _ _ _ Hl). }
  exists st, recs, msgs. split_and!; [done | | done |].
  - subst st. simpl. rewrite lookup_bucket_store. by rewrite decide_True.
  - rewrite Hfil. subst st. vm_compute in Hr. injection Hr as <-.
    vm_compute. reflexivity.
Defined.
